(** * OKXAutoSwapBot: a shallow embedding of the price-conditional swap engine

    The development follows [src/unnamed/part_000] (the [OKXAutoSwapBot]
    class) and [src/config.js].

    - JavaScript numbers are IEEE-754 binary64 values; they are modelled
      by the Standard Library's [spec_float], compared with [SFleb], and
      tested for truthiness as JavaScript does (zero of either sign and
      NaN are falsy).
    - ethers [BigNumber]s are unbounded integers: [Z], with the
      truncating division of [BigNumber.div].
    - The bot object is a record; its methods are computations in a
      state-and-exception monad over a [Machine] that also holds the
      trace of every effect on the outside world.
    - The outside world (clock, HTTP service, ledger, signer, pending
      stop requests, library string conversions) is a [Runtime] whose
      answers are indexed by the machine's tick counter.  A [stop()]
      from a caller can run only while the bot is suspended in an
      await; that is where the model lets it run.
    - The monitoring loop is followed for a number of turns given as
      fuel; what is proved of it is proved for every amount of fuel.
    - [console.log] and [fs.writeFileSync] are recorded in the trace.
      [fs.writeFileSync] is synchronous and can throw (a full disk, a
      directory that cannot be written): the runtime answers every
      write, and a failed write throws out of [log] after the entry
      has been printed and pushed.  What holds only of writes that
      succeed says so in its statement.

    Layout: the embedding of the program; sample configurations and
    runtimes; the vocabulary of the properties; the proofs, by
    component; concrete runs. *)

From Stdlib Require Import ZArith List String Ascii Bool Lia.
From Stdlib Require Import Floats.SpecFloat.
From Stdlib Require Import Numbers.DecimalString.
Import ListNotations.

Local Open Scope list_scope.
Local Open Scope string_scope.

(* ===================================================================== *)
(** ** JavaScript values *)
(* ===================================================================== *)

Module JS.

(** A JavaScript [number]. *)
Definition number := spec_float.

(** The binary64 value nearest to an integer (exact below 2^53). *)
Definition of_Z (z : Z) : number := binary_normalize 53 1024 z 0 false.

(** [ToBoolean] on a number: [+0], [-0] and [NaN] are falsy. *)
Definition truthy (x : number) : bool :=
  match x with
  | S754_zero _ => false
  | S754_nan => false
  | S754_infinity _ => true
  | S754_finite _ _ _ => true
  end.

(** [x <= y] and [x >= y]; both are false when an operand is NaN. *)
Definition le (x y : number) : bool := SFleb x y.
Definition ge (x y : number) : bool := SFleb y x.
Definition lt (x y : number) : bool := SFltb x y.

(** [ToBoolean] on a string: only the empty string is falsy. *)
Definition truthy_string (s : string) : bool :=
  match s with
  | EmptyString => false
  | String _ _ => true
  end.

(** [x || d] for an optional property: [undefined] and falsy values
    give the default. *)
Definition or_default {A : Type} (is_truthy : A -> bool)
           (x : option A) (d : A) : A :=
  match x with
  | Some v => if is_truthy v then v else d
  | None => d
  end.

(** The integer a number denotes, when it denotes one ([value % 1]
    is zero); [None] for fractions, infinities and NaN. *)
Definition to_integer (x : number) : option Z :=
  match x with
  | S754_zero _ => Some 0%Z
  | S754_finite s m e =>
      let sign := if s then (-1)%Z else 1%Z in
      match e with
      | Z0 => Some (sign * Zpos m)%Z
      | Zpos p => Some (sign * (Zpos m * 2 ^ Zpos p))%Z
      | Zneg p =>
          if (Zpos m mod 2 ^ Zpos p =? 0)%Z
          then Some (sign * (Zpos m / 2 ^ Zpos p))%Z
          else None
      end
  | S754_infinity _ => None
  | S754_nan => None
  end.

End JS.

(* ===================================================================== *)
(** ** Results of fallible code: a value or a thrown [Error] *)
(* ===================================================================== *)

(** JavaScript exceptions are carried by their [message]. *)
Inductive Res (A : Type) : Type :=
| Ok (a : A)
| Throw (message : string).
Arguments Ok {A} a.
Arguments Throw {A} message.

(* ===================================================================== *)
(** ** ethers BigNumber *)
(* ===================================================================== *)

Module BigNumber.

(** [MAX_SAFE = 0x1fffffffffffff]. *)
Definition MAX_SAFE : Z := 9007199254740991.

(** [BigNumber.from(value)] for a JavaScript number: a fraction is
    rejected ("underflow"), a value outside the safe range, infinite
    values included, is rejected ("overflow"), and NaN is not a
    numeral.  The messages stand for the longer ones of the library. *)
Definition from_number (x : JS.number) : Res Z :=
  match x with
  | S754_nan => Throw "invalid BigNumber string"
  | S754_infinity _ => Throw "overflow"
  | _ =>
      match JS.to_integer x with
      | None => Throw "underflow"
      | Some z =>
          if ((MAX_SAFE <=? z) || (z <=? - MAX_SAFE))%Z
          then Throw "overflow"
          else Ok z
      end
  end.

(** [a.mul(n)] with [n] a JavaScript number. *)
Definition mul (a : Z) (n : JS.number) : Res Z :=
  match from_number n with
  | Ok z => Ok (a * z)%Z
  | Throw e => Throw e
  end.

(** [a.div(n)] with [n] a JavaScript number: truncating division;
    a zero divisor is rejected. *)
Definition div (a : Z) (n : JS.number) : Res Z :=
  match from_number n with
  | Ok z => if (z =? 0)%Z then Throw "division-by-zero"
            else Ok (Z.quot a z)
  | Throw e => Throw e
  end.

(** [a.toString()]: the decimal numeral of [a]. *)
Definition toString (a : Z) : string :=
  NilZero.string_of_int (Z.to_int a).

End BigNumber.

(* ===================================================================== *)
(** ** Configuration ([config] in part_000 and src/config.js) *)
(* ===================================================================== *)

(** Every property may be absent ([undefined]): [None]. *)
Record BuyWhen : Type := {
  priceBelow : option JS.number;
  priceIncrease : option JS.number }.

Record SellWhen : Type := {
  priceAbove : option JS.number;
  priceDecrease : option JS.number }.

Record Conditions : Type := {
  buyWhen : option BuyWhen;
  sellWhen : option SellWhen }.

Record Config : Type := {
  privateKey : string;
  rpcUrl : string;
  conditions : option Conditions;
  swapAmount : option JS.number;
  sellPercentage : option JS.number;
  slippage : option JS.number;
  checkInterval : option JS.number }.

(** The trade intent returned by [checkPriceConditions]. *)
Inductive Action : Type := buy | sell.

Record TradeIntent : Type := {
  action : Action;
  reason : string }.

Definition action_name (a : Action) : string :=
  match a with
  | buy => "buy"
  | sell => "sell"
  end.

(* ===================================================================== *)
(** ** The outside world *)
(* ===================================================================== *)

(** An axios call either rejects, or resolves with a body holding a
    status [code] and a [data] payload ([None] when the payload is
    absent or falsy).  A body that cannot be read at all makes the
    property access throw, which the callers treat as a rejection. *)
Inductive HttpResult (A : Type) : Type :=
| Rejected (message : string)
| Resolved (code : string) (data : option A).
Arguments Rejected {A} message.
Arguments Resolved {A} code data.

(** [response.data] of a resolved call. *)
Record Response (A : Type) : Type := {
  code : string;
  data : option A }.
Arguments code {A} r.
Arguments data {A} r.

(** Token payload; [price] is [parseFloat(tokenData.price)]. *)
Record TokenData : Type := { price : JS.number }.

(** Quote payload, opaque to the bot. *)
Record QuoteData : Type := { route : string }.

(** First element of the swap-build payload. *)
Record TxData : Type := {
  tx_to : string;
  tx_data : string;
  tx_value : option string;
  tx_gasLimit : option string }.

(** The transaction descriptor handed to the signer. *)
Record Tx : Type := {
  to_ : string;
  data_ : string;
  value_ : string;
  gasLimit_ : string;
  gasPrice_ : Z }.

Record TransactionResponse : Type := { hash : string }.
Record Receipt : Type := { blockNumber : Z }.

(** Parameters shared by the quote and the swap-build requests. *)
Record RouteRequest : Type := {
  rq_chainId : Z;
  rq_fromTokenAddress : string;
  rq_toTokenAddress : string;
  rq_amount : string;
  rq_slippage : JS.number;
  rq_userWalletAddress : string }.

(** Every effect on the outside world, with the answer it received.
    A write of the log file is recorded with its content; whether it
    returned or threw is the result of [saveLogs]. *)
Inductive Event : Type :=
| ConsoleLog (line : string)
| WriteLogFile (content : string)
| AxiosGetTokens (chain : Z) (tokenContractAddress : string)
                 (response : HttpResult TokenData)
| AxiosGetQuote (params : RouteRequest) (response : HttpResult QuoteData)
| AxiosPostSwap (params : RouteRequest) (sort feePercent : Z)
                (response : HttpResult (list TxData))
| WalletGetBalance (answer : Res Z)
| ContractBalanceOf (token owner : string) (answer : Res Z)
| ContractDecimals (token : string) (answer : Res Z)
| SendTransaction (tx : Tx) (answer : Res TransactionResponse)
| TransactionWait (txHash : string) (answer : Res Receipt)
| Sleep (ms : JS.number).

(** The services the bot runs against.  Answers are indexed by the
    machine's tick, so a runtime fixes one behaviour of the world and
    quantifying over runtimes covers them all.  [writeFileSync t] is
    what the write of the log file made at tick [t] does: it returns,
    or it throws.  [stopRequested t] tells whether a caller invokes
    [stop()] while the bot is suspended in the await issued at tick
    [t]. *)
Class Runtime : Type := {
  now : nat -> string;
  numberToString : JS.number -> string;
  formatEther : Z -> Res string;
  formatUnits : Z -> Z -> Res string;
  parseEther : string -> Res Z;
  parseUnits : string -> Z -> Res Z;
  axiosGetTokens : nat -> HttpResult TokenData;
  axiosGetQuote : nat -> HttpResult QuoteData;
  axiosPostSwap : nat -> HttpResult (list TxData);
  walletGetBalance : nat -> Res Z;
  contractBalanceOf : nat -> Res Z;
  contractDecimals : nat -> Res Z;
  walletSendTransaction : nat -> Res TransactionResponse;
  transactionWait : nat -> Res Receipt;
  writeFileSync : nat -> Res unit;
  stopRequested : nat -> bool }.

(** Message of the [TypeError] raised when a property of [undefined]
    is read. *)
Definition TypeError (property : string) : string :=
  "Cannot read properties of undefined (reading '" ++ property ++ "')".

(** [ethers.constants.AddressZero]. *)
Definition AddressZero : string :=
  "0x0000000000000000000000000000000000000000".

Definition newline : string := String (ascii_of_nat 10) EmptyString.

(* ===================================================================== *)
(** ** The bot object and the machine it runs on *)
(* ===================================================================== *)

Record Bot : Type := {
  config : Config;
  walletAddress : string;
  isRunning : bool;
  logs : list string;
  tokenAddress : string;
  chainId : Z;
  baseURL : string }.

Record Machine : Type := {
  bot : Bot;
  trace : list Event;
  tick : nat }.

Definition set_isRunning (v : bool) (b : Bot) : Bot :=
  {| config := config b; walletAddress := walletAddress b;
     isRunning := v; logs := logs b;
     tokenAddress := tokenAddress b; chainId := chainId b;
     baseURL := baseURL b |}.

(** [this.logs.push(entry)]. *)
Definition push_log (entry : string) (b : Bot) : Bot :=
  {| config := config b; walletAddress := walletAddress b;
     isRunning := isRunning b; logs := (logs b ++ [entry])%list;
     tokenAddress := tokenAddress b; chainId := chainId b;
     baseURL := baseURL b |}.

Definition with_bot (f : Bot -> Bot) (m : Machine) : Machine :=
  {| bot := f (bot m); trace := trace m; tick := tick m |}.

Definition emit (ev : Event) (m : Machine) : Machine :=
  {| bot := bot m; trace := (trace m ++ [ev])%list; tick := tick m |}.

Definition next_tick (m : Machine) : Machine :=
  {| bot := bot m; trace := trace m; tick := S (tick m) |}.

(** Computations: state passing over the machine, with exceptions. *)
Definition M (A : Type) : Type := Machine -> Machine * Res A.

Definition ret {A : Type} (a : A) : M A := fun m => (m, Ok a).

Definition throw {A : Type} (message : string) : M A :=
  fun m => (m, Throw message).

Definition bind {A B : Type} (c : M A) (k : A -> M B) : M B :=
  fun m =>
    match c m with
    | (m', Ok a) => k a m'
    | (m', Throw e) => (m', Throw e)
    end.

(** [try { body } catch (error) { handler(error.message) }]. *)
Definition try_catch {A : Type} (body : M A) (handler : string -> M A)
  : M A :=
  fun m =>
    match body m with
    | (m', Ok a) => (m', Ok a)
    | (m', Throw e) => handler e m'
    end.

Definition lift {A : Type} (r : Res A) : M A := fun m => (m, r).

Definition this : M Bot := fun m => (m, Ok (bot m)).

Definition update (f : Machine -> Machine) : M unit :=
  fun m => (f m, Ok tt).

(** Calling an async function without awaiting it: its effects
    happen, its promise is dropped. *)
Definition detach {A : Type} (c : M A) : M unit :=
  fun m => (fst (c m), Ok tt).

Declare Scope bot_scope.
Delimit Scope bot_scope with bot.
Notation "x <- c ;; k" := (bind c (fun x => k))
  (at level 61, c at next level, right associativity) : bot_scope.
Notation "c ;; k" := (bind c (fun _ => k))
  (at level 61, right associativity) : bot_scope.
Local Open Scope bot_scope.

Record SwapData : Type := {
  fromToken : string;
  toToken : string;
  amount : string }.

Record SwapOutcome : Type := {
  success : bool;
  txHash : option string;
  receipt : option Receipt;
  error : option string }.

Record Status : Type := {
  st_isRunning : bool;
  st_walletAddress : string;
  st_tokenAddress : string;
  st_chainId : Z;
  logsCount : nat }.

(** How a run of the monitoring loop ends within its fuel: the loop
    condition was found false, or iterations remain to be run. *)
Inductive LoopStatus : Type := Returned | Pending.

(* ===================================================================== *)
(** ** The methods of [OKXAutoSwapBot] *)
(* ===================================================================== *)

Section Engine.

Context {rt : Runtime}.

(** [saveLogs()]: rewrite the log file with the whole buffer.  The
    write is recorded, and it throws when the runtime says so. *)
Definition saveLogs : M unit :=
  fun m =>
    (next_tick (emit (WriteLogFile (String.concat newline (logs (bot m)))) m),
     writeFileSync (tick m)).

(** [log(message)]: stamp, print, push onto [this.logs], save.  When
    the save throws, the entry has already been printed and pushed. *)
Definition log (message : string) : M unit :=
  fun m =>
    let timestamp := now (tick m) in
    let logEntry := "[" ++ timestamp ++ "] " ++ message in
    saveLogs (with_bot (push_log logEntry) (emit (ConsoleLog logEntry) m)).

(** [stop()]. *)
Definition stop : M unit :=
  b <- this ;;
  if negb (isRunning b)
  then log "Bot is not running"
  else update (with_bot (set_isRunning false)) ;;
       log "Stopping OKX Auto Swap Bot...".

(** A suspension point: the request is issued and answered by the
    runtime; while the bot is suspended a caller may invoke [stop()].
    What that call returns or throws goes to its caller, not to the
    suspended method. *)
Definition await {A : Type} (answer : nat -> A) (ev : A -> Event) : M A :=
  fun m =>
    let t := tick m in
    let m1 := emit (ev (answer t)) (next_tick m) in
    let m2 := if stopRequested t then fst (stop m1) else m1 in
    (m2, Ok (answer t)).

(** Awaiting a promise that may reject. *)
Definition await_res {A : Type} (answer : nat -> Res A)
           (ev : Res A -> Event) : M A :=
  r <- await answer ev ;; lift r.

(** Awaiting an axios call: a rejection is thrown, a resolution gives
    [response.data]. *)
Definition axios {A : Type} (answer : nat -> HttpResult A)
           (ev : HttpResult A -> Event) : M (Response A) :=
  r <- await answer ev ;;
  match r with
  | Rejected e => throw e
  | Resolved c d => ret {| code := c; data := d |}
  end.

(** [sleep(ms)]. *)
Definition sleep (ms : JS.number) : M unit :=
  await (fun _ => tt) (fun _ => Sleep ms).

(** [this.config.slippage || 0.5]. *)
Definition slippage_or_default (cfg : Config) : JS.number :=
  JS.or_default JS.truthy (slippage cfg)
                (binary_normalize 53 1024 1 (-1) false).

(** [this.config.checkInterval || 30000]. *)
Definition checkInterval_or_default (cfg : Config) : JS.number :=
  JS.or_default JS.truthy (checkInterval cfg) (JS.of_Z 30000).

(** [getTokenPrice(tokenAddress)]. *)
Definition getTokenPrice (tokenAddress : string) : M (option TokenData) :=
  try_catch
    (b <- this ;;
     response <- axios axiosGetTokens
                       (AxiosGetTokens (chainId b) tokenAddress) ;;
     match (code response =? "0")%string, data response with
     | true, Some d => ret (Some d)
     | _, _ => throw "Failed to fetch token price"
     end)
    (fun message =>
       log ("Error fetching token price: " ++ message) ;;
       ret None).

(** [getSwapQuote(fromToken, toToken, amount)]. *)
Definition getSwapQuote (fromToken toToken amount : string)
  : M (option QuoteData) :=
  try_catch
    (b <- this ;;
     response <- axios axiosGetQuote
                       (AxiosGetQuote
                          {| rq_chainId := chainId b;
                             rq_fromTokenAddress := fromToken;
                             rq_toTokenAddress := toToken;
                             rq_amount := amount;
                             rq_slippage := slippage_or_default (config b);
                             rq_userWalletAddress := walletAddress b |}) ;;
     match (code response =? "0")%string, data response with
     | true, Some d => ret (Some d)
     | _, _ => throw "Failed to get swap quote"
     end)
    (fun message =>
       log ("Error getting swap quote: " ++ message) ;;
       ret None).

(** [executeSwap(swapData)]. *)
Definition executeSwap (swapData : SwapData) : M SwapOutcome :=
  try_catch
    (b <- this ;;
     response <- axios axiosPostSwap
                       (AxiosPostSwap
                          {| rq_chainId := chainId b;
                             rq_fromTokenAddress := fromToken swapData;
                             rq_toTokenAddress := toToken swapData;
                             rq_amount := amount swapData;
                             rq_slippage := slippage_or_default (config b);
                             rq_userWalletAddress := walletAddress b |}
                          1 0) ;;
     match (code response =? "0")%string, data response with
     | true, Some payload =>
         match payload with
         | txData :: _ =>
             let tx :=
               {| to_ := tx_to txData;
                  data_ := tx_data txData;
                  value_ := JS.or_default JS.truthy_string
                                          (tx_value txData) "0";
                  gasLimit_ := JS.or_default JS.truthy_string
                                             (tx_gasLimit txData) "500000";
                  gasPrice_ := 1000000000 |} in
             transaction <- await_res walletSendTransaction
                                      (SendTransaction tx) ;;
             log ("Swap executed! TX Hash: " ++ hash transaction) ;;
             rcpt <- await_res transactionWait
                               (TransactionWait (hash transaction)) ;;
             log ("Swap confirmed! Block: "
                    ++ BigNumber.toString (blockNumber rcpt)) ;;
             ret {| success := true;
                    txHash := Some (hash transaction);
                    receipt := Some rcpt;
                    error := None |}
         | [] => throw (TypeError "to")
         end
     | _, _ => throw "Failed to execute swap"
     end)
    (fun message =>
       log ("Error executing swap: " ++ message) ;;
       ret {| success := false;
              txHash := None;
              receipt := None;
              error := Some message |}).

(** [checkPriceConditions(currentPrice)], reading [this.config] only.
    The [priceIncrease] and [priceDecrease] blocks of the source bind
    a local and do nothing else. *)
Definition checkPriceConditions (cfg : Config) (currentPrice : JS.number)
  : Res (option TradeIntent) :=
  match conditions cfg with
  | None => Throw (TypeError "buyWhen")
  | Some conds =>
      let buyMatch :=
        match buyWhen conds with
        | Some bw =>
            match priceBelow bw with
            | Some b =>
                if JS.truthy b && JS.le currentPrice b
                then Some {| action := buy;
                             reason := "Price below " ++ numberToString b |}
                else None
            | None => None
            end
        | None => None
        end in
      match buyMatch with
      | Some intent => Ok (Some intent)
      | None =>
          match sellWhen conds with
          | Some sw =>
              match priceAbove sw with
              | Some a =>
                  if JS.truthy a && JS.ge currentPrice a
                  then Ok (Some {| action := sell;
                                   reason := "Price above "
                                               ++ numberToString a |})
                  else Ok None
              | None => Ok None
              end
          | None => Ok None
          end
      end
  end.

(** [getWalletBalance(tokenAddress)]. *)
Definition getWalletBalance (tokenAddress : string) : M string :=
  try_catch
    (if (tokenAddress =? "ETH")%string || (tokenAddress =? AddressZero)%string
     then
       balance <- await_res walletGetBalance WalletGetBalance ;;
       lift (formatEther balance)
     else
       b <- this ;;
       balance <- await_res contractBalanceOf
                            (ContractBalanceOf tokenAddress
                                               (walletAddress b)) ;;
       decimals <- await_res contractDecimals
                             (ContractDecimals tokenAddress) ;;
       lift (formatUnits balance decimals))
    (fun message =>
       log ("Error getting wallet balance: " ++ message) ;;
       ret "0").

(** The sell sizing of [monitorAndSwap]:
    [tokenBalanceWei.mul(this.config.sellPercentage || 100).div(100)]. *)
Definition sellAmount (cfg : Config) (tokenBalanceWei : Z) : Res Z :=
  match BigNumber.mul tokenBalanceWei
                      (JS.or_default JS.truthy (sellPercentage cfg)
                                     (JS.of_Z 100)) with
  | Ok product => BigNumber.div product (JS.of_Z 100)
  | Throw e => Throw e
  end.

(** The [buy] block of [monitorAndSwap]; the value is the binding of
    [result], absent when [executeSwap] is not called. *)
Definition buyBranch : M (option SwapOutcome) :=
  b <- this ;;
  amountText <- match swapAmount (config b) with
                | Some x => ret (numberToString x)
                | None => throw (TypeError "toString")
                end ;;
  swapAmount <- lift (parseEther amountText) ;;
  quote <- getSwapQuote AddressZero (tokenAddress b)
                        (BigNumber.toString swapAmount) ;;
  match quote with
  | Some _ =>
      result <- executeSwap {| fromToken := AddressZero;
                               toToken := tokenAddress b;
                               amount := BigNumber.toString swapAmount |} ;;
      (if success result
       then log "Buy order executed successfully!"
       else ret tt) ;;
      ret (Some result)
  | None => ret None
  end.

(** The [sell] block of [monitorAndSwap]. *)
Definition sellBranch (tokenBalance : string) : M (option SwapOutcome) :=
  b <- this ;;
  tokenBalanceWei <- lift (parseUnits tokenBalance 18) ;;
  swapAmount <- lift (sellAmount (config b) tokenBalanceWei) ;;
  quote <- getSwapQuote (tokenAddress b) AddressZero
                        (BigNumber.toString swapAmount) ;;
  match quote with
  | Some _ =>
      result <- executeSwap {| fromToken := tokenAddress b;
                               toToken := AddressZero;
                               amount := BigNumber.toString swapAmount |} ;;
      (if success result
       then log "Sell order executed successfully!"
       else ret tt) ;;
      ret (Some result)
  | None => ret None
  end.

(** The body of the [try] block of the monitoring loop: one
    iteration. *)
Definition iteration : M unit :=
  b <- this ;;
  tokenData <- getTokenPrice (tokenAddress b) ;;
  match tokenData with
  | None => sleep (checkInterval_or_default (config b))
  | Some td =>
      let currentPrice := price td in
      log ("Current token price: $" ++ numberToString currentPrice) ;;
      condition <- lift (checkPriceConditions (config b) currentPrice) ;;
      match condition with
      | Some c =>
          log ("Condition met: " ++ reason c ++ " - Action: "
                 ++ action_name (action c)) ;;
          ethBalance <- getWalletBalance "ETH" ;;
          tokenBalance <- getWalletBalance (tokenAddress b) ;;
          log ("ETH Balance: " ++ ethBalance ++ ", Token Balance: "
                 ++ tokenBalance) ;;
          match action c with
          | buy => buyBranch ;; ret tt
          | sell => sellBranch tokenBalance ;; ret tt
          end
      | None => ret tt
      end ;;
      sleep (checkInterval_or_default (config b))
  end.

(** The [catch] block of the monitoring loop. *)
Definition recover (message : string) : M unit :=
  log ("Error in monitoring loop: " ++ message) ;;
  sleep (JS.of_Z 5000).

(** [while (this.isRunning) { try { ... } catch (error) { ... } }];
    [fuel] bounds the number of iterations that are run. *)
Fixpoint monitorLoop (fuel : nat) : M LoopStatus :=
  match fuel with
  | O =>
      b <- this ;;
      if isRunning b then ret Pending else ret Returned
  | S n =>
      b <- this ;;
      if isRunning b
      then try_catch iteration recover ;; monitorLoop n
      else ret Returned
  end.

(** [monitorAndSwap()]. *)
Definition monitorAndSwap (fuel : nat) : M LoopStatus :=
  log "Starting price monitoring..." ;;
  monitorLoop fuel.

(** [start()]; the loop it launches is followed for [fuel]
    iterations.  [this.monitorAndSwap()] is called and its promise is
    dropped: a rejection of that promise is not thrown by [start]. *)
Definition start (fuel : nat) : M unit :=
  b <- this ;;
  if isRunning b
  then log "Bot is already running"
  else update (with_bot (set_isRunning true)) ;;
       log "Starting OKX Auto Swap Bot..." ;;
       detach (monitorAndSwap fuel).

(** [getStatus()]. *)
Definition getStatus : M Status :=
  b <- this ;;
  ret {| st_isRunning := isRunning b;
         st_walletAddress := walletAddress b;
         st_tokenAddress := tokenAddress b;
         st_chainId := chainId b;
         logsCount := List.length (logs b) |}.

(** [new OKXAutoSwapBot(config)]: the object once the body of the
    constructor has run; [address] is the address of the wallet made
    from [config.privateKey].  The body ends with a call of [log]:
    when the write of that first entry fails (at tick 0), [new] throws
    the error of the write and no caller holds the object. *)
Definition constructor (cfg : Config) (address : string) : Machine :=
  fst (log "Bot initialized successfully"
           {| bot := {| config := cfg;
                        walletAddress := address;
                        isRunning := false;
                        logs := [];
                        tokenAddress :=
                          "0x077574441c4f8763a37a2cfee2ecb444aa60a15e";
                        chainId := 42161;
                        baseURL := "https://web3.okx.com/api/v5/dex" |};
              trace := [];
              tick := 0 |}).

End Engine.

(* ===================================================================== *)
(** ** The configuration loader (src/config.js) *)
(* ===================================================================== *)

(** [process.env], once [dotenv] has filled it: a variable is unset or
    holds a text. *)
Definition Env : Type := string -> option string.

(** The globals config.js relies on: the number parsers. *)
Class Globals : Type := {
  parseFloat : string -> JS.number;
  parseInt : string -> JS.number }.

(** 0.001 and 0.01 as binary64 values. *)
Definition thousandth : JS.number :=
  S754_finite false 4611686018427388 (-62).
Definition hundredth : JS.number :=
  S754_finite false 5764607523034235 (-59).

(** [module.exports] of config.js: the settings the bot reads, and
    [tokenAddress], which the bot does not read. *)
Record Exports : Type := {
  settings : Config;
  tokenAddressSetting : string }.

(** Requiring config.js either ends the process or gives the
    exports. *)
Inductive Loaded : Type :=
| Exit (code : Z) (stderr : string)
| Exported (exports : Exports).

(** [process.env.NAME || d]. *)
Definition text_setting (v : option string) (d : string) : string :=
  JS.or_default JS.truthy_string v d.

(** [parse(process.env.NAME) || d]; an unset variable is [undefined],
    which parses to NaN. *)
Definition number_setting (parse : string -> JS.number) (v : option string)
           (d : JS.number) : JS.number :=
  JS.or_default JS.truthy
                (Some (match v with
                       | Some text => parse text
                       | None => S754_nan
                       end)) d.

Section EntryPoint.

Context {g : Globals}.

(** config.js. *)
Definition load_config (env : Env) : Loaded :=
  let exports :=
    {| settings :=
         {| privateKey := text_setting (env "PRIVATE_KEY") "";
            rpcUrl := text_setting (env "RPC_URL")
                                   "https://arb1.arbitrum.io/rpc";
            conditions :=
              Some {| buyWhen :=
                        Some {| priceBelow :=
                                  Some (number_setting
                                          parseFloat (env "BUY_PRICE_BELOW")
                                          thousandth);
                                priceIncrease := None |};
                      sellWhen :=
                        Some {| priceAbove :=
                                  Some (number_setting
                                          parseFloat (env "SELL_PRICE_ABOVE")
                                          hundredth);
                                priceDecrease := None |} |};
            swapAmount := Some (number_setting
                                  parseFloat (env "SWAP_AMOUNT_ETH")
                                  hundredth);
            sellPercentage := Some (number_setting
                                      parseInt (env "SELL_PERCENTAGE")
                                      (JS.of_Z 100));
            slippage := Some (number_setting
                                parseFloat (env "SLIPPAGE")
                                (binary_normalize 53 1024 1 (-1) false));
            checkInterval := Some (number_setting
                                     parseInt (env "CHECK_INTERVAL")
                                     (JS.of_Z 30000)) |};
       tokenAddressSetting :=
         text_setting (env "TOKEN_ADDRESS")
                      "0x077574441c4f8763a37a2cfee2ecb444aa60a15e" |} in
  if negb (JS.truthy_string (privateKey (settings exports)))
  then Exit 1 "ERROR: PRIVATE_KEY environment variable is required!"
  else Exported exports.

End EntryPoint.

(* ===================================================================== *)
(** ** Decimal text *)
(* ===================================================================== *)

(** Decimal text as the library conversions produce and read it; the
    sample runtimes below answer with these. *)
Module Decimal.

(** The decimal numeral of an integer. *)
Definition numeral (z : Z) : string := NilZero.string_of_int (Z.to_int z).

(** [k] zeros. *)
Fixpoint zeros (k : nat) : string :=
  match k with
  | O => ""
  | S k' => String "0" (zeros k')
  end.

(** A text without its trailing zeros. *)
Fixpoint strip_zeros (s : string) : string :=
  match s with
  | EmptyString => EmptyString
  | String c rest =>
      match strip_zeros rest with
      | EmptyString => if (c =? "0")%char then EmptyString
                       else String c EmptyString
      | kept => String c kept
      end
  end.

(** The digits of [n / 10^k] and the [k] digits of its fraction, for
    [n >= 0]. *)
Definition split_fixed (n : Z) (k : nat) : string * string :=
  let scale := (10 ^ Z.of_nat k)%Z in
  let frac := numeral (n mod scale) in
  (numeral (n / scale), zeros (k - String.length frac) ++ frac).

(** [formatUnits(n, k)]: fixed-point text with at least one digit after
    the point. *)
Definition formatUnits (n : Z) (k : Z) : Res string :=
  let '(whole, frac) := split_fixed (Z.abs n) (Z.to_nat k) in
  let shown := match strip_zeros frac with
               | EmptyString => "0"
               | kept => kept
               end in
  Ok ((if (n <? 0)%Z then "-" else "") ++ whole ++ "." ++ shown).

(** The value of a text of decimal digits. *)
Fixpoint digits_value (s : string) (acc : Z) : option Z :=
  match s with
  | EmptyString => Some acc
  | String c rest =>
      let d := (Z.of_nat (nat_of_ascii c) - 48)%Z in
      if ((0 <=? d) && (d <=? 9))%Z
      then digits_value rest (10 * acc + d)%Z
      else None
  end.

(** The text before the first point, and the text after it. *)
Fixpoint split_point (s : string) : string * string :=
  match s with
  | EmptyString => (EmptyString, EmptyString)
  | String c rest =>
      if (c =? ".")%char then (EmptyString, rest)
      else let '(whole, frac) := split_point rest in (String c whole, frac)
  end.

(** [parseUnits(text, k)] for a non-negative decimal text: more than
    [k] digits after the point are rejected. *)
Definition parseUnits (text : string) (k : Z) : Res Z :=
  let '(whole, frac) := split_point text in
  let width := Z.to_nat k in
  if (width <? String.length frac)%nat
  then Throw "fractional component exceeds decimals"
  else
    match whole, digits_value whole 0,
          digits_value (frac ++ zeros (width - String.length frac)) 0 with
    | String _ _, Some w, Some f => Ok (w * 10 ^ k + f)%Z
    | _, _, _ => Throw "invalid decimal value"
    end.

(** The exact decimal expansion of a binary64 value: what JavaScript
    prints for integers and for fractions with a short expansion. *)
Definition numberToString (x : JS.number) : string :=
  match x with
  | S754_zero _ => "0"
  | S754_nan => "NaN"
  | S754_infinity s => if s then "-Infinity" else "Infinity"
  | S754_finite s m e =>
      let sign := if s then "-" else "" in
      match e with
      | Zneg p =>
          let k := Pos.to_nat p in
          let '(whole, frac) := split_fixed (Zpos m * 5 ^ Zpos p) k in
          match strip_zeros frac with
          | EmptyString => sign ++ whole
          | kept => sign ++ whole ++ "." ++ kept
          end
      | _ => sign ++ numeral (Zpos m * 2 ^ e)
      end
  end.

End Decimal.

(* ===================================================================== *)
(** ** Sample configurations and runtimes *)
(* ===================================================================== *)

Module Sample.

(** 0.5, 1, 2 and 50 as binary64 values. *)
Definition half : JS.number := binary_normalize 53 1024 1 (-1) false.
Definition one : JS.number := JS.of_Z 1.
Definition two : JS.number := JS.of_Z 2.
Definition fifty : JS.number := JS.of_Z 50.
Definition zero : JS.number := S754_zero false.

Definition rules (b a : option JS.number) : Conditions :=
  {| buyWhen := Some {| priceBelow := b; priceIncrease := None |};
     sellWhen := Some {| priceAbove := a; priceDecrease := None |} |}.

Definition cfg (conds : option Conditions) (pct : option JS.number)
  : Config :=
  {| privateKey := "key";
     rpcUrl := "https://arb1.arbitrum.io/rpc";
     conditions := conds;
     swapAmount := Some one;
     sellPercentage := pct;
     slippage := Some half;
     checkInterval := Some (JS.of_Z 30000) |}.

Definition txData : TxData :=
  {| tx_to := "0xrouter"; tx_data := "0xcalldata";
     tx_value := None; tx_gasLimit := None |}.

(** The clock of the sample worlds: tick [t] reads [t] milliseconds
    after the epoch. *)
Definition clock (t : nat) : string :=
  let ms := Decimal.numeral (Z.of_nat t) in
  "1970-01-01T00:00:00."
    ++ Decimal.zeros (3 - String.length ms) ++ ms ++ "Z".

(** A world with a fixed price, quote answer and swap-build answer, a
    ledger that holds 7 units of the base asset and 1000 units of an
    18-decimal token, a signer that accepts every transaction, and
    [stop()] requests at the ticks [stops] marks. *)
Definition world (p : JS.number) (quote : HttpResult QuoteData)
           (build : HttpResult (list TxData)) (stops : nat -> bool)
  : Runtime :=
  {| now := clock;
     numberToString := Decimal.numberToString;
     formatEther := fun z => Decimal.formatUnits z 18;
     formatUnits := Decimal.formatUnits;
     parseEther := fun text => Decimal.parseUnits text 18;
     parseUnits := Decimal.parseUnits;
     axiosGetTokens := fun _ => Resolved "0" (Some {| price := p |});
     axiosGetQuote := fun _ => quote;
     axiosPostSwap := fun _ => build;
     walletGetBalance := fun _ => Ok 7000000000000000000%Z;
     contractBalanceOf := fun _ => Ok 1000000000000000000000%Z;
     contractDecimals := fun _ => Ok 18%Z;
     walletSendTransaction := fun _ => Ok {| hash := "0xhash" |};
     transactionWait := fun _ => Ok {| blockNumber := 12 |};
     writeFileSync := fun _ => Ok tt;
     stopRequested := stops |}.

Definition quoteOk : HttpResult QuoteData :=
  Resolved "0" (Some {| route := "r" |}).

Definition buildOk : HttpResult (list TxData) :=
  Resolved "0" (Some [txData]).

Definition never : nat -> bool := fun _ => false.

(** A ledger that rejects every query. *)
Definition brokenLedger : Runtime :=
  {| now := clock;
     numberToString := Decimal.numberToString;
     formatEther := fun z => Decimal.formatUnits z 18;
     formatUnits := Decimal.formatUnits;
     parseEther := fun text => Decimal.parseUnits text 18;
     parseUnits := Decimal.parseUnits;
     axiosGetTokens := fun _ => Resolved "0" (Some {| price := one |});
     axiosGetQuote := fun _ => quoteOk;
     axiosPostSwap := fun _ => buildOk;
     walletGetBalance := fun _ => Throw "timeout";
     contractBalanceOf := fun _ => Throw "call revert exception";
     contractDecimals := fun _ => Throw "call revert exception";
     walletSendTransaction := fun _ => Ok {| hash := "0xhash" |};
     transactionWait := fun _ => Ok {| blockNumber := 12 |};
     writeFileSync := fun _ => Ok tt;
     stopRequested := never |}.

(** The world [rt] with a disk that answers the writes as [disk]
    says. *)
Definition withDisk (rt : Runtime) (disk : nat -> Res unit) : Runtime :=
  {| now := @now rt;
     numberToString := @numberToString rt;
     formatEther := @formatEther rt;
     formatUnits := @formatUnits rt;
     parseEther := @parseEther rt;
     parseUnits := @parseUnits rt;
     axiosGetTokens := @axiosGetTokens rt;
     axiosGetQuote := @axiosGetQuote rt;
     axiosPostSwap := @axiosPostSwap rt;
     walletGetBalance := @walletGetBalance rt;
     contractBalanceOf := @contractBalanceOf rt;
     contractDecimals := @contractDecimals rt;
     walletSendTransaction := @walletSendTransaction rt;
     transactionWait := @transactionWait rt;
     writeFileSync := disk;
     stopRequested := @stopRequested rt |}.

(** A disk that is full from tick [k] on. *)
Definition fullFrom (k : nat) : nat -> Res unit :=
  fun t => if (t <? k)%nat then Ok tt
           else Throw "ENOSPC: no space left on device, write".

(** The world used in the concrete runs: price 2, good quote, good
    swap-build answer, no stop request. *)
Definition calm : Runtime := world two quoteOk buildOk never.



(** A price of 1.5, between the thresholds of [cfgOneTwo]. *)
Definition inBetween : Runtime :=
  world (binary_normalize 53 1024 3 (-1) false) quoteOk buildOk never.

(** A [stop()] that arrives during the await issued at tick 1. *)
Definition stoppedEarly : Runtime :=
  world two quoteOk buildOk (fun t => Nat.eqb t 1).

(** Buy at or below 1, sell at or above 2; sell 50 percent. *)
Definition cfgOneTwo : Config :=
  cfg (Some (rules (Some one) (Some two))) (Some fifty).

(** A buy threshold of 0; a sell percentage of 0. *)
Definition cfgZero : Config :=
  cfg (Some (rules (Some zero) (Some one))) (Some zero).

(** No [conditions] at all. *)
Definition cfgNoRules : Config := cfg None None.

(** A fresh bot, and the same bot once started. *)
Definition fresh (rt : Runtime) (c : Config) : Machine :=
  @constructor rt c "0xme".

Definition started (rt : Runtime) (c : Config) : Machine :=
  with_bot (set_isRunning true) (fresh rt c).

Definition swapData : SwapData :=
  {| fromToken := AddressZero; toToken := "0xtoken"; amount := "1" |}.

(** A world like [calm] but for the price answer and the answers of
    the signer and of the wait for a confirmation. *)
Definition market (tokens : HttpResult TokenData)
           (send : Res TransactionResponse) (wait : Res Receipt)
  : Runtime :=
  {| now := clock;
     numberToString := Decimal.numberToString;
     formatEther := fun z => Decimal.formatUnits z 18;
     formatUnits := Decimal.formatUnits;
     parseEther := fun text => Decimal.parseUnits text 18;
     parseUnits := Decimal.parseUnits;
     axiosGetTokens := fun _ => tokens;
     axiosGetQuote := fun _ => quoteOk;
     axiosPostSwap := fun _ => buildOk;
     walletGetBalance := fun _ => Ok 7000000000000000000%Z;
     contractBalanceOf := fun _ => Ok 1000000000000000000000%Z;
     contractDecimals := fun _ => Ok 18%Z;
     walletSendTransaction := fun _ => send;
     transactionWait := fun _ => wait;
     writeFileSync := fun _ => Ok tt;
     stopRequested := never |}.

(** A signer that rejects every transaction. *)
Definition rejecting : Runtime :=
  market (Resolved "0" (Some {| price := two |}))
         (Throw "insufficient funds") (Ok {| blockNumber := 12 |}).

(** Confirmations that never arrive. *)
Definition unconfirmed : Runtime :=
  market (Resolved "0" (Some {| price := two |}))
         (Ok {| hash := "0xhash" |}) (Throw "timeout").

(** A price service that is down. *)
Definition noPrice : Runtime :=
  market (Rejected "network down")
         (Ok {| hash := "0xhash" |}) (Ok {| blockNumber := 12 |}).

(** The thresholds of [cfgOneTwo] with both percentage triggers set. *)
Definition cfgTriggers : Config :=
  cfg (Some {| buyWhen := Some {| priceBelow := Some one;
                                  priceIncrease := Some fifty |};
               sellWhen := Some {| priceAbove := Some two;
                                   priceDecrease := Some fifty |} |})
      (Some fifty).

(** A sell percentage of 0.5. *)
Definition cfgFraction : Config :=
  cfg (Some (rules (Some one) (Some two))) (Some half).

(** Globals that parse non-negative whole numbers only. *)
Definition wholeNumber (text : string) : JS.number :=
  match Decimal.digits_value text 0 with
  | Some z => match text with
              | EmptyString => S754_nan
              | String _ _ => JS.of_Z z
              end
  | None => S754_nan
  end.

Definition globals : Globals :=
  {| parseFloat := wholeNumber;
     parseInt := wholeNumber |}.

(** An environment that sets the key, a buy threshold of 0, a sell
    threshold of 2 and another token. *)
Definition env : Env :=
  fun name =>
    if (name =? "PRIVATE_KEY")%string then Some "key"
    else if (name =? "BUY_PRICE_BELOW")%string then Some "0"
    else if (name =? "SELL_PRICE_ABOVE")%string then Some "2"
    else if (name =? "TOKEN_ADDRESS")%string then Some "0xother"
    else None.

(** The empty environment. *)
Definition unset : Env := fun _ => None.

End Sample.

(* ===================================================================== *)
(** ** Reading the rules and the results *)
(* ===================================================================== *)

(** [config.conditions.buyWhen.priceBelow], absent when any link of the
    chain is. *)
Definition buyBelow (cfg : Config) : option JS.number :=
  match conditions cfg with
  | Some conds =>
      match buyWhen conds with
      | Some bw => priceBelow bw
      | None => None
      end
  | None => None
  end.

(** [config.conditions.sellWhen.priceAbove]. *)
Definition sellAbove (cfg : Config) : option JS.number :=
  match conditions cfg with
  | Some conds =>
      match sellWhen conds with
      | Some sw => priceAbove sw
      | None => None
      end
  | None => None
  end.

(** The threshold that guards the rule for an action. *)
Definition rule_threshold (a : Action) (cfg : Config) : option JS.number :=
  match a with
  | buy => buyBelow cfg
  | sell => sellAbove cfg
  end.

(** A threshold that is missing or zero (of either sign). *)
Definition threshold_off (t : option JS.number) : bool :=
  match t with
  | None => true
  | Some (S754_zero _) => true
  | Some _ => false
  end.

(** The action of the intent an evaluation returned, if it returned
    one. *)
Definition intent_action (r : Res (option TradeIntent)) : option Action :=
  match r with
  | Ok (Some intent) => Some (action intent)
  | Ok None => None
  | Throw _ => None
  end.

(** The evaluation rule of the specification for thresholds [b] and
    [a] at price [p]: with [b < a], buy exactly when [p <= b], sell
    exactly when [p >= a], nothing otherwise; with [b >= a] and both
    comparisons true, buy. *)
Definition evaluation_rule {rt : Runtime} (cfg : Config)
           (b a p : JS.number) : Prop :=
  (JS.lt b a = true ->
   (intent_action (checkPriceConditions cfg p) = Some buy
    <-> JS.le p b = true)
   /\ (intent_action (checkPriceConditions cfg p) = Some sell
       <-> JS.ge p a = true)
   /\ (JS.le p b = false -> JS.ge p a = false ->
       checkPriceConditions cfg p = Ok None))
  /\ (JS.ge b a = true -> JS.le p b = true -> JS.ge p a = true ->
      intent_action (checkPriceConditions cfg p) = Some buy).

(* ===================================================================== *)
(** ** Vocabulary of the properties *)
(* ===================================================================== *)

(** [c] relates every machine it starts from to the machine it leaves,
    whether it returns or throws. *)
Definition preserves {A : Type} (R : Machine -> Machine -> Prop) (c : M A)
  : Prop :=
  forall m, R m (fst (c m)).

(** [c] returns: it never throws. *)
Definition returns {A : Type} (c : M A) : Prop :=
  forall m, exists a, snd (c m) = Ok a.

(** The log buffer of [m'] extends the log buffer of [m]. *)
Definition logs_extend (m m' : Machine) : Prop :=
  exists suffix, logs (bot m') = (logs (bot m) ++ suffix)%list.

(** The trace of [m'] extends the trace of [m] by events that all
    satisfy [P]. *)
Definition trace_extends_by (P : Event -> Prop) (m m' : Machine) : Prop :=
  exists evs, trace m' = (trace m ++ evs)%list /\ Forall P evs.

(** An event of the log sink: a console line or a rewrite of the log
    file. *)
Definition log_sink_event (ev : Event) : bool :=
  match ev with
  | ConsoleLog _ => true
  | WriteLogFile _ => true
  | _ => false
  end.

(** The run flag is the same. *)
Definition same_flag (m m' : Machine) : Prop :=
  isRunning (bot m') = isRunning (bot m).

(** The trace of [m'] is the trace of [m], then [first], then events
    that all satisfy [P]. *)
Definition trace_starts_with (first : Event) (P : Event -> Prop)
           (m m' : Machine) : Prop :=
  exists evs, trace m' = (trace m ++ first :: evs)%list /\ Forall P evs.

(** The operations a caller, or the launched loop, performs on a bot.
    [OpLoop n] lets a launched loop run [n] further iterations. *)
Inductive Op : Type :=
| OpStart (fuel : nat)
| OpStop
| OpGetStatus
| OpLoop (fuel : nat)
| OpMonitorAndSwap (fuel : nat)
| OpGetTokenPrice (token : string)
| OpGetSwapQuote (src dst amt : string)
| OpExecuteSwap (swapData : SwapData)
| OpGetWalletBalance (token : string)
| OpLog (message : string)
| OpSleep (ms : JS.number).

(** The ways the answer to a quote, price or swap-build request reports
    failure: a rejected call (a thrown error), a status code other than
    "0", or a missing payload; [failure] is the message the caller
    throws in the last two cases. *)
Definition http_payload {A : Type} (failure : string) (r : HttpResult A)
  : Res A :=
  match r with
  | Rejected e => Throw e
  | Resolved c d =>
      if (c =? "0")%string
      then match d with
           | Some payload => Ok payload
           | None => Throw failure
           end
      else Throw failure
  end.

(** The transaction template of a swap-build answer: the first element
    of its payload. *)
Definition build_payload (r : HttpResult (list TxData)) : Res TxData :=
  match http_payload "Failed to execute swap" r with
  | Ok (txData :: _) => Ok txData
  | Ok [] => Throw (TypeError "to")
  | Throw e => Throw e
  end.

(** The amount a quote or swap-build request carries. *)
Definition request_amount (ev : Event) : option string :=
  match ev with
  | AxiosGetQuote rq _ => Some (rq_amount rq)
  | AxiosPostSwap rq _ _ _ => Some (rq_amount rq)
  | _ => None
  end.

(** [ev] is no quote or swap-build request, or one for [amt]. *)
Definition carries (amt : string) (ev : Event) : Prop :=
  match request_amount ev with
  | Some a => a = amt
  | None => True
  end.

(** The amounts of the quote and swap-build requests among [evs], in
    order. *)
Definition amounts (evs : list Event) : list string :=
  flat_map (fun ev => match request_amount ev with
                      | Some a => [a]
                      | None => []
                      end) evs.

(** [ev] is not a submission to the signer. *)
Definition not_submission (ev : Event) : Prop :=
  match ev with
  | SendTransaction _ _ => False
  | _ => True
  end.


(** The assets read through the wallet's native balance. *)
Definition native (token : string) : bool :=
  (token =? "ETH")%string || (token =? AddressZero)%string.

(** The parameters both requests send. *)
Definition route_request (b : Bot) (src dst amt : string) : RouteRequest :=
  {| rq_chainId := chainId b;
     rq_fromTokenAddress := src;
     rq_toTokenAddress := dst;
     rq_amount := amt;
     rq_slippage := slippage_or_default (config b);
     rq_userWalletAddress := walletAddress b |}.

(** The outcome [executeSwap] returns from its [catch] block. *)
Definition failed (cause : string) : SwapOutcome :=
  {| success := false; txHash := None; receipt := None;
     error := Some cause |}.

(** A sell percentage that makes [||] take its default. *)
Definition falsy_percentage (s : option JS.number) : bool :=
  match s with
  | None => true
  | Some x => negb (JS.truthy x)
  end.


(** The answer to a quote request is good. *)
Definition quote_ok (r : HttpResult QuoteData) : bool :=
  match http_payload "Failed to get swap quote" r with
  | Ok _ => true
  | Throw _ => false
  end.





(** An event that is neither a quote, nor a swap-build request, nor a
    submission. *)
Definition quiet (ev : Event) : Prop :=
  match ev with
  | AxiosGetQuote _ _ => False
  | AxiosPostSwap _ _ _ _ => False
  | SendTransaction _ _ => False
  | _ => True
  end.

(** [log_sink_event] as a proposition. *)
Definition is_sink (ev : Event) : Prop := log_sink_event ev = true.



(** A price request. *)
Definition is_fetch (ev : Event) : bool :=
  match ev with
  | AxiosGetTokens _ _ _ => true
  | _ => false
  end.

(** The number of price requests among [evs]. *)
Definition fetches (evs : list Event) : nat :=
  List.length (filter is_fetch evs).

(** No condition on the event. *)
Definition any_event (ev : Event) : Prop := True.

Section Vocabulary.

Context {rt : Runtime}.

(** The entry [log] makes of a message at tick [t]. *)
Definition entry_at (t : nat) (message : string) : string :=
  "[" ++ now t ++ "] " ++ message.

(** Every write of the log file succeeds. *)
Definition writes_succeed : Prop := forall t, writeFileSync t = Ok tt.

(** What a [log] at tick [t] followed by [return a] gives: [a], or
    the error of the failed write. *)
Definition after_write {A : Type} (t : nat) (a : A) : Res A :=
  match writeFileSync t with
  | Ok _ => Ok a
  | Throw e => Throw e
  end.

(** The machine an operation leaves. *)
Definition run_op (op : Op) (m : Machine) : Machine :=
  match op with
  | OpStart fuel => fst (start fuel m)
  | OpStop => fst (stop m)
  | OpGetStatus => fst (getStatus m)
  | OpLoop fuel => fst (monitorLoop fuel m)
  | OpMonitorAndSwap fuel => fst (monitorAndSwap fuel m)
  | OpGetTokenPrice token => fst (getTokenPrice token m)
  | OpGetSwapQuote src dst amt => fst (getSwapQuote src dst amt m)
  | OpExecuteSwap swapData => fst (executeSwap swapData m)
  | OpGetWalletBalance token => fst (getWalletBalance token m)
  | OpLog message => fst (log message m)
  | OpSleep ms => fst (sleep ms m)
  end.

(** The machine a sequence of operations leaves. *)
Fixpoint run_ops (ops : list Op) (m : Machine) : Machine :=
  match ops with
  | [] => m
  | op :: rest => run_ops rest (run_op op m)
  end.

(** The reading of C5 as stated: [stop] leaves the bot as it was. *)
Definition stop_changes_nothing (m : Machine) : Prop :=
  bot (fst (stop m)) = bot m.


(** The machine a balance read of [token] leaves once the balance-of
    query is answered. *)
Definition asked (token : string) (m : Machine) : Machine :=
  fst (await contractBalanceOf
             (ContractBalanceOf token (walletAddress (bot m))) m).

(** What the ledger answers to a balance read of [token] started on
    [m], as text: the native balance at 18 decimals, or the token
    balance at the decimals the token reports. *)
Definition reading (token : string) (m : Machine) : Res string :=
  if native token
  then match walletGetBalance (tick m) with
       | Ok balance => formatEther balance
       | Throw e => Throw e
       end
  else match contractBalanceOf (tick m) with
       | Ok balance =>
           match contractDecimals (tick (asked token m)) with
           | Ok decimals => formatUnits balance decimals
           | Throw e => Throw e
           end
       | Throw e => Throw e
       end.

(** The machine a balance read of [token] has reached when its queries
    are answered: the point where the read returns, or where its
    [catch] block starts. *)
Definition queried (token : string) (m : Machine) : Machine :=
  if native token
  then fst (await walletGetBalance WalletGetBalance m)
  else match contractBalanceOf (tick m) with
       | Ok _ => fst (await contractDecimals (ContractDecimals token)
                            (asked token m))
       | Throw _ => asked token m
       end.

(** The reading of C7 as stated: a loop followed for [fuel] turns
    from [m] has not ended on an error. *)
Definition survives (fuel : nat) (m : Machine) : Prop :=
  exists status, snd (monitorLoop fuel m) = Ok status.


(** The sell block started on [m] issues its quote request for [amt];
    every quote or swap-build request it issues carries [amt]; and
    when the quote is good it goes on to issue the swap-build request
    for [amt]. *)
Definition sell_requests_carry (m : Machine) (tokenBalance : string)
           (amt : Z) : Prop :=
  exists rq r,
    rq_amount rq = BigNumber.toString amt
    /\ trace_starts_with (AxiosGetQuote rq r)
                         (carries (BigNumber.toString amt))
                         m (fst (sellBranch tokenBalance m))
    /\ (quote_ok r = true ->
        exists rq' r' between after,
          rq_amount rq' = BigNumber.toString amt
          /\ Forall is_sink between
          /\ trace (fst (sellBranch tokenBalance m))
             = (trace m ++ AxiosGetQuote rq r :: between
                       ++ AxiosPostSwap rq' 1 0 r' :: after)%list).

(** The sizing rule of the specification at balance [B] and
    percentage [z]: the amount is [floor(B * z / 100)], and it is the
    amount the quote and swap-build requests carry. *)
Definition sized_by_percentage (m : Machine) (tokenBalance : string)
           (B z : Z) : Prop :=
  sellAmount (config (bot m)) B = Ok (B * z / 100)%Z
  /\ sell_requests_carry m tokenBalance (B * z / 100).

(** The machine [executeSwap] is on once the swap-build request is
    answered. *)
Definition built (swapData : SwapData) (m : Machine) : Machine :=
  fst (await axiosPostSwap
             (AxiosPostSwap
                (route_request (bot m) (fromToken swapData)
                               (toToken swapData) (amount swapData)) 1 0)
             m).

(** What [executeSwap] does with the transaction template: the rest of
    its [try] block (see [executeSwap_build_success]). *)
Definition submit (txData : TxData) : M SwapOutcome :=
  let tx :=
    {| to_ := tx_to txData;
       data_ := tx_data txData;
       value_ := JS.or_default JS.truthy_string (tx_value txData) "0";
       gasLimit_ := JS.or_default JS.truthy_string
                                  (tx_gasLimit txData) "500000";
       gasPrice_ := 1000000000 |} in
  transaction <- await_res walletSendTransaction (SendTransaction tx) ;;
  log ("Swap executed! TX Hash: " ++ hash transaction) ;;
  rcpt <- await_res transactionWait (TransactionWait (hash transaction)) ;;
  log ("Swap confirmed! Block: " ++ BigNumber.toString (blockNumber rcpt)) ;;
  ret {| success := true;
         txHash := Some (hash transaction);
         receipt := Some rcpt;
         error := None |}.

(** The [catch] block of [executeSwap]. *)
Definition swap_failed (message : string) : M SwapOutcome :=
  log ("Error executing swap: " ++ message) ;;
  ret (failed message).

(** The shape the buy and the sell block share once the amount is
    known: ask for a quote and, when there is one, execute (see
    [buyBranch_run] and [sellBranch_run]). *)
Definition quote_then_execute (src dst amt done : string)
  : M (option SwapOutcome) :=
  quote <- getSwapQuote src dst amt ;;
  match quote with
  | Some _ =>
      result <- executeSwap {| fromToken := src;
                               toToken := dst;
                               amount := amt |} ;;
      (if success result then log done else ret tt) ;;
      ret (Some result)
  | None => ret None
  end.

(** The amount of a buy: [parseEther(this.config.swapAmount.toString())]. *)
Definition buy_amount (cfg : Config) : Res Z :=
  match swapAmount cfg with
  | Some x => parseEther (numberToString x)
  | None => Throw (TypeError "toString")
  end.

(** The amount of a sell: [parseUnits(tokenBalance, 18)], then the
    sizing. *)
Definition sell_amount (cfg : Config) (tokenBalance : string) : Res Z :=
  match parseUnits tokenBalance 18 with
  | Ok tokenBalanceWei => sellAmount cfg tokenBalanceWei
  | Throw e => Throw e
  end.

End Vocabulary.

(* ===================================================================== *)
(** ** Vocabulary of the further properties *)
(* ===================================================================== *)

(** The transaction descriptor [executeSwap] builds from a template:
    [value] defaults to "0", [gasLimit] to "500000", and the gas price
    is 1 gwei. *)
Definition tx_of (txData : TxData) : Tx :=
  {| to_ := tx_to txData;
     data_ := tx_data txData;
     value_ := JS.or_default JS.truthy_string (tx_value txData) "0";
     gasLimit_ := JS.or_default JS.truthy_string
                                (tx_gasLimit txData) "500000";
     gasPrice_ := 1000000000 |}.

(** An outcome is well formed: a success carries the hash and the
    receipt and no error, a failure carries the error and nothing
    else. *)
Definition well_formed_outcome (o : SwapOutcome) : Prop :=
  if success o
  then txHash o <> None /\ receipt o <> None /\ error o = None
  else txHash o = None /\ receipt o = None /\ error o <> None.

(** [ev] is not a wait for a confirmation. *)
Definition not_wait (ev : Event) : Prop :=
  match ev with
  | TransactionWait _ _ => False
  | _ => True
  end.

(** The trace of [m'] is the trace of [m], then any events, then a
    sleep of [ms], then only log-sink events. *)
Definition ends_asleep (ms : JS.number) (m m' : Machine) : Prop :=
  exists evs sinks,
    trace m' = (trace m ++ evs ++ Sleep ms :: sinks)%list
    /\ Forall is_sink sinks.

(** The trace of [m'] is the trace of [m], then [first], then log-sink
    events, then a sleep of [ms], then log-sink events: a turn that
    did nothing but [first]. *)
Definition only_then_sleep (first : Event) (ms : JS.number)
           (m m' : Machine) : Prop :=
  exists sinks1 sinks2,
    trace m' = (trace m ++ first :: sinks1 ++ Sleep ms :: sinks2)%list
    /\ Forall is_sink sinks1 /\ Forall is_sink sinks2.

(** A threshold fires under a comparison: it is present, truthy, and
    the comparison with it holds. *)
Definition fires (t : option JS.number) (cmp : JS.number -> bool) : bool :=
  match t with
  | Some x => JS.truthy x && cmp x
  | None => false
  end.

(** The fields no method assigns are the same in [m] and [m']. *)
Definition same_settings (m m' : Machine) : Prop :=
  config (bot m') = config (bot m)
  /\ walletAddress (bot m') = walletAddress (bot m)
  /\ tokenAddress (bot m') = tokenAddress (bot m)
  /\ chainId (bot m') = chainId (bot m)
  /\ baseURL (bot m') = baseURL (bot m).

(** A run flag that is cleared in [m] is cleared in [m']. *)
Definition stays_stopped (m m' : Machine) : Prop :=
  isRunning (bot m) = false -> isRunning (bot m') = false.

(** An operation other than [start]. *)
Definition not_start (op : Op) : bool :=
  match op with
  | OpStart _ => false
  | _ => true
  end.

(** The lines printed on the console, in order. *)
Definition console_lines (evs : list Event) : list string :=
  flat_map (fun ev => match ev with
                      | ConsoleLog line => [line]
                      | _ => []
                      end) evs.

(** The content last handed to the write of the log file among the
    events [evs], from the content [before] them: what the file holds
    when that write succeeded. *)
Definition file_after (before : option string) (evs : list Event)
  : option string :=
  fold_left (fun content ev => match ev with
                               | WriteLogFile text => Some text
                               | _ => content
                               end) evs before.

(** The last write of the log file carries the log buffer, one entry
    per line. *)
Definition file_mirrors_buffer (m : Machine) : Prop :=
  file_after None (trace m) = Some (String.concat newline (logs (bot m))).

(** The console has printed exactly the entries of the log buffer. *)
Definition console_mirrors_buffer (m : Machine) : Prop :=
  console_lines (trace m) = logs (bot m).

(** The console and the last write of the log file both mirror the
    log buffer. *)
Definition mirrored (m : Machine) : Prop :=
  console_mirrors_buffer m /\ file_mirrors_buffer m.

(** A property of [m] that still holds of [m']. *)
Definition keeps (Inv : Machine -> Prop) (m m' : Machine) : Prop :=
  Inv m -> Inv m'.

(** The token the constructor hard-codes. *)
Definition trackedToken : string :=
  "0x077574441c4f8763a37a2cfee2ecb444aa60a15e".

(** An event the methods issue on their own account: any event but
    those of the log sink, which only [log] emits. *)
Definition request_event (ev : Event) : Prop := log_sink_event ev = false.

(** [c], when it returns, has ended with a sleep of [ms]. *)
Definition returns_asleep {A : Type} (ms : JS.number) (c : M A) : Prop :=
  forall m, match snd (c m) with
            | Ok _ => ends_asleep ms m (fst (c m))
            | Throw _ => True
            end.

(** [ev] is neither a quote nor a swap-build request. *)
Definition no_request (ev : Event) : Prop :=
  match ev with
  | AxiosGetQuote _ _ => False
  | AxiosPostSwap _ _ _ _ => False
  | _ => True
  end.

(** [ev] is no quote or swap-build request, or one from [src] to [dst]
    for [amt]. *)
Definition routed (src dst amt : string) (ev : Event) : Prop :=
  match ev with
  | AxiosGetQuote rq _ =>
      rq_fromTokenAddress rq = src /\ rq_toTokenAddress rq = dst
      /\ rq_amount rq = amt
  | AxiosPostSwap rq _ _ _ =>
      rq_fromTokenAddress rq = src /\ rq_toTokenAddress rq = dst
      /\ rq_amount rq = amt
  | _ => True
  end.

(** A number with a fractional part. *)
Definition fractional (x : JS.number) : Prop :=
  match x with
  | S754_finite _ _ _ => JS.to_integer x = None
  | _ => False
  end.

(** A setting that is present and truthy. *)
Definition set_and_truthy (x : option JS.number) : Prop :=
  exists v, x = Some v /\ JS.truthy v = true.

(** An environment variable that is unset, or parses to a falsy
    number (0 or NaN). *)
Definition falsy_variable (parse : string -> JS.number) (v : option string)
  : Prop :=
  match v with
  | Some text => JS.truthy (parse text) = false
  | None => True
  end.

(** [ev] hands a transaction to the signer. *)
Definition is_submission (ev : Event) : bool :=
  match ev with
  | SendTransaction _ _ => true
  | _ => false
  end.

(** The number of transactions handed to the signer among [evs]. *)
Definition submissions (evs : list Event) : nat :=
  List.length (filter is_submission evs).

(** From [m] to [m'] at most [k] transactions are handed to the
    signer. *)
Definition submits_at_most (k : nat) (m m' : Machine) : Prop :=
  exists evs, trace m' = (trace m ++ evs)%list /\ submissions evs <= k.

(** [ev] is a log-sink event or the decimals query for [token]. *)
Definition sink_or_decimals (token : string) (ev : Event) : Prop :=
  match ev with
  | ConsoleLog _ => True
  | WriteLogFile _ => True
  | ContractDecimals t _ => t = token
  | _ => False
  end.

Section FurtherVocabulary.

Context {rt : Runtime}.

(** The machine [executeSwap] is on once the signer has answered the
    submission. *)
Definition submitted (swapData : SwapData) (txData : TxData) (m : Machine)
  : Machine :=
  fst (await walletSendTransaction (SendTransaction (tx_of txData))
             (built swapData m)).

(** ... once the accepted transaction is logged. *)
Definition announced (swapData : SwapData) (txData : TxData)
           (transaction : TransactionResponse) (m : Machine) : Machine :=
  fst (log ("Swap executed! TX Hash: " ++ hash transaction)
           (submitted swapData txData m)).

(** ... once the wait for the confirmation is answered. *)
Definition waited (swapData : SwapData) (txData : TxData)
           (transaction : TransactionResponse) (m : Machine) : Machine :=
  fst (await transactionWait (TransactionWait (hash transaction))
             (announced swapData txData transaction m)).

(** ... once the confirmation is logged. *)
Definition confirmed (swapData : SwapData) (txData : TxData)
           (transaction : TransactionResponse) (rcpt : Receipt)
           (m : Machine) : Machine :=
  fst (log ("Swap confirmed! Block: "
              ++ BigNumber.toString (blockNumber rcpt))
           (waited swapData txData transaction m)).

(** The machine [getTokenPrice] is on once the price request is
    answered. *)
Definition priced (token : string) (m : Machine) : Machine :=
  fst (await axiosGetTokens (AxiosGetTokens (chainId (bot m)) token) m).

(** The machine [getSwapQuote] is on once the quote request is
    answered. *)
Definition quoted (src dst amt : string) (m : Machine) : Machine :=
  fst (await axiosGetQuote
             (AxiosGetQuote (route_request (bot m) src dst amt)) m).

(** What a call returns or throws: a value that satisfies [Q], or
    the error of a failed write of the log file. *)
Definition returns_or_write_fails {A : Type} (Q : A -> Prop) (r : Res A)
  : Prop :=
  match r with
  | Ok a => Q a
  | Throw e => exists t, writeFileSync t = Throw e
  end.

(** The decision of the evaluator read off the two thresholds. *)
Definition decision (cfg : Config) (p : JS.number) : option Action :=
  if fires (buyBelow cfg) (JS.le p) then Some buy
  else if fires (sellAbove cfg) (JS.ge p) then Some sell
  else None.

(** The price request of a turn started on [m]. *)
Definition price_request (m : Machine) : Event :=
  AxiosGetTokens (chainId (bot m)) (tokenAddress (bot m))
                 (axiosGetTokens (tick m)).

(** The text a balance read of [token] started on [m] returns. *)
Definition balance_text (token : string) (m : Machine) : string :=
  match reading token m with
  | Ok text => text
  | Throw _ => "0"
  end.

(** The machine a turn started on [m] is on when, the price [td] read
    and the intent [c] found, both are logged and the native balance
    is read: the point where it reads the balance of the tracked
    token. *)
Definition native_read (td : TokenData) (c : TradeIntent) (m : Machine)
  : Machine :=
  fst (getWalletBalance
         "ETH"
         (fst (log ("Condition met: " ++ reason c ++ " - Action: "
                      ++ action_name (action c))
                   (fst (log ("Current token price: $"
                                ++ numberToString (price td))
                             (priced (tokenAddress (bot m)) m)))))).

(** The native balance is read among [evs]. *)
Definition reads_native (evs : list Event) : Prop :=
  exists answer, In (WalletGetBalance answer) evs.

(** The trace of [m'] is the trace of [m] followed by events that are
    no quote or swap-build request and among which the native balance
    is read. *)
Definition reads_balances (m m' : Machine) : Prop :=
  exists before,
    trace m' = (trace m ++ before)%list
    /\ Forall no_request before
    /\ reads_native before.

(** The trace of [m'] is the trace of [m], then events that are no
    quote or swap-build request and among which the native balance is
    read, then the quote request from [src] to [dst] for [amt], then
    events among which every quote or swap-build request has that
    route and amount. *)
Definition first_request (src dst amt : string) (m m' : Machine) : Prop :=
  exists before response after,
    trace m' = (trace m ++ before
                  ++ AxiosGetQuote (route_request (bot m) src dst amt)
                                   response :: after)%list
    /\ Forall no_request before
    /\ reads_native before
    /\ Forall (routed src dst amt) after.

End FurtherVocabulary.

(* ===================================================================== *)
(** ** Order on binary64 values *)
(* ===================================================================== *)

Section FloatOrder.

Ltac cmp_cases :=
  repeat match goal with
    | H : context [Z.compare ?x ?y] |- _ =>
        destruct (Z.compare_spec x y); subst
    | H : context [Pos.compare ?x ?y] |- _ =>
        destruct (Pos.compare_spec x y); subst
    | H : context [Pos.compare_cont Eq ?x ?y] |- _ =>
        change (Pos.compare_cont Eq x y) with (Pos.compare x y) in H
    end.

(** No price lies at or below [b] and at or above [a] when [b < a]. *)
Lemma between_empty (p b a : JS.number) :
  JS.lt b a = true -> JS.le p b = true -> JS.ge p a = true -> False.
Proof.
  unfold JS.lt, JS.le, JS.ge, SFltb, SFleb, SFcompare.
  destruct p as [sp | sp | | sp mp ep];
    destruct b as [sb | sb | | sb mb eb];
    destruct a as [sa | sa | | sa ma ea];
    try destruct sp; try destruct sb; try destruct sa;
    intros Hba Hpb Hap; try discriminate;
    cmp_cases; simpl in *; try discriminate; lia.
Qed.

End FloatOrder.

(* ===================================================================== *)
(** ** Condition evaluation *)
(* ===================================================================== *)

Section ConditionEvaluator.

Context {rt : Runtime}.

(** With both thresholds present, the evaluation is a two-way test. *)
Lemma checkPriceConditions_eq (cfg : Config) (b a p : JS.number) :
  buyBelow cfg = Some b ->
  sellAbove cfg = Some a ->
  checkPriceConditions cfg p =
    if JS.truthy b && JS.le p b
    then Ok (Some {| action := buy;
                     reason := "Price below " ++ numberToString b |})
    else if JS.truthy a && JS.ge p a
         then Ok (Some {| action := sell;
                          reason := "Price above " ++ numberToString a |})
         else Ok None.
Proof.
  unfold buyBelow, sellAbove, checkPriceConditions.
  destruct (conditions cfg) as [conds |]; [| discriminate].
  destruct (buyWhen conds) as [bw |]; [| discriminate].
  destruct (sellWhen conds) as [sw |]; [| discriminate].
  intros -> ->.
  destruct (JS.truthy b && JS.le p b); reflexivity.
Qed.

(** C1 (as amended): for rules whose two thresholds are truthy, with
    [buyBelow = b < a = sellAbove] the evaluation returns a Buy intent
    exactly when [p <= b], a Sell intent exactly when [p >= a], and
    nothing otherwise; with [b >= a] and a price satisfying both
    comparisons it returns Buy. *)
Theorem C1_evaluation_with_truthy_thresholds
        (cfg : Config) (b a p : JS.number) :
  buyBelow cfg = Some b ->
  sellAbove cfg = Some a ->
  JS.truthy b = true ->
  JS.truthy a = true ->
  evaluation_rule cfg b a p.
Proof.
  intros Hb Ha Tb Ta. unfold evaluation_rule.
  rewrite (checkPriceConditions_eq cfg b a p Hb Ha), Tb, Ta. simpl.
  split.
  - intros Hlt. repeat split.
    + destruct (JS.le p b); [reflexivity | ].
      destruct (JS.ge p a); discriminate.
    + destruct (JS.le p b); [reflexivity | ].
      destruct (JS.ge p a); discriminate.
    + destruct (JS.le p b) eqn:Hpb.
      * discriminate.
      * destruct (JS.ge p a); [reflexivity | discriminate].
    + intros Hpa.
      destruct (JS.le p b) eqn:Hpb.
      * exfalso. exact (between_empty p b a Hlt Hpb Hpa).
      * rewrite Hpa. reflexivity.
    + intros -> ->. reflexivity.
  - intros _ -> _. reflexivity.
Qed.

(** C8: a rule whose threshold is 0 or absent never fires, whatever
    the price: with [priceBelow] off no Buy intent is returned, with
    [priceAbove] off no Sell intent is returned. *)
Theorem C8_rule_with_threshold_off_never_fires
        (cfg : Config) (a : Action) (p : JS.number) :
  threshold_off (rule_threshold a cfg) = true ->
  intent_action (checkPriceConditions cfg p) <> Some a.
Proof.
  unfold rule_threshold, buyBelow, sellAbove, checkPriceConditions.
  destruct (conditions cfg) as [conds |]; [| destruct a; discriminate].
  destruct a.
  - destruct (buyWhen conds) as [bw |].
    + destruct (priceBelow bw) as [b |].
      * destruct b; simpl; try discriminate; intros _.
        destruct (sellWhen conds) as [sw |]; [| discriminate].
        destruct (priceAbove sw) as [x |]; [| discriminate].
        destruct (JS.truthy x && JS.ge p x); discriminate.
      * intros _.
        destruct (sellWhen conds) as [sw |]; [| discriminate].
        destruct (priceAbove sw) as [x |]; [| discriminate].
        destruct (JS.truthy x && JS.ge p x); discriminate.
    + intros _.
      destruct (sellWhen conds) as [sw |]; [| discriminate].
      destruct (priceAbove sw) as [x |]; [| discriminate].
      destruct (JS.truthy x && JS.ge p x); discriminate.
  - intros Hoff.
    destruct (match buyWhen conds with
              | Some bw =>
                  match priceBelow bw with
                  | Some b =>
                      if JS.truthy b && JS.le p b
                      then Some {| action := buy;
                                   reason := "Price below "
                                               ++ numberToString b |}
                      else None
                  | None => None
                  end
              | None => None
              end) as [i |] eqn:Hbuy.
    + destruct (buyWhen conds) as [bw |]; [| discriminate].
      destruct (priceBelow bw) as [b |]; [| discriminate].
      destruct (JS.truthy b && JS.le p b); [| discriminate].
      injection Hbuy as <-. discriminate.
    + destruct (sellWhen conds) as [sw |]; [| discriminate].
      destruct (priceAbove sw) as [x |]; [| discriminate].
      destruct x; simpl in *; discriminate.
Qed.

End ConditionEvaluator.

(* ===================================================================== *)
(** ** Relations every step of a computation maintains *)
(* ===================================================================== *)

Section Combinators.

Variable R : Machine -> Machine -> Prop.
Hypothesis R_refl : forall m, R m m.
Hypothesis R_trans : forall m1 m2 m3, R m1 m2 -> R m2 m3 -> R m1 m3.

Lemma preserves_ret {A : Type} (a : A) : preserves R (ret a).
Proof. intros m. apply R_refl. Qed.

Lemma preserves_throw {A : Type} (e : string) : preserves R (@throw A e).
Proof. intros m. apply R_refl. Qed.

Lemma preserves_lift {A : Type} (r : Res A) : preserves R (lift r).
Proof. intros m. apply R_refl. Qed.

Lemma preserves_this : preserves R this.
Proof. intros m. apply R_refl. Qed.

Lemma preserves_bind {A B : Type} (c : M A) (k : A -> M B) :
  preserves R c -> (forall a, preserves R (k a)) -> preserves R (bind c k).
Proof.
  intros Hc Hk m. unfold bind.
  specialize (Hc m).
  destruct (c m) as [m' [a | e]]; simpl in *.
  - eapply R_trans; [exact Hc | apply Hk].
  - exact Hc.
Qed.

Lemma preserves_try_catch {A : Type} (c : M A) (h : string -> M A) :
  preserves R c -> (forall e, preserves R (h e)) ->
  preserves R (try_catch c h).
Proof.
  intros Hc Hh m. unfold try_catch.
  specialize (Hc m).
  destruct (c m) as [m' [a | e]]; simpl in *.
  - exact Hc.
  - eapply R_trans; [exact Hc | apply Hh].
Qed.

Lemma preserves_detach {A : Type} (c : M A) :
  preserves R c -> preserves R (detach c).
Proof. intros Hc m. exact (Hc m). Qed.

End Combinators.

(** One step of a structural proof that a computation maintains a
    relation: peel the outermost combinator or case distinction. *)
Ltac preserves_step Hrefl Htrans :=
  match goal with
  | |- preserves _ (bind _ _) =>
      apply (preserves_bind _ Htrans); [ | intros ? ]
  | |- preserves _ (try_catch _ _) =>
      apply (preserves_try_catch _ Htrans); [ | intros ? ]
  | |- preserves _ (detach _) => apply preserves_detach
  | |- preserves _ (ret _) => apply (preserves_ret _ Hrefl)
  | |- preserves _ (throw _) => apply (preserves_throw _ Hrefl)
  | |- preserves _ (lift _) => apply (preserves_lift _ Hrefl)
  | |- preserves _ this => apply (preserves_this _ Hrefl)
  | |- preserves _ (match ?x with _ => _ end) => destruct x
  end.

(** The relations used below. *)

Lemma logs_extend_refl m : logs_extend m m.
Proof. exists []. now rewrite app_nil_r. Qed.

Lemma logs_extend_trans m1 m2 m3 :
  logs_extend m1 m2 -> logs_extend m2 m3 -> logs_extend m1 m3.
Proof.
  intros [s1 H1] [s2 H2]. exists (s1 ++ s2)%list.
  now rewrite H2, H1, app_assoc.
Qed.

Lemma trace_extends_by_refl P m : trace_extends_by P m m.
Proof. exists []. split; [now rewrite app_nil_r | constructor]. Qed.

Lemma trace_extends_by_trans P m1 m2 m3 :
  trace_extends_by P m1 m2 -> trace_extends_by P m2 m3 ->
  trace_extends_by P m1 m3.
Proof.
  intros [e1 [H1 F1]] [e2 [H2 F2]]. exists (e1 ++ e2)%list. split.
  - now rewrite H2, H1, app_assoc.
  - apply Forall_app. now split.
Qed.

Lemma same_flag_refl m : same_flag m m.
Proof. reflexivity. Qed.

Lemma same_flag_trans m1 m2 m3 :
  same_flag m1 m2 -> same_flag m2 m3 -> same_flag m1 m3.
Proof. unfold same_flag. congruence. Qed.

Section MethodsPreserve.

Context {rt : Runtime}.

Variable R : Machine -> Machine -> Prop.
Variable allowed : Event -> Prop.

Hypothesis R_refl : forall m, R m m.
Hypothesis R_trans : forall m1 m2 m3, R m1 m2 -> R m2 m3 -> R m1 m3.
Hypothesis R_log : forall message, preserves R (log message).
Hypothesis R_await :
  forall (A : Type) (answer : nat -> A) (ev : A -> Event),
    (forall r, allowed (ev r)) -> preserves R (await answer ev).

Ltac peel :=
  repeat (first [ preserves_step R_refl R_trans
                | apply R_log
                | apply R_await; intros ]).

Lemma preserves_sleep (ms : JS.number) :
  allowed (Sleep ms) -> preserves R (sleep ms).
Proof. intros H. unfold sleep. apply R_await. intros _. exact H. Qed.

Lemma preserves_getTokenPrice (token : string) :
  (forall c r, allowed (AxiosGetTokens c token r)) ->
  preserves R (getTokenPrice token).
Proof.
  intros H. unfold getTokenPrice, axios. peel. apply H.
Qed.

Lemma preserves_getSwapQuote (src dst amt : string) :
  (forall rq r, rq_amount rq = amt -> allowed (AxiosGetQuote rq r)) ->
  preserves R (getSwapQuote src dst amt).
Proof.
  intros H. unfold getSwapQuote, axios. peel. apply H. reflexivity.
Qed.

Lemma preserves_executeSwap (swapData : SwapData) :
  (forall rq s f r, rq_amount rq = amount swapData ->
                    allowed (AxiosPostSwap rq s f r)) ->
  (forall tx r, allowed (SendTransaction tx r)) ->
  (forall h r, allowed (TransactionWait h r)) ->
  preserves R (executeSwap swapData).
Proof.
  intros Hpost Hsend Hwait. unfold executeSwap, axios, await_res. peel.
  - apply Hpost. reflexivity.
  - apply Hsend.
  - apply Hwait.
Qed.

Lemma preserves_getWalletBalance (token : string) :
  (forall r, allowed (WalletGetBalance r)) ->
  (forall t o r, allowed (ContractBalanceOf t o r)) ->
  (forall t r, allowed (ContractDecimals t r)) ->
  preserves R (getWalletBalance token).
Proof.
  intros Hnative Hbal Hdec. unfold getWalletBalance, await_res. peel.
  - apply Hnative.
  - apply Hbal.
  - apply Hdec.
Qed.

(** When every event is allowed, every method maintains [R]. *)
Hypothesis allowed_all : forall ev, allowed ev.

Ltac finish :=
  first [ apply allowed_all
        | apply preserves_getTokenPrice; intros; apply allowed_all
        | apply preserves_getSwapQuote; intros; apply allowed_all
        | apply preserves_executeSwap; intros; apply allowed_all
        | apply preserves_getWalletBalance; intros; apply allowed_all ].

Lemma preserves_buyBranch : preserves R buyBranch.
Proof. unfold buyBranch. peel; finish. Qed.

Lemma preserves_sellBranch (tokenBalance : string) :
  preserves R (sellBranch tokenBalance).
Proof. unfold sellBranch. peel; finish. Qed.

Lemma preserves_iteration : preserves R iteration.
Proof.
  unfold iteration. peel; try finish.
  - apply preserves_buyBranch.
  - apply preserves_sellBranch.
Qed.

Lemma preserves_recover (message : string) : preserves R (recover message).
Proof. unfold recover. peel; apply allowed_all. Qed.

Lemma preserves_monitorLoop (fuel : nat) : preserves R (monitorLoop fuel).
Proof.
  induction fuel as [| n IH]; simpl; peel;
    first [ exact IH | apply allowed_all
          | apply preserves_iteration | apply preserves_recover ].
Qed.

Lemma preserves_monitorAndSwap (fuel : nat) :
  preserves R (monitorAndSwap fuel).
Proof. unfold monitorAndSwap. peel. apply preserves_monitorLoop. Qed.

Lemma preserves_getStatus : preserves R getStatus.
Proof. unfold getStatus. peel. Qed.

End MethodsPreserve.

(* ===================================================================== *)
(** ** The log buffer *)
(* ===================================================================== *)

Section Operations.

Context {rt : Runtime}.

(** What one call of [log] does to the machine, and what it returns:
    the answer of the write. *)
Lemma log_run (message : string) (m : Machine) :
  log message m =
    ({| bot := push_log (entry_at (tick m) message) (bot m);
        trace := (trace m
                    ++ [ConsoleLog (entry_at (tick m) message)]
                    ++ [WriteLogFile
                          (String.concat newline
                             (logs (bot m)
                                ++ [entry_at (tick m) message]))])%list;
        tick := S (tick m) |},
     writeFileSync (tick m)).
Proof.
  unfold log, saveLogs, emit, with_bot, next_tick, entry_at. simpl.
  rewrite <- app_assoc. reflexivity.
Qed.

(** A [log] followed by a [return]: the value, unless the write
    fails. *)
Lemma log_then_ret {A : Type} (message : string) (a : A) (m : Machine) :
  (log message ;; ret a) m = (fst (log message m), after_write (tick m) a).
Proof.
  unfold bind, after_write. rewrite log_run. cbn [fst].
  destruct (writeFileSync (tick m)) as [[] | e]; reflexivity.
Qed.

(** A [log] whose write succeeds goes on with what follows it. *)
Lemma log_bind {A : Type} (message : string) (k : unit -> M A)
      (m : Machine) :
  writeFileSync (tick m) = Ok tt ->
  bind (log message) k m = k tt (fst (log message m)).
Proof. intros Hw. unfold bind. rewrite log_run, Hw. reflexivity. Qed.

(** A [log] whose write fails throws the error of the write. *)
Lemma log_throws {A : Type} (message : string) (k : unit -> M A)
      (m : Machine) (e : string) :
  writeFileSync (tick m) = Throw e ->
  bind (log message) k m = (fst (log message m), Throw e).
Proof. intros Hw. unfold bind. rewrite log_run, Hw. reflexivity. Qed.

Lemma after_write_ok {A : Type} (t : nat) (a : A) :
  writeFileSync t = Ok tt -> after_write t a = Ok a.
Proof. intros Hw. unfold after_write. now rewrite Hw. Qed.

Lemma after_write_throws {A : Type} (t : nat) (a : A) (e : string) :
  writeFileSync t = Throw e -> after_write t a = Throw e.
Proof. intros Hw. unfold after_write. now rewrite Hw. Qed.

(** [log] puts its entry at the end of the buffer and takes one
    tick, whatever the write answers. *)
Lemma log_last_entry (message : string) (m : Machine) :
  logs (bot (fst (log message m)))
  = (logs (bot m) ++ [entry_at (tick m) message])%list.
Proof. rewrite log_run. reflexivity. Qed.

Lemma log_tick (message : string) (m : Machine) :
  tick (fst (log message m)) = S (tick m).
Proof. rewrite log_run. reflexivity. Qed.

Lemma log_extends_logs (message : string) :
  preserves logs_extend (log message).
Proof.
  intros m. rewrite log_run. simpl.
  now exists [entry_at (tick m) message].
Qed.

Lemma set_isRunning_extends_logs (v : bool) :
  preserves logs_extend (update (with_bot (set_isRunning v))).
Proof. intros m. exists []. simpl. now rewrite app_nil_r. Qed.

Lemma stop_extends_logs : preserves logs_extend stop.
Proof.
  unfold stop.
  repeat (first [ preserves_step logs_extend_refl logs_extend_trans
                | apply log_extends_logs
                | apply set_isRunning_extends_logs ]).
Qed.

Lemma await_extends_logs (A : Type) (answer : nat -> A) (ev : A -> Event) :
  (forall r : A, True) -> preserves logs_extend (await answer ev).
Proof.
  intros _ m. unfold await.
  destruct (stopRequested (tick m)); simpl.
  - apply (logs_extend_trans _ (emit (ev (answer (tick m))) (next_tick m))).
    + exists []. simpl. now rewrite app_nil_r.
    + apply stop_extends_logs.
  - exists []. simpl. now rewrite app_nil_r.
Qed.

Ltac logs_side :=
  first [ exact logs_extend_refl
        | exact logs_extend_trans
        | exact log_extends_logs
        | exact await_extends_logs
        | intros; exact I ].

Lemma start_extends_logs (fuel : nat) : preserves logs_extend (start fuel).
Proof.
  unfold start.
  repeat (first [ preserves_step logs_extend_refl logs_extend_trans
                | apply log_extends_logs
                | apply set_isRunning_extends_logs ]).
  apply (preserves_monitorAndSwap logs_extend (fun _ => True)); logs_side.
Qed.

Lemma run_op_extends_logs (op : Op) (m : Machine) :
  logs_extend m (run_op op m).
Proof.
  destruct op; unfold run_op.
  - apply start_extends_logs.
  - apply stop_extends_logs.
  - apply preserves_getStatus; logs_side.
  - apply (preserves_monitorLoop logs_extend (fun _ => True)); logs_side.
  - apply (preserves_monitorAndSwap logs_extend (fun _ => True)); logs_side.
  - apply (preserves_getTokenPrice logs_extend (fun _ => True)); logs_side.
  - apply (preserves_getSwapQuote logs_extend (fun _ => True)); logs_side.
  - apply (preserves_executeSwap logs_extend (fun _ => True)); logs_side.
  - apply (preserves_getWalletBalance logs_extend (fun _ => True));
      logs_side.
  - apply log_extends_logs.
  - apply (preserves_sleep logs_extend (fun _ => True)); logs_side.
Qed.

Lemma run_ops_extends_logs (ops : list Op) (m : Machine) :
  logs_extend m (run_ops ops m).
Proof.
  revert m. induction ops as [| op rest IH]; intros m; simpl.
  - apply logs_extend_refl.
  - eapply logs_extend_trans; [apply run_op_extends_logs | apply IH].
Qed.

(** C10: the log buffer is append-only.  Over any sequence of
    operations (start, stop, getStatus, loop iterations, the external
    call wrappers), the buffer after the sequence is the buffer before
    it followed by new entries, and the [logsCount] that [getStatus]
    reports does not decrease. *)
Theorem C10_log_buffer_append_only (ops : list Op) (m : Machine) :
  (exists suffix,
      logs (bot (run_ops ops m)) = (logs (bot m) ++ suffix)%list)
  /\ (exists before after,
         snd (getStatus m) = Ok before
         /\ snd (getStatus (run_ops ops m)) = Ok after
         /\ logsCount before <= logsCount after).
Proof.
  destruct (run_ops_extends_logs ops m) as [suffix Hs].
  split.
  - now exists suffix.
  - eexists. eexists. repeat split. simpl.
    rewrite Hs, length_app. lia.
Qed.

End Operations.

(* ===================================================================== *)
(** ** Lifecycle: [start] and [stop] *)
(* ===================================================================== *)

Section Lifecycle.

Context {rt : Runtime}.

(** C4: [start] on a running bot is a no-op.  For every number of
    iterations a launched loop would be followed, the call does what
    logging "Bot is already running" does and nothing else: the run
    flag stays set, the only events are the two of that log line, so
    no monitoring loop is entered, and the call returns what the
    write of that line returns ([Ok tt] when the write succeeds). *)
Theorem C4_start_while_running (fuel : nat) (m : Machine) :
  isRunning (bot m) = true ->
  start fuel m = log "Bot is already running" m
  /\ isRunning (bot (fst (start fuel m))) = true
  /\ snd (start fuel m) = writeFileSync (tick m)
  /\ exists line content,
      trace (fst (start fuel m))
      = (trace m ++ [ConsoleLog line; WriteLogFile content])%list.
Proof.
  intros Hrun.
  assert (Heq : start fuel m = log "Bot is already running" m).
  { unfold start, bind, this. rewrite Hrun. reflexivity. }
  rewrite Heq, log_run. simpl.
  repeat split; try assumption.
  eexists. eexists. reflexivity.
Qed.

(** C5 (as amended): [stop] on a bot that is not running keeps the run
    flag false and leaves every field but the log buffer as it was;
    the log buffer receives one entry, "Bot is not running"; the call
    returns what the write of that entry returns ([Ok tt] when the
    write succeeds). *)
Theorem C5_stop_while_not_running (m : Machine) :
  isRunning (bot m) = false ->
  isRunning (bot (fst (stop m))) = false
  /\ config (bot (fst (stop m))) = config (bot m)
  /\ walletAddress (bot (fst (stop m))) = walletAddress (bot m)
  /\ tokenAddress (bot (fst (stop m))) = tokenAddress (bot m)
  /\ chainId (bot (fst (stop m))) = chainId (bot m)
  /\ baseURL (bot (fst (stop m))) = baseURL (bot m)
  /\ logs (bot (fst (stop m)))
     = (logs (bot m) ++ [entry_at (tick m) "Bot is not running"])%list
  /\ snd (stop m) = writeFileSync (tick m).
Proof.
  intros Hrun.
  assert (Heq : stop m = log "Bot is not running" m).
  { unfold stop, bind, this. rewrite Hrun. reflexivity. }
  rewrite Heq, log_run. simpl.
  repeat split; first [assumption | reflexivity].
Qed.

End Lifecycle.

(* ===================================================================== *)
(** ** Balance reads *)
(* ===================================================================== *)

Section BalanceReader.

Context {rt : Runtime}.

(** An awaited promise gives the runtime's answer for the tick at
    which it was issued. *)
Lemma await_res_run {A : Type} (answer : nat -> Res A)
      (ev : Res A -> Event) (m : Machine) :
  await_res answer ev m = (fst (await answer ev m), answer (tick m)).
Proof. reflexivity. Qed.

(** The balance read, step by step: with a reading it returns the
    text; without one its [catch] block logs the cause and returns
    "0", unless the write of that entry fails. *)
Lemma getWalletBalance_run (token : string) (m : Machine) :
  getWalletBalance token m =
    match reading token m with
    | Ok text => (queried token m, Ok text)
    | Throw e =>
        (fst (log ("Error getting wallet balance: " ++ e) (queried token m)),
         after_write (tick (queried token m)) "0")
    end.
Proof.
  unfold reading, queried, getWalletBalance, native, try_catch.
  destruct ((token =? "ETH")%string || (token =? AddressZero)%string).
  - unfold bind at 1. rewrite await_res_run.
    destruct (walletGetBalance (tick m)) as [balance | e].
    + unfold lift. destruct (formatEther balance);
        [reflexivity | apply log_then_ret].
    + apply log_then_ret.
  - unfold bind at 1, this. unfold bind at 1. rewrite await_res_run.
    fold (asked token m).
    destruct (contractBalanceOf (tick m)) as [balance | e].
    + unfold bind at 1. rewrite await_res_run.
      destruct (contractDecimals (tick (asked token m))) as [decimals | e].
      * unfold lift. destruct (formatUnits balance decimals);
          [reflexivity | apply log_then_ret].
      * apply log_then_ret.
    + apply log_then_ret.
Qed.



End BalanceReader.

(* ===================================================================== *)
(** ** Traces *)
(* ===================================================================== *)

Lemma trace_starts_then_extends first P m m1 m2 :
  trace_starts_with first P m m1 ->
  trace_extends_by P m1 m2 ->
  trace_starts_with first P m m2.
Proof.
  intros [e1 [H1 F1]] [e2 [H2 F2]]. exists (e1 ++ e2)%list. split.
  - rewrite H2, H1, <- app_assoc. reflexivity.
  - apply Forall_app. now split.
Qed.

Section Traces.

Context {rt : Runtime}.

Variable P : Event -> Prop.
Hypothesis P_sink : forall ev, log_sink_event ev = true -> P ev.

Lemma log_extends_trace (message : string) :
  preserves (trace_extends_by P) (log message).
Proof.
  intros m. rewrite log_run. simpl. eexists. split; [reflexivity | ].
  repeat constructor; apply P_sink; reflexivity.
Qed.

Lemma set_isRunning_extends_trace (v : bool) :
  preserves (trace_extends_by P) (update (with_bot (set_isRunning v))).
Proof.
  intros m. exists []. simpl. split; [now rewrite app_nil_r | constructor].
Qed.

Lemma stop_extends_trace : preserves (trace_extends_by P) stop.
Proof.
  unfold stop.
  repeat (first [ preserves_step (trace_extends_by_refl P)
                                 (trace_extends_by_trans P)
                | apply log_extends_trace
                | apply set_isRunning_extends_trace ]).
Qed.

(** An await records its request and answer first; a [stop()] that
    runs during the suspension only logs. *)
Lemma await_starts {A : Type} (answer : nat -> A) (ev : A -> Event)
      (m : Machine) :
  trace_starts_with (ev (answer (tick m))) P m (fst (await answer ev m)).
Proof.
  unfold await. cbv zeta.
  destruct (stopRequested (tick m)); simpl.
  - destruct (stop_extends_trace
                (emit (ev (answer (tick m))) (next_tick m)))
      as [evs [Ht Hf]].
    exists evs. split; [ | exact Hf].
    rewrite Ht. simpl. rewrite <- app_assoc. reflexivity.
  - exists []. split; [reflexivity | constructor].
Qed.

Lemma await_extends_trace (A : Type) (answer : nat -> A)
      (ev : A -> Event) :
  (forall r, P (ev r)) -> preserves (trace_extends_by P) (await answer ev).
Proof.
  intros Hev m. destruct (await_starts answer ev m) as [evs [Ht Hf]].
  exists (ev (answer (tick m)) :: evs). split; [exact Ht | ].
  constructor; [apply Hev | exact Hf].
Qed.

End Traces.

(* ===================================================================== *)
(** ** The quote and swap-build wrappers, step by step *)
(* ===================================================================== *)

Section Wrappers.

Context {rt : Runtime}.

Lemma await_run {A : Type} (answer : nat -> A) (ev : A -> Event)
      (m : Machine) :
  await answer ev m = (fst (await answer ev m), Ok (answer (tick m))).
Proof. reflexivity. Qed.

(** [getSwapQuote] issues the request; on a good answer it returns the
    payload, otherwise it logs the cause and returns [null], unless
    the write of that entry fails. *)
Lemma getSwapQuote_run (src dst amt : string) (m : Machine) :
  getSwapQuote src dst amt m =
    let m2 := fst (await axiosGetQuote
                         (AxiosGetQuote
                            (route_request (bot m) src dst amt)) m) in
    match http_payload "Failed to get swap quote"
                       (axiosGetQuote (tick m)) with
    | Ok q => (m2, Ok (Some q))
    | Throw cause =>
        (fst (log ("Error getting swap quote: " ++ cause) m2),
         after_write (tick m2) None)
    end.
Proof.
  unfold getSwapQuote, try_catch, bind at 1 2, this, axios, bind at 1.
  fold (route_request (bot m) src dst amt).
  rewrite await_run. cbv zeta.
  unfold http_payload.
  destruct (axiosGetQuote (tick m)) as [e | c d]; simpl.
  - apply log_then_ret.
  - destruct (c =? "0")%string; [destruct d as [q |] | ]; simpl;
      first [ reflexivity | apply log_then_ret ].
Qed.

(** When the swap-build answer reports failure, [executeSwap] logs the
    cause and returns the failed outcome that carries it, unless the
    write of that entry fails. *)
Lemma executeSwap_build_failure (swapData : SwapData) (m : Machine)
      (cause : string) :
  build_payload (axiosPostSwap (tick m)) = Throw cause ->
  executeSwap swapData m =
    (fst (log ("Error executing swap: " ++ cause) (built swapData m)),
     after_write (tick (built swapData m)) (failed cause)).
Proof.
  unfold built, executeSwap, try_catch, bind at 1 2, this, axios, bind at 1.
  fold (route_request (bot m) (fromToken swapData) (toToken swapData)
                      (amount swapData)).
  rewrite await_run.
  unfold build_payload, http_payload, failed.
  destruct (axiosPostSwap (tick m)) as [e | c d]; simpl.
  - intros [= <-]. apply log_then_ret.
  - destruct (c =? "0")%string; [destruct d as [[| txData rest] |] | ];
      simpl; intros [= <-]; apply log_then_ret.
Qed.

End Wrappers.

(* ===================================================================== *)
(** ** The order of quote, swap-build and submission *)
(* ===================================================================== *)

Section PhaseFacts.











End PhaseFacts.

(** *** The wrappers and the phases *)

Section SwapProtocol.

Context {rt : Runtime}.

Lemma sink_is_sink (ev : Event) : log_sink_event ev = true -> is_sink ev.
Proof. intros H. exact H. Qed.

Lemma sink_quiet (ev : Event) : log_sink_event ev = true -> quiet ev.
Proof. destruct ev; simpl; intros H; try discriminate; exact I. Qed.

Lemma sink_not_submission (ev : Event) :
  log_sink_event ev = true -> not_submission ev.
Proof. destruct ev; simpl; intros H; try discriminate; exact I. Qed.


Ltac quiet_side :=
  first [ exact (trace_extends_by_refl quiet)
        | exact (trace_extends_by_trans quiet)
        | exact (log_extends_trace quiet sink_quiet)
        | exact (await_extends_trace quiet sink_quiet)
        | intros; exact I ].






(** When the swap-build answer is good, [executeSwap] goes on to
    submit its first transaction template. *)
Lemma executeSwap_build_success (swapData : SwapData) (m : Machine)
      (txData : TxData) :
  build_payload (axiosPostSwap (tick m)) = Ok txData ->
  executeSwap swapData m =
    try_catch (submit txData) swap_failed
              (fst (await axiosPostSwap
                          (AxiosPostSwap
                             (route_request (bot m) (fromToken swapData)
                                            (toToken swapData)
                                            (amount swapData)) 1 0) m)).
Proof.
  unfold executeSwap, try_catch, bind at 1 2, this, axios, bind at 1.
  fold (route_request (bot m) (fromToken swapData) (toToken swapData)
                      (amount swapData)).
  rewrite await_run.
  unfold build_payload, http_payload.
  destruct (axiosPostSwap (tick m)) as [e | c d]; simpl.
  - discriminate.
  - destruct (c =? "0")%string; [destruct d as [[| first rest] |] | ];
      simpl; try discriminate.
    intros [= ->]. reflexivity.
Qed.





(** [executeSwap] starts by issuing the swap-build request for the
    amount of its argument. *)
Lemma executeSwap_starts (swapData : SwapData) (m : Machine) :
  trace_starts_with
    (AxiosPostSwap (route_request (bot m) (fromToken swapData)
                                  (toToken swapData) (amount swapData))
                   1 0 (axiosPostSwap (tick m)))
    any_event m (fst (executeSwap swapData m)).
Proof.
  assert (Hsink : forall ev, log_sink_event ev = true -> any_event ev)
    by (intros; exact I).
  pose proof (await_starts any_event Hsink axiosPostSwap
                (AxiosPostSwap
                   (route_request (bot m) (fromToken swapData)
                                  (toToken swapData) (amount swapData))
                   1 0) m) as Hstart.
  destruct (build_payload (axiosPostSwap (tick m)))
    as [txData | cause] eqn:Hb.
  - rewrite (executeSwap_build_success swapData m txData Hb).
    eapply trace_starts_then_extends; [exact Hstart | ].
    apply (preserves_try_catch _ (trace_extends_by_trans any_event)).
    + unfold submit, await_res. cbv zeta.
      repeat (first [ preserves_step (trace_extends_by_refl any_event)
                                     (trace_extends_by_trans any_event)
                    | apply (log_extends_trace any_event Hsink)
                    | apply (await_extends_trace any_event Hsink);
                      intros; exact I ]).
    + intros e. unfold swap_failed.
      repeat (first [ preserves_step (trace_extends_by_refl any_event)
                                     (trace_extends_by_trans any_event)
                    | apply (log_extends_trace any_event Hsink) ]).
  - rewrite (executeSwap_build_failure swapData m cause Hb). cbn [fst].
    eapply trace_starts_then_extends; [exact Hstart | ].
    apply (log_extends_trace any_event Hsink).
Qed.

End SwapProtocol.

(** *** A swap attempt and the loop *)

Section SwapAttempt.

Context {rt : Runtime}.

Lemma buyBranch_run (m : Machine) :
  buyBranch m =
    match buy_amount (config (bot m)) with
    | Ok a =>
        quote_then_execute AddressZero (tokenAddress (bot m))
                           (BigNumber.toString a)
                           "Buy order executed successfully!" m
    | Throw e => (m, Throw e)
    end.
Proof.
  unfold buyBranch, buy_amount, bind at 1 2 3, this, lift.
  destruct (swapAmount (config (bot m))) as [x |]; simpl; [ | reflexivity].
  destruct (parseEther (numberToString x)); reflexivity.
Qed.

Lemma sellBranch_run (tokenBalance : string) (m : Machine) :
  sellBranch tokenBalance m =
    match sell_amount (config (bot m)) tokenBalance with
    | Ok a =>
        quote_then_execute (tokenAddress (bot m)) AddressZero
                           (BigNumber.toString a)
                           "Sell order executed successfully!" m
    | Throw e => (m, Throw e)
    end.
Proof.
  unfold sellBranch, sell_amount, bind at 1 2 3, this, lift.
  destruct (parseUnits tokenBalance 18) as [w |]; [ | reflexivity].
  destruct (sellAmount (config (bot m)) w); reflexivity.
Qed.


(** A swap attempt issues the quote request; with a quote it goes on
    to [executeSwap], without one it has logged the cause and ends. *)
Lemma quote_then_execute_run (src dst amt done : string) (m : Machine) :
  quote_then_execute src dst amt done m =
    let m2 := fst (await axiosGetQuote
                         (AxiosGetQuote (route_request (bot m) src dst amt))
                         m) in
    match http_payload "Failed to get swap quote"
                       (axiosGetQuote (tick m)) with
    | Ok _ =>
        (result <- executeSwap {| fromToken := src;
                                  toToken := dst;
                                  amount := amt |} ;;
         (if success result then log done else ret tt) ;;
         ret (Some result)) m2
    | Throw cause =>
        (fst (log ("Error getting swap quote: " ++ cause) m2),
         after_write (tick m2) None)
    end.
Proof.
  unfold quote_then_execute, bind at 1.
  rewrite getSwapQuote_run. cbv zeta.
  destruct (http_payload "Failed to get swap quote"
                         (axiosGetQuote (tick m))); [reflexivity | ].
  unfold after_write. destruct (writeFileSync _) as [[] | e]; reflexivity.
Qed.










End SwapAttempt.

(* ===================================================================== *)
(** ** Sell sizing *)
(* ===================================================================== *)

Section SellSizing.

Context {rt : Runtime}.

Lemma from_number_100 : BigNumber.from_number (JS.of_Z 100) = Ok 100%Z.
Proof. vm_compute. reflexivity. Qed.

Lemma to_integer_positive_truthy (s : JS.number) (z : Z) :
  JS.to_integer s = Some z -> (0 < z)%Z -> JS.truthy s = true.
Proof.
  destruct s; simpl; intros H Hz; try reflexivity; try discriminate.
  injection H as <-. lia.
Qed.

Lemma from_number_in_range (s : JS.number) (z : Z) :
  JS.to_integer s = Some z ->
  (- BigNumber.MAX_SAFE < z < BigNumber.MAX_SAFE)%Z ->
  BigNumber.from_number s = Ok z.
Proof.
  intros Hz Hrange.
  assert (Hcheck : (if ((BigNumber.MAX_SAFE <=? z)
                        || (z <=? - BigNumber.MAX_SAFE))%Z
                    then @Throw Z "overflow" else Ok z) = Ok z).
  { destruct (BigNumber.MAX_SAFE <=? z)%Z eqn:H1;
      [apply Z.leb_le in H1; lia | ].
    destruct (z <=? - BigNumber.MAX_SAFE)%Z eqn:H2;
      [apply Z.leb_le in H2; lia | ].
    reflexivity. }
  unfold BigNumber.from_number.
  destruct s; try discriminate Hz; rewrite Hz; exact Hcheck.
Qed.

(** Sizing with an integer percentage in the safe range. *)
Lemma sellAmount_percent (cfg : Config) (B : Z) (s : JS.number) (z : Z) :
  sellPercentage cfg = Some s ->
  JS.truthy s = true ->
  JS.to_integer s = Some z ->
  (- BigNumber.MAX_SAFE < z < BigNumber.MAX_SAFE)%Z ->
  sellAmount cfg B = Ok (Z.quot (B * z) 100).
Proof.
  intros Hs Ht Hz Hrange.
  unfold sellAmount, BigNumber.mul, BigNumber.div, JS.or_default.
  rewrite Hs, Ht, (from_number_in_range s z Hz Hrange), from_number_100.
  reflexivity.
Qed.

(** Sizing with a falsy percentage: the default 100 is used. *)
Lemma sellAmount_default (cfg : Config) (B : Z) :
  falsy_percentage (sellPercentage cfg) = true ->
  sellAmount cfg B = Ok B.
Proof.
  intros Hf. unfold sellAmount, BigNumber.mul, BigNumber.div.
  assert (Hd : JS.or_default JS.truthy (sellPercentage cfg) (JS.of_Z 100)
               = JS.of_Z 100).
  { unfold falsy_percentage in Hf. unfold JS.or_default.
    destruct (sellPercentage cfg) as [x |]; [ | reflexivity].
    destruct (JS.truthy x); [discriminate | reflexivity]. }
  rewrite Hd, from_number_100. cbv beta iota.
  change (100 =? 0)%Z with false. cbv beta iota.
  rewrite Z.quot_mul by lia. reflexivity.
Qed.

Lemma sink_carries (amt : string) (ev : Event) :
  log_sink_event ev = true -> carries amt ev.
Proof. destruct ev; simpl; intros H; try discriminate; exact I. Qed.

(** The requests of the sell block carry the sized amount. *)
Lemma sellBranch_requests (m : Machine) (tokenBalance : string) (B X : Z) :
  parseUnits tokenBalance 18 = Ok B ->
  sellAmount (config (bot m)) B = Ok X ->
  sell_requests_carry m tokenBalance X.
Proof.
  intros Hparse Hsize.
  set (amt := BigNumber.toString X).
  set (P := carries amt).
  assert (Psink : forall ev, log_sink_event ev = true -> P ev)
    by apply sink_carries.
  set (rq := route_request (bot m) (tokenAddress (bot m)) AddressZero amt).
  set (m2 := fst (await axiosGetQuote (AxiosGetQuote rq) m)).
  exists rq, (axiosGetQuote (tick m)).
  split; [reflexivity | ].
  assert (Hrun : sellBranch tokenBalance m =
                 quote_then_execute (tokenAddress (bot m)) AddressZero amt
                                    "Sell order executed successfully!" m).
  { rewrite sellBranch_run. unfold sell_amount.
    rewrite Hparse, Hsize. reflexivity. }
  rewrite Hrun, quote_then_execute_run. cbv zeta.
  fold rq. fold m2.
  pose proof (await_starts P Psink axiosGetQuote (AxiosGetQuote rq) m)
    as Hstart.
  fold m2 in Hstart.
  unfold quote_ok.
  destruct (http_payload "Failed to get swap quote"
                         (axiosGetQuote (tick m))) as [q | cause].
  - set (sd := {| fromToken := tokenAddress (bot m);
                  toToken := AddressZero;
                  amount := amt |}).
    assert (Hrest : forall result : SwapOutcome,
               preserves (trace_extends_by P)
                 ((if success result
                   then log "Sell order executed successfully!"
                   else ret tt) ;; ret (Some result))).
    { intros result.
      apply (preserves_bind _ (trace_extends_by_trans P)).
      - destruct (success result).
        + apply (log_extends_trace P Psink).
        + apply (preserves_ret _ (trace_extends_by_refl P)).
      - intros _. apply (preserves_ret _ (trace_extends_by_refl P)). }
    assert (Hexec : preserves (trace_extends_by P) (executeSwap sd)).
    { apply (preserves_executeSwap (trace_extends_by P) P);
        first [ exact (trace_extends_by_refl P)
              | exact (trace_extends_by_trans P)
              | exact (log_extends_trace P Psink)
              | exact (await_extends_trace P Psink)
              | intros; exact I
              | idtac ].
      intros rq0 s f r Hrq. exact Hrq. }
    split.
    + eapply trace_starts_then_extends; [exact Hstart | ].
      apply (preserves_bind _ (trace_extends_by_trans P)
                            (executeSwap sd) _ Hexec Hrest).
    + intros _.
      destruct (await_starts is_sink sink_is_sink axiosGetQuote
                             (AxiosGetQuote rq) m) as [between [Hq Hsinks]].
      fold m2 in Hq.
      destruct (executeSwap_starts sd m2) as [e2 [He2 _]].
      assert (Htail : trace_extends_by P
                        (fst (executeSwap sd m2))
                        (fst ((result <- executeSwap sd ;;
                               (if success result
                                then log "Sell order executed successfully!"
                                else ret tt) ;; ret (Some result)) m2))).
      { unfold bind at 1.
        destruct (executeSwap sd m2) as [m3 [o | e]]; cbn [fst].
        - apply Hrest.
        - apply trace_extends_by_refl. }
      destruct Htail as [e3 [He3 _]].
      exists (route_request (bot m2) (tokenAddress (bot m)) AddressZero amt),
             (axiosPostSwap (tick m2)), between, (e2 ++ e3)%list.
      split; [reflexivity | ].
      split; [exact Hsinks | ].
      rewrite He3, He2, Hq.
      repeat rewrite <- app_assoc. reflexivity.
  - split.
    + eapply trace_starts_then_extends; [exact Hstart | ].
      cbn [fst]. apply (log_extends_trace P Psink).
    + discriminate.
Qed.

(** C2 (as amended): for a tracked-asset balance [B >= 0] in smallest
    units and a configured sell percentage that is a positive integer
    (below 2^53 - 1), the sell amount is [floor(B * s / 100)] and it is
    the amount passed to the quote and swap-build requests. *)
Theorem C2_sell_sizing_positive_percentage
        (m : Machine) (tokenBalance : string) (B : Z)
        (s : JS.number) (z : Z) :
  parseUnits tokenBalance 18 = Ok B ->
  (0 <= B)%Z ->
  sellPercentage (config (bot m)) = Some s ->
  JS.to_integer s = Some z ->
  (0 < z < BigNumber.MAX_SAFE)%Z ->
  sized_by_percentage m tokenBalance B z.
Proof.
  intros Hparse HB Hs Hz Hrange.
  assert (Hsize : sellAmount (config (bot m)) B = Ok (B * z / 100)%Z).
  { rewrite (sellAmount_percent _ B s z Hs).
    - rewrite Z.quot_div_nonneg by nia. reflexivity.
    - apply (to_integer_positive_truthy s z Hz). lia.
    - exact Hz.
    - unfold BigNumber.MAX_SAFE in *. lia. }
  split; [exact Hsize | ].
  exact (sellBranch_requests m tokenBalance B _ Hparse Hsize).
Qed.

(** C9: with a sell percentage of 0, or any other falsy value, or
    none, the sized sell amount is the full tracked-asset balance, and
    that is the amount passed to the quote and swap-build requests. *)
Theorem C9_falsy_percentage_sells_full_balance
        (m : Machine) (tokenBalance : string) (B : Z) :
  parseUnits tokenBalance 18 = Ok B ->
  falsy_percentage (sellPercentage (config (bot m))) = true ->
  sellAmount (config (bot m)) B = Ok B
  /\ sell_requests_carry m tokenBalance B.
Proof.
  intros Hparse Hfalsy.
  pose proof (sellAmount_default (config (bot m)) B Hfalsy) as Hsize.
  split; [exact Hsize | ].
  exact (sellBranch_requests m tokenBalance B B Hparse Hsize).
Qed.

End SellSizing.

(* ===================================================================== *)
(** ** Failed phases *)
(* ===================================================================== *)

Section SwapFailure.

Context {rt : Runtime}.




End SwapFailure.

(* ===================================================================== *)
(** ** The monitoring loop *)
(* ===================================================================== *)

Section MonitoringLoop.

Context {rt : Runtime}.

(** The [catch] block of the loop throws only the error of the write
    of its log entry. *)
Lemma recover_run (message : string) (m : Machine) :
  recover message m =
    match writeFileSync (tick m) with
    | Ok _ => sleep (JS.of_Z 5000)
                    (fst (log ("Error in monitoring loop: " ++ message) m))
    | Throw e =>
        (fst (log ("Error in monitoring loop: " ++ message) m), Throw e)
    end.
Proof.
  unfold recover, bind. rewrite log_run.
  destruct (writeFileSync (tick m)) as [[] | e]; reflexivity.
Qed.

Lemma recover_throws (message : string) (m : Machine) (e : string) :
  snd (recover message m) = Throw e -> writeFileSync (tick m) = Throw e.
Proof.
  rewrite recover_run.
  destruct (writeFileSync (tick m)) as [[] | e0]; cbn [snd].
  - discriminate.
  - intros [= ->]. reflexivity.
Qed.

(** A turn of the loop throws only the error of a failed write. *)
Lemma turn_throws (m : Machine) (e : string) :
  snd (try_catch iteration recover m) = Throw e ->
  exists t, writeFileSync t = Throw e.
Proof.
  unfold try_catch.
  destruct (iteration m) as [m1 [u | e1]]; cbn [snd].
  - discriminate.
  - intros H. eexists. exact (recover_throws e1 m1 e H).
Qed.

(** Unfolding one turn of the loop: the loop goes on when the turn
    returns, and ends with the error when the turn throws. *)
Lemma monitorLoop_turn (n : nat) (m : Machine) :
  isRunning (bot m) = true ->
  monitorLoop (S n) m =
    match snd (try_catch iteration recover m) with
    | Ok _ => monitorLoop n (fst (try_catch iteration recover m))
    | Throw e => (fst (try_catch iteration recover m), Throw e)
    end.
Proof.
  intros Hrun. simpl. unfold bind at 1, this. rewrite Hrun.
  unfold bind.
  destruct (try_catch iteration recover m) as [m1 [u | e]]; reflexivity.
Qed.

Lemma monitorLoop_running (n : nat) (m : Machine) :
  isRunning (bot m) = true ->
  snd (try_catch iteration recover m) = Ok tt ->
  monitorLoop (S n) m
  = monitorLoop n (fst (try_catch iteration recover m)).
Proof.
  intros Hrun Hturn. rewrite (monitorLoop_turn n m Hrun), Hturn.
  reflexivity.
Qed.

(** The loop throws only the error of a failed write. *)
Lemma monitorLoop_throws (fuel : nat) (m : Machine) (e : string) :
  snd (monitorLoop fuel m) = Throw e ->
  exists t, writeFileSync t = Throw e.
Proof.
  revert m. induction fuel as [| n IH]; intros m.
  - simpl. unfold bind, this.
    destruct (isRunning (bot m)); discriminate.
  - destruct (isRunning (bot m)) eqn:Hrun.
    + rewrite (monitorLoop_turn n m Hrun).
      destruct (snd (try_catch iteration recover m)) as [u | e1] eqn:Hturn.
      * apply IH.
      * cbn [snd]. intros [= ->]. exact (turn_throws m e Hturn).
    + simpl. unfold bind, this. rewrite Hrun. discriminate.
Qed.

Lemma monitorAndSwap_throws (fuel : nat) (m : Machine) (e : string) :
  snd (monitorAndSwap fuel m) = Throw e ->
  exists t, writeFileSync t = Throw e.
Proof.
  unfold monitorAndSwap, bind. rewrite log_run.
  destruct (writeFileSync (tick m)) as [[] | e0] eqn:Hw.
  - apply monitorLoop_throws.
  - cbn [snd]. intros [= ->]. now exists (tick m).
Qed.

(** With writes that succeed, nothing the loop does throws. *)
Lemma not_thrown {A : Type} (r : Res A) :
  writes_succeed ->
  (forall e, r = Throw e -> exists t, writeFileSync t = Throw e) ->
  exists a, r = Ok a.
Proof.
  intros Hw H. destruct r as [a | e]; [now exists a | ].
  destruct (H e eq_refl) as [t Ht]. rewrite (Hw t) in Ht. discriminate.
Qed.

Lemma guarded_iteration_returns :
  writes_succeed -> returns (try_catch iteration recover).
Proof.
  intros Hw m. apply (not_thrown _ Hw). intros e. apply turn_throws.
Qed.

Lemma monitorLoop_returns (fuel : nat) :
  writes_succeed -> returns (monitorLoop fuel).
Proof.
  intros Hw m. apply (not_thrown _ Hw). intros e. apply monitorLoop_throws.
Qed.

Lemma monitorAndSwap_returns (fuel : nat) :
  writes_succeed -> returns (monitorAndSwap fuel).
Proof.
  intros Hw m. apply (not_thrown _ Hw). intros e. apply monitorAndSwap_throws.
Qed.

Lemma monitorLoop_stopped (fuel : nat) (m : Machine) :
  isRunning (bot m) = false ->
  monitorLoop fuel m = (m, Ok Returned).
Proof.
  intros Hrun. destruct fuel; simpl; unfold bind, this; now rewrite Hrun.
Qed.

(** The loop returns only with the run flag cleared. *)
Lemma monitorLoop_Returned (fuel : nat) (m : Machine) :
  snd (monitorLoop fuel m) = Ok Returned ->
  isRunning (bot (fst (monitorLoop fuel m))) = false.
Proof.
  revert m. induction fuel as [| n IH]; intros m.
  - simpl. unfold bind, this.
    destruct (isRunning (bot m)) eqn:Hrun; simpl.
    + discriminate.
    + intros _. exact Hrun.
  - destruct (isRunning (bot m)) eqn:Hrun.
    + rewrite (monitorLoop_turn n m Hrun).
      destruct (snd (try_catch iteration recover m)); [apply IH | ].
      discriminate.
    + rewrite (monitorLoop_stopped (S n) m Hrun). intros _. exact Hrun.
Qed.

(** What the [catch] block does when the write of its entry
    succeeds: one log entry, then a 5000 ms sleep; a [stop()] that
    arrives during the sleep only logs. *)
Lemma recover_trace (message : string) (m : Machine) :
  writeFileSync (tick m) = Ok tt ->
  exists sinks,
    trace (fst (recover message m))
    = (trace m
         ++ [ConsoleLog (entry_at (tick m)
                           ("Error in monitoring loop: " ++ message));
             WriteLogFile
               (String.concat newline
                  (logs (bot m)
                     ++ [entry_at (tick m)
                           ("Error in monitoring loop: " ++ message)]));
             Sleep (JS.of_Z 5000)]
         ++ sinks)%list
    /\ Forall is_sink sinks.
Proof.
  intros Hw. rewrite recover_run, Hw. rewrite log_run. cbn [fst].
  match goal with
  | |- context [sleep ?ms ?m1] =>
      destruct (await_starts is_sink sink_is_sink (fun _ : nat => tt)
                             (fun _ : unit => Sleep ms) m1)
        as [sinks [Ht Hf]]
  end.
  exists sinks. split; [ | exact Hf].
  unfold sleep. rewrite Ht. simpl.
  rewrite <- app_assoc. reflexivity.
Qed.

(** When the body throws and the write of the [catch] block's entry
    succeeds, the loop goes on from the machine the [catch] block
    leaves. *)
Lemma monitorLoop_recovers (n : nat) (m m1 : Machine) (e : string) :
  isRunning (bot m) = true ->
  iteration m = (m1, Throw e) ->
  writeFileSync (tick m1) = Ok tt ->
  monitorLoop (S n) m = monitorLoop n (fst (recover e m1)).
Proof.
  intros Hrun Hthrow Hw. rewrite (monitorLoop_turn n m Hrun).
  unfold try_catch. rewrite Hthrow.
  rewrite recover_run, Hw. reflexivity.
Qed.

(** When the body throws and that write fails, the loop ends with the
    error of the write. *)
Lemma monitorLoop_escapes (n : nat) (m m1 : Machine) (e e' : string) :
  isRunning (bot m) = true ->
  iteration m = (m1, Throw e) ->
  writeFileSync (tick m1) = Throw e' ->
  monitorLoop (S n) m
  = (fst (log ("Error in monitoring loop: " ++ e) m1), Throw e').
Proof.
  intros Hrun Hthrow Hw. rewrite (monitorLoop_turn n m Hrun).
  unfold try_catch. rewrite Hthrow.
  rewrite recover_run, Hw. reflexivity.
Qed.

Lemma sink_any (ev : Event) : log_sink_event ev = true -> any_event ev.
Proof. intros _. exact I. Qed.

Ltac any_side :=
  first [ exact (trace_extends_by_refl any_event)
        | exact (trace_extends_by_trans any_event)
        | exact (log_extends_trace any_event sink_any)
        | exact (await_extends_trace any_event sink_any)
        | intros; exact I ].

Lemma recover_extends (message : string) :
  preserves (trace_extends_by any_event) (recover message).
Proof.
  apply (preserves_recover (trace_extends_by any_event) any_event);
    any_side.
Qed.

(** [getTokenPrice] issues the request; on a good answer it returns
    the payload, otherwise it logs the cause and returns [null],
    unless the write of that entry fails. *)
Lemma getTokenPrice_run (token : string) (m : Machine) :
  getTokenPrice token m =
    let m2 := fst (await axiosGetTokens
                         (AxiosGetTokens (chainId (bot m)) token) m) in
    match http_payload "Failed to fetch token price"
                       (axiosGetTokens (tick m)) with
    | Ok td => (m2, Ok (Some td))
    | Throw cause =>
        (fst (log ("Error fetching token price: " ++ cause) m2),
         after_write (tick m2) None)
    end.
Proof.
  unfold getTokenPrice, try_catch, bind at 1 2, this, axios, bind at 1.
  rewrite await_run. cbv zeta.
  unfold http_payload.
  destruct (axiosGetTokens (tick m)) as [e | c d]; simpl.
  - apply log_then_ret.
  - destruct (c =? "0")%string; [destruct d as [td |] | ]; simpl;
      first [ reflexivity | apply log_then_ret ].
Qed.

(** [getTokenPrice] starts by issuing the price request. *)
Lemma getTokenPrice_starts (token : string) (m : Machine) :
  trace_starts_with
    (AxiosGetTokens (chainId (bot m)) token (axiosGetTokens (tick m)))
    any_event m (fst (getTokenPrice token m)).
Proof.
  pose proof (await_starts any_event sink_any axiosGetTokens
                (AxiosGetTokens (chainId (bot m)) token) m) as Hstart.
  rewrite getTokenPrice_run. cbv zeta.
  destruct (http_payload "Failed to fetch token price"
                         (axiosGetTokens (tick m))) as [td | cause];
    cbn [fst].
  - exact Hstart.
  - eapply trace_starts_then_extends; [exact Hstart | ].
    apply (log_extends_trace any_event sink_any).
Qed.

Lemma bind_starts {A B : Type} (first : Event) (c : M A) (k : A -> M B)
      (m : Machine) :
  trace_starts_with first any_event m (fst (c m)) ->
  (forall a, preserves (trace_extends_by any_event) (k a)) ->
  trace_starts_with first any_event m (fst (bind c k m)).
Proof.
  intros Hc Hk. unfold bind.
  destruct (c m) as [m1 [a | e]]; simpl in *.
  - eapply trace_starts_then_extends; [exact Hc | apply Hk].
  - exact Hc.
Qed.

(** Every turn of the loop starts from the price fetch. *)
Lemma guarded_iteration_starts (m : Machine) :
  trace_starts_with
    (AxiosGetTokens (chainId (bot m)) (tokenAddress (bot m))
                    (axiosGetTokens (tick m)))
    any_event m (fst (try_catch iteration recover m)).
Proof.
  assert (Hit : trace_starts_with
                  (AxiosGetTokens (chainId (bot m)) (tokenAddress (bot m))
                                  (axiosGetTokens (tick m)))
                  any_event m (fst (iteration m))).
  { unfold iteration, bind at 1, this.
    apply bind_starts; [apply getTokenPrice_starts | ].
    intros tokenData.
    repeat first
           [ preserves_step (trace_extends_by_refl any_event)
                            (trace_extends_by_trans any_event)
           | apply (log_extends_trace any_event sink_any)
           | apply (preserves_sleep (trace_extends_by any_event)
                                    any_event); any_side
           | apply (preserves_getWalletBalance
                      (trace_extends_by any_event) any_event); any_side
           | apply (preserves_buyBranch
                      (trace_extends_by any_event) any_event); any_side
           | apply (preserves_sellBranch
                      (trace_extends_by any_event) any_event); any_side ]. }
  unfold try_catch.
  destruct (iteration m) as [m1 [u | e]]; simpl in *.
  - exact Hit.
  - eapply trace_starts_then_extends; [exact Hit | apply recover_extends].
Qed.

Lemma monitorLoop_starts (n : nat) (m : Machine) :
  isRunning (bot m) = true ->
  trace_starts_with
    (AxiosGetTokens (chainId (bot m)) (tokenAddress (bot m))
                    (axiosGetTokens (tick m)))
    any_event m (fst (monitorLoop (S n) m)).
Proof.
  intros Hrun. rewrite (monitorLoop_turn n m Hrun).
  destruct (snd (try_catch iteration recover m)); cbn [fst];
    [ | apply guarded_iteration_starts].
  eapply trace_starts_then_extends; [apply guarded_iteration_starts | ].
  apply (preserves_monitorLoop (trace_extends_by any_event) any_event);
    any_side.
Qed.

(** Without a [stop()] request nothing clears the run flag. *)
Section NoStop.

Hypothesis no_stop : forall t, stopRequested t = false.
Hypothesis all_written : writes_succeed.

Lemma log_same_flag (message : string) :
  preserves same_flag (log message).
Proof. intros m. rewrite log_run. reflexivity. Qed.

Lemma await_same_flag (A : Type) (answer : nat -> A) (ev : A -> Event) :
  (forall r, any_event (ev r)) -> preserves same_flag (await answer ev).
Proof.
  intros _ m. unfold await. cbv zeta. rewrite no_stop. reflexivity.
Qed.

Lemma guarded_iteration_same_flag :
  preserves same_flag (try_catch iteration recover).
Proof.
  apply (preserves_try_catch _ same_flag_trans).
  - apply (preserves_iteration same_flag any_event);
      first [ exact same_flag_refl | exact same_flag_trans
            | exact log_same_flag | exact await_same_flag
            | intros; exact I ].
  - intros e.
    apply (preserves_recover same_flag any_event);
      first [ exact same_flag_refl | exact same_flag_trans
            | exact log_same_flag | exact await_same_flag
            | intros; exact I ].
Qed.

(** With writes that succeed, a running loop keeps running: after
    any number of turns it is still pending, the flag is set, and it
    has issued at least one price request per turn. *)
Lemma monitorLoop_keeps_running (fuel : nat) (m : Machine) :
  isRunning (bot m) = true ->
  snd (monitorLoop fuel m) = Ok Pending
  /\ isRunning (bot (fst (monitorLoop fuel m))) = true
  /\ exists evs,
      trace (fst (monitorLoop fuel m)) = (trace m ++ evs)%list
      /\ fuel <= fetches evs.
Proof.
  revert m. induction fuel as [| n IH]; intros m Hrun.
  - simpl. unfold bind, this. rewrite Hrun. simpl.
    repeat split; [exact Hrun | ].
    exists []. split; [now rewrite app_nil_r | apply le_n].
  - destruct (guarded_iteration_returns all_written m) as [[] Hturn].
    rewrite (monitorLoop_running n m Hrun Hturn).
    pose proof (guarded_iteration_same_flag m) as Hflag.
    destruct (guarded_iteration_starts m) as [evs1 [Ht1 _]].
    set (m1 := fst (try_catch iteration recover m)) in *.
    assert (Hrun1 : isRunning (bot m1) = true).
    { unfold same_flag in Hflag. congruence. }
    destruct (IH m1 Hrun1) as [Hp [Hr [evs2 [Ht2 Hn]]]].
    repeat split; [exact Hp | exact Hr | ].
    eexists. split.
    + rewrite Ht2, Ht1, <- app_assoc. reflexivity.
    + unfold fetches in *. simpl.
      rewrite filter_app, length_app. lia.
Qed.

End NoStop.

(** C7 (as amended): the monitoring loop ends on an error only when
    a write of the log file fails.
    - [monitorAndSwap] throws no error but that of a failed write of
      the log file; with writes that succeed it never throws.
    - When the body of a turn throws while the run flag is set, the
      [catch] block logs "Error in monitoring loop: ...".  When the
      write of that entry succeeds, the block then sleeps 5000 ms and
      the loop goes on from there; when that write fails, the loop
      ends there with the error of the write.
    - Every turn taken with the run flag set starts from the price
      fetch.
    - The loop returns only with the run flag cleared.
    - With writes that succeed and as long as no [stop()] arrives, a
      running loop is still pending after any number of turns, each
      of which fetched the price. *)
Theorem C7_loop_survives_errors :
  (forall (fuel : nat) (m : Machine) (e : string),
      snd (monitorAndSwap fuel m) = Throw e ->
      exists t, writeFileSync t = Throw e)
  /\ (writes_succeed ->
      forall (fuel : nat) (m : Machine),
        exists status, snd (monitorAndSwap fuel m) = Ok status)
  /\ (forall (n : nat) (m m1 : Machine) (e : string),
         isRunning (bot m) = true ->
         iteration m = (m1, Throw e) ->
         writeFileSync (tick m1) = Ok tt ->
         monitorLoop (S n) m = monitorLoop n (fst (recover e m1))
         /\ exists sinks,
             trace (fst (recover e m1))
             = (trace m1
                  ++ [ConsoleLog
                        (entry_at (tick m1)
                                  ("Error in monitoring loop: " ++ e));
                      WriteLogFile
                        (String.concat newline
                           (logs (bot m1)
                              ++ [entry_at
                                    (tick m1)
                                    ("Error in monitoring loop: " ++ e)]));
                      Sleep (JS.of_Z 5000)]
                  ++ sinks)%list
             /\ Forall is_sink sinks)
  /\ (forall (n : nat) (m m1 : Machine) (e e' : string),
         isRunning (bot m) = true ->
         iteration m = (m1, Throw e) ->
         writeFileSync (tick m1) = Throw e' ->
         monitorLoop (S n) m
         = (fst (log ("Error in monitoring loop: " ++ e) m1), Throw e'))
  /\ (forall (n : nat) (m : Machine),
         isRunning (bot m) = true ->
         trace_starts_with
           (AxiosGetTokens (chainId (bot m)) (tokenAddress (bot m))
                           (axiosGetTokens (tick m)))
           any_event m (fst (monitorLoop (S n) m)))
  /\ (forall (fuel : nat) (m : Machine),
         snd (monitorLoop fuel m) = Ok Returned ->
         isRunning (bot (fst (monitorLoop fuel m))) = false)
  /\ (writes_succeed ->
      (forall t, stopRequested t = false) ->
      forall (fuel : nat) (m : Machine),
        isRunning (bot m) = true ->
        snd (monitorLoop fuel m) = Ok Pending
        /\ isRunning (bot (fst (monitorLoop fuel m))) = true
        /\ exists evs,
            trace (fst (monitorLoop fuel m)) = (trace m ++ evs)%list
            /\ fuel <= fetches evs).
Proof.
  split; [ | split; [ | split; [ | split; [ | split; [ | split]]]]].
  - exact monitorAndSwap_throws.
  - intros Hw fuel m. apply (monitorAndSwap_returns fuel Hw).
  - intros n m m1 e Hrun Hthrow Hw. split.
    + exact (monitorLoop_recovers n m m1 e Hrun Hthrow Hw).
    + apply recover_trace. exact Hw.
  - exact monitorLoop_escapes.
  - exact monitorLoop_starts.
  - exact monitorLoop_Returned.
  - intros Hw Hquiet. exact (monitorLoop_keeps_running Hquiet Hw).
Qed.

End MonitoringLoop.

(* ===================================================================== *)
(** ** Further properties: the external-call wrappers *)
(* ===================================================================== *)

Section WrapperBehaviour.

Context {rt : Runtime}.

(** X1: [getTokenPrice] makes one price request and nothing else
    outside the log sink (no retry).  A good answer gives its payload.
    A rejected call, a status code other than "0" or a missing payload
    puts the cause at the end of the log buffer; the call then gives
    [null] when the write of that entry succeeds, and throws the
    error of the write when it fails.  It throws in no other case. *)
Theorem X1_getTokenPrice_error_behaviour (token : string) (m : Machine) :
  trace_starts_with
    (AxiosGetTokens (chainId (bot m)) token (axiosGetTokens (tick m)))
    is_sink m (fst (getTokenPrice token m))
  /\ match http_payload "Failed to fetch token price"
                        (axiosGetTokens (tick m)) with
     | Ok td => snd (getTokenPrice token m) = Ok (Some td)
     | Throw cause =>
         snd (getTokenPrice token m)
         = after_write (tick (priced token m)) None
         /\ exists earlier t,
             logs (bot (fst (getTokenPrice token m)))
             = (earlier
                  ++ [entry_at t ("Error fetching token price: " ++ cause)])%list
     end.
Proof.
  pose proof (await_starts is_sink sink_is_sink axiosGetTokens
                (AxiosGetTokens (chainId (bot m)) token) m) as Hstart.
  rewrite getTokenPrice_run. cbv zeta. fold (priced token m) in *.
  destruct (http_payload "Failed to fetch token price"
                         (axiosGetTokens (tick m))) as [td | cause].
  - split; [exact Hstart | reflexivity].
  - cbn [fst snd]. split.
    + eapply trace_starts_then_extends; [exact Hstart | ].
      apply (log_extends_trace is_sink sink_is_sink).
    + split; [reflexivity | ].
      eexists. eexists. apply log_last_entry.
Qed.

(** X2: [getSwapQuote] makes one quote request, for the tokens and the
    amount it is given, and nothing else outside the log sink.  A good
    answer gives its payload.  Any failure puts the cause at the end
    of the log buffer; the call then gives [null] when the write of
    that entry succeeds, and throws the error of the write when it
    fails.  It throws in no other case. *)
Theorem X2_getSwapQuote_error_behaviour (src dst amt : string)
        (m : Machine) :
  trace_starts_with
    (AxiosGetQuote (route_request (bot m) src dst amt)
                   (axiosGetQuote (tick m)))
    is_sink m (fst (getSwapQuote src dst amt m))
  /\ match http_payload "Failed to get swap quote"
                        (axiosGetQuote (tick m)) with
     | Ok q => snd (getSwapQuote src dst amt m) = Ok (Some q)
     | Throw cause =>
         snd (getSwapQuote src dst amt m)
         = after_write (tick (quoted src dst amt m)) None
         /\ exists earlier t,
             logs (bot (fst (getSwapQuote src dst amt m)))
             = (earlier
                  ++ [entry_at t ("Error getting swap quote: " ++ cause)])%list
     end.
Proof.
  pose proof (await_starts is_sink sink_is_sink axiosGetQuote
                (AxiosGetQuote (route_request (bot m) src dst amt)) m)
    as Hstart.
  rewrite getSwapQuote_run. cbv zeta. fold (quoted src dst amt m) in *.
  destruct (http_payload "Failed to get swap quote"
                         (axiosGetQuote (tick m))) as [q | cause].
  - split; [exact Hstart | reflexivity].
  - cbn [fst snd]. split.
    + eapply trace_starts_then_extends; [exact Hstart | ].
      apply (log_extends_trace is_sink sink_is_sink).
    + split; [reflexivity | ].
      eexists. eexists. apply log_last_entry.
Qed.

(** The outcome of [executeSwap] when the template is there and the
    signer rejects the submission. *)
Lemma submit_rejected (swapData : SwapData) (txData : TxData) (m : Machine)
      (e : string) :
  build_payload (axiosPostSwap (tick m)) = Ok txData ->
  walletSendTransaction (tick (built swapData m)) = Throw e ->
  executeSwap swapData m
  = (fst (log ("Error executing swap: " ++ e) (submitted swapData txData m)),
     after_write (tick (submitted swapData txData m)) (failed e)).
Proof.
  intros Hb Hsend.
  rewrite (executeSwap_build_success swapData m txData Hb).
  fold (built swapData m).
  unfold try_catch, submit. cbv zeta. fold (tx_of txData).
  unfold bind at 1. rewrite await_res_run, Hsend.
  fold (submitted swapData txData m).
  unfold swap_failed. apply log_then_ret.
Qed.

(** ... when the signer accepts and the write of the entry for the
    accepted transaction fails: the confirmation is not waited for. *)
Lemma announce_failed (swapData : SwapData) (txData : TxData) (m : Machine)
      (transaction : TransactionResponse) (e : string) :
  build_payload (axiosPostSwap (tick m)) = Ok txData ->
  walletSendTransaction (tick (built swapData m)) = Ok transaction ->
  writeFileSync (tick (submitted swapData txData m)) = Throw e ->
  executeSwap swapData m
  = (fst (log ("Error executing swap: " ++ e)
              (announced swapData txData transaction m)),
     after_write (tick (announced swapData txData transaction m))
                 (failed e)).
Proof.
  intros Hb Hsend Hw.
  rewrite (executeSwap_build_success swapData m txData Hb).
  fold (built swapData m).
  unfold try_catch, submit. cbv zeta. fold (tx_of txData).
  unfold bind at 1. rewrite await_res_run, Hsend.
  fold (submitted swapData txData m).
  rewrite (log_throws _ _ _ e Hw).
  fold (announced swapData txData transaction m).
  unfold swap_failed. apply log_then_ret.
Qed.

(** ... when the signer accepts and the confirmation wait fails. *)
Lemma wait_rejected (swapData : SwapData) (txData : TxData) (m : Machine)
      (transaction : TransactionResponse) (e : string) :
  build_payload (axiosPostSwap (tick m)) = Ok txData ->
  walletSendTransaction (tick (built swapData m)) = Ok transaction ->
  writeFileSync (tick (submitted swapData txData m)) = Ok tt ->
  transactionWait (tick (announced swapData txData transaction m))
  = Throw e ->
  executeSwap swapData m
  = (fst (log ("Error executing swap: " ++ e)
              (waited swapData txData transaction m)),
     after_write (tick (waited swapData txData transaction m)) (failed e)).
Proof.
  intros Hb Hsend Hw Hwait.
  rewrite (executeSwap_build_success swapData m txData Hb).
  fold (built swapData m).
  unfold try_catch, submit. cbv zeta. fold (tx_of txData).
  unfold bind at 1. rewrite await_res_run, Hsend.
  fold (submitted swapData txData m).
  rewrite (log_bind _ _ _ Hw).
  fold (announced swapData txData transaction m).
  unfold bind at 1. rewrite await_res_run, Hwait.
  fold (waited swapData txData transaction m).
  unfold swap_failed. apply log_then_ret.
Qed.

(** ... when the confirmation arrives and the write of the entry for
    it fails. *)
Lemma confirm_failed (swapData : SwapData) (txData : TxData) (m : Machine)
      (transaction : TransactionResponse) (rcpt : Receipt) (e : string) :
  build_payload (axiosPostSwap (tick m)) = Ok txData ->
  walletSendTransaction (tick (built swapData m)) = Ok transaction ->
  writeFileSync (tick (submitted swapData txData m)) = Ok tt ->
  transactionWait (tick (announced swapData txData transaction m))
  = Ok rcpt ->
  writeFileSync (tick (waited swapData txData transaction m)) = Throw e ->
  executeSwap swapData m
  = (fst (log ("Error executing swap: " ++ e)
              (confirmed swapData txData transaction rcpt m)),
     after_write (tick (confirmed swapData txData transaction rcpt m))
                 (failed e)).
Proof.
  intros Hb Hsend Hw Hwait Hw2.
  rewrite (executeSwap_build_success swapData m txData Hb).
  fold (built swapData m).
  unfold try_catch, submit. cbv zeta. fold (tx_of txData).
  unfold bind at 1. rewrite await_res_run, Hsend.
  fold (submitted swapData txData m).
  rewrite (log_bind _ _ _ Hw).
  fold (announced swapData txData transaction m).
  unfold bind at 1. rewrite await_res_run, Hwait.
  fold (waited swapData txData transaction m).
  rewrite (log_throws _ _ _ e Hw2).
  fold (confirmed swapData txData transaction rcpt m).
  unfold swap_failed. apply log_then_ret.
Qed.

(** ... when the confirmation arrives and both entries are written. *)
Lemma wait_confirmed (swapData : SwapData) (txData : TxData) (m : Machine)
      (transaction : TransactionResponse) (rcpt : Receipt) :
  build_payload (axiosPostSwap (tick m)) = Ok txData ->
  walletSendTransaction (tick (built swapData m)) = Ok transaction ->
  writeFileSync (tick (submitted swapData txData m)) = Ok tt ->
  transactionWait (tick (announced swapData txData transaction m))
  = Ok rcpt ->
  writeFileSync (tick (waited swapData txData transaction m)) = Ok tt ->
  executeSwap swapData m
  = (confirmed swapData txData transaction rcpt m,
     Ok {| success := true;
           txHash := Some (hash transaction);
           receipt := Some rcpt;
           error := None |}).
Proof.
  intros Hb Hsend Hw Hwait Hw2.
  rewrite (executeSwap_build_success swapData m txData Hb).
  fold (built swapData m).
  unfold try_catch, submit. cbv zeta. fold (tx_of txData).
  unfold bind at 1. rewrite await_res_run, Hsend.
  fold (submitted swapData txData m).
  rewrite (log_bind _ _ _ Hw).
  fold (announced swapData txData transaction m).
  unfold bind at 1. rewrite await_res_run, Hwait.
  fold (waited swapData txData transaction m).
  rewrite (log_bind _ _ _ Hw2).
  fold (confirmed swapData txData transaction rcpt m).
  reflexivity.
Qed.

(** Every run of [executeSwap] is the success path, or ends in the
    [catch] block with a cause. *)
Lemma executeSwap_result (swapData : SwapData) (m : Machine) :
  (exists txData transaction rcpt,
      build_payload (axiosPostSwap (tick m)) = Ok txData
      /\ walletSendTransaction (tick (built swapData m)) = Ok transaction
      /\ transactionWait (tick (announced swapData txData transaction m))
         = Ok rcpt
      /\ snd (executeSwap swapData m)
         = Ok {| success := true;
                 txHash := Some (hash transaction);
                 receipt := Some rcpt;
                 error := None |})
  \/ (exists t cause,
         snd (executeSwap swapData m) = after_write t (failed cause)).
Proof.
  destruct (build_payload (axiosPostSwap (tick m)))
    as [txData | cause] eqn:Hb.
  - destruct (walletSendTransaction (tick (built swapData m)))
      as [transaction | e] eqn:Hsend.
    + destruct (writeFileSync (tick (submitted swapData txData m)))
        as [[] | e1] eqn:Hw.
      * destruct (transactionWait
                    (tick (announced swapData txData transaction m)))
          as [rcpt | e] eqn:Hwait.
        -- destruct (writeFileSync
                       (tick (waited swapData txData transaction m)))
             as [[] | e2] eqn:Hw2.
           ++ left. exists txData, transaction, rcpt.
              rewrite (wait_confirmed swapData txData m transaction rcpt
                                      Hb Hsend Hw Hwait Hw2).
              repeat split; assumption.
           ++ right.
              rewrite (confirm_failed swapData txData m transaction rcpt
                                      e2 Hb Hsend Hw Hwait Hw2).
              eexists. eexists. reflexivity.
        -- right.
           rewrite (wait_rejected swapData txData m transaction e
                                  Hb Hsend Hw Hwait).
           eexists. eexists. reflexivity.
      * right.
        rewrite (announce_failed swapData txData m transaction e1
                                 Hb Hsend Hw).
        eexists. eexists. reflexivity.
    + right. rewrite (submit_rejected swapData txData m e Hb Hsend).
      eexists. eexists. reflexivity.
  - right. rewrite (executeSwap_build_failure swapData m cause Hb).
    eexists. eexists. reflexivity.
Qed.

Lemma starts_in_trace (first : Event) (P : Event -> Prop)
      (m m' : Machine) :
  trace_starts_with first P m m' -> In first (trace m').
Proof.
  intros [evs [Ht _]]. rewrite Ht. apply in_or_app. right. now left.
Qed.

Lemma extends_keeps (ev : Event) (P : Event -> Prop) (m m' : Machine) :
  In ev (trace m) -> trace_extends_by P m m' -> In ev (trace m').
Proof.
  intros Hin [evs [Ht _]]. rewrite Ht. apply in_or_app. now left.
Qed.

Lemma sink_not_wait (ev : Event) : log_sink_event ev = true -> not_wait ev.
Proof. destruct ev; simpl; intros H; try discriminate; exact I. Qed.

(** The accepted submission is in the trace from [submitted] on. *)
Lemma submission_recorded (swapData : SwapData) (txData : TxData)
      (m : Machine) :
  In (SendTransaction (tx_of txData)
                      (walletSendTransaction (tick (built swapData m))))
     (trace (submitted swapData txData m)).
Proof.
  unfold submitted.
  exact (starts_in_trace _ _ _ _
           (await_starts any_event sink_any walletSendTransaction
                         (SendTransaction (tx_of txData))
                         (built swapData m))).
Qed.

(** X3: what [executeSwap] reports.  Whatever the service, the signer
    and the ledger answer, the call returns a well-formed outcome (a
    success carries hash and receipt and no error, a failure carries
    the error only) or throws the error of a failed write of the log
    file: no other error leaves it.  With writes that succeed it
    never throws. *)
Theorem X3_executeSwap_always_reports (swapData : SwapData) (m : Machine) :
  returns_or_write_fails well_formed_outcome (snd (executeSwap swapData m))
  /\ (writes_succeed ->
      exists o, snd (executeSwap swapData m) = Ok o
                /\ well_formed_outcome o).
Proof.
  assert (H : returns_or_write_fails well_formed_outcome
                                     (snd (executeSwap swapData m))).
  { destruct (executeSwap_result swapData m)
      as [[txData [transaction [rcpt [_ [_ [_ ->]]]]]] | [t [cause ->]]].
    - unfold returns_or_write_fails, well_formed_outcome. simpl.
      repeat split; discriminate.
    - unfold returns_or_write_fails, after_write.
      destruct (writeFileSync t) as [[] | e] eqn:Hw.
      + unfold well_formed_outcome. simpl. repeat split; discriminate.
      + now exists t. }
  split; [exact H | ].
  intros Hw. unfold returns_or_write_fails in H.
  destruct (snd (executeSwap swapData m)) as [o | e].
  - exists o. split; [reflexivity | exact H].
  - destruct H as [t Ht]. rewrite (Hw t) in Ht. discriminate.
Qed.

(** X4: the success path of [executeSwap].  With a transaction
    template in the swap-build answer, a signer that accepts, a
    confirmation that arrives and the two log entries of the path
    written, the outcome is a success carrying the hash of the
    submitted transaction and its receipt; the descriptor submitted is
    the template with [value] defaulting to "0", [gasLimit] to
    "500000" and a gas price of 1 gwei, and the wait is for that
    transaction's hash. *)
Theorem X4_executeSwap_success_path
        (swapData : SwapData) (txData : TxData) (m : Machine)
        (transaction : TransactionResponse) (rcpt : Receipt) :
  build_payload (axiosPostSwap (tick m)) = Ok txData ->
  walletSendTransaction (tick (built swapData m)) = Ok transaction ->
  writeFileSync (tick (submitted swapData txData m)) = Ok tt ->
  transactionWait (tick (announced swapData txData transaction m))
  = Ok rcpt ->
  writeFileSync (tick (waited swapData txData transaction m)) = Ok tt ->
  snd (executeSwap swapData m)
  = Ok {| success := true;
          txHash := Some (hash transaction);
          receipt := Some rcpt;
          error := None |}
  /\ In (SendTransaction (tx_of txData) (Ok transaction))
        (trace (fst (executeSwap swapData m)))
  /\ In (TransactionWait (hash transaction) (Ok rcpt))
        (trace (fst (executeSwap swapData m))).
Proof.
  intros Hb Hsend Hw1 Hwait Hw2.
  rewrite (wait_confirmed swapData txData m transaction rcpt
                          Hb Hsend Hw1 Hwait Hw2).
  unfold confirmed, waited.
  cbn [fst snd]. split; [reflexivity | ].
  pose proof (submission_recorded swapData txData m) as Hsub.
  rewrite Hsend in Hsub.
  pose proof (await_starts any_event sink_any transactionWait
                (TransactionWait (hash transaction))
                (announced swapData txData transaction m)) as Hw.
  rewrite Hwait in Hw.
  split.
  - eapply extends_keeps;
      [ | apply (log_extends_trace any_event sink_any)].
    eapply extends_keeps;
      [ | apply (await_extends_trace any_event sink_any);
          intros; exact I].
    unfold announced.
    eapply extends_keeps;
      [exact Hsub | apply (log_extends_trace any_event sink_any)].
  - eapply extends_keeps;
      [ | apply (log_extends_trace any_event sink_any)].
    exact (starts_in_trace _ _ _ _ Hw).
Qed.

(** X5: [executeSwap] reports a success only for a transaction that
    was built, accepted by the signer and confirmed: a successful
    outcome implies the three answers were good, and it carries that
    transaction's hash and receipt. *)
Theorem X5_executeSwap_success_means_confirmed
        (swapData : SwapData) (m : Machine) (o : SwapOutcome) :
  snd (executeSwap swapData m) = Ok o ->
  success o = true ->
  exists txData transaction rcpt,
    build_payload (axiosPostSwap (tick m)) = Ok txData
    /\ walletSendTransaction (tick (built swapData m)) = Ok transaction
    /\ transactionWait (tick (announced swapData txData transaction m))
       = Ok rcpt
    /\ txHash o = Some (hash transaction)
    /\ receipt o = Some rcpt.
Proof.
  intros Hres Hsucc.
  destruct (executeSwap_result swapData m)
    as [[txData [transaction [rcpt [Hb [Hsend [Hwait Hrun]]]]]]
       | [t [cause Hrun]]];
    rewrite Hrun in Hres.
  - injection Hres as <-.
    exists txData, transaction, rcpt. repeat split; assumption.
  - unfold after_write in Hres.
    destruct (writeFileSync t) as [[] | e]; [ | discriminate].
    injection Hres as <-. discriminate.
Qed.

(** X6: when the signer rejects the submission, [executeSwap] puts
    the cause in the log buffer and does not wait for a confirmation;
    it returns the failed outcome carrying the cause once the entry is
    written, and throws the error of the write when that fails. *)
Theorem X6_executeSwap_submission_rejected
        (swapData : SwapData) (txData : TxData) (m : Machine) (e : string) :
  build_payload (axiosPostSwap (tick m)) = Ok txData ->
  walletSendTransaction (tick (built swapData m)) = Throw e ->
  snd (executeSwap swapData m)
  = after_write (tick (submitted swapData txData m)) (failed e)
  /\ trace_extends_by not_wait m (fst (executeSwap swapData m))
  /\ exists earlier t,
      logs (bot (fst (executeSwap swapData m)))
      = (earlier ++ [entry_at t ("Error executing swap: " ++ e)])%list.
Proof.
  intros Hb Hsend.
  rewrite (submit_rejected swapData txData m e Hb Hsend).
  cbn [fst snd]. split; [reflexivity | ]. split.
  - apply (trace_extends_by_trans not_wait _ (built swapData m)).
    + apply (await_extends_trace not_wait sink_not_wait). intros r. exact I.
    + apply (trace_extends_by_trans not_wait _
               (submitted swapData txData m)).
      * apply (await_extends_trace not_wait sink_not_wait).
        intros r. exact I.
      * apply (log_extends_trace not_wait sink_not_wait).
  - eexists. eexists. apply log_last_entry.
Qed.

(** X7: when the signer has accepted the transaction, the entry for
    it is written and the wait for its confirmation fails,
    [executeSwap] ends in a failed outcome carrying the cause although
    the transaction was submitted: the accepted submission is in the
    trace.  The outcome is returned once the entry for the cause is
    written; the error of that write is thrown when it fails. *)
Theorem X7_executeSwap_wait_rejected
        (swapData : SwapData) (txData : TxData) (m : Machine)
        (transaction : TransactionResponse) (e : string) :
  build_payload (axiosPostSwap (tick m)) = Ok txData ->
  walletSendTransaction (tick (built swapData m)) = Ok transaction ->
  writeFileSync (tick (submitted swapData txData m)) = Ok tt ->
  transactionWait (tick (announced swapData txData transaction m))
  = Throw e ->
  snd (executeSwap swapData m)
  = after_write (tick (waited swapData txData transaction m)) (failed e)
  /\ In (SendTransaction (tx_of txData) (Ok transaction))
        (trace (fst (executeSwap swapData m))).
Proof.
  intros Hb Hsend Hw1 Hwait.
  rewrite (wait_rejected swapData txData m transaction e
                         Hb Hsend Hw1 Hwait).
  unfold waited.
  cbn [fst snd]. split; [reflexivity | ].
  pose proof (submission_recorded swapData txData m) as Hsub.
  rewrite Hsend in Hsub.
  eapply extends_keeps;
    [ | apply (log_extends_trace any_event sink_any)].
  eapply extends_keeps;
    [ | apply (await_extends_trace any_event sink_any); intros; exact I].
  unfold announced.
  eapply extends_keeps;
    [exact Hsub | apply (log_extends_trace any_event sink_any)].
Qed.

End WrapperBehaviour.

(* ===================================================================== *)
(** ** Further properties: condition evaluation *)
(* ===================================================================== *)

Section EvaluatorBehaviour.

Context {rt : Runtime}.

Ltac order_cases :=
  repeat match goal with
    | H : context [Z.compare ?x ?y] |- _ =>
        destruct (Z.compare_spec x y); subst
    | |- context [Z.compare ?x ?y] =>
        destruct (Z.compare_spec x y); subst
    | H : context [Pos.compare_cont Eq ?x ?y] |- _ =>
        change (Pos.compare_cont Eq x y) with (Pos.compare x y) in H
    | |- context [Pos.compare_cont Eq ?x ?y] =>
        change (Pos.compare_cont Eq x y) with (Pos.compare x y)
    | H : context [Pos.compare ?x ?y] |- _ =>
        destruct (Pos.compare_spec x y); subst
    | |- context [Pos.compare ?x ?y] =>
        destruct (Pos.compare_spec x y); subst
    end.

(** [<=] on numbers is transitive. *)
Lemma le_trans (x y z : JS.number) :
  JS.le x y = true -> JS.le y z = true -> JS.le x z = true.
Proof.
  unfold JS.le, SFleb, SFcompare.
  destruct x as [sx | sx | | sx mx ex];
    destruct y as [sy | sy | | sy my ey];
    destruct z as [sz | sz | | sz mz ez];
    try destruct sx; try destruct sy; try destruct sz;
    intros Hxy Hyz; try discriminate; try reflexivity;
    order_cases; simpl in *; try discriminate; try reflexivity; lia.
Qed.

(** The evaluator decides by the two thresholds alone. *)
Lemma checkPriceConditions_decision (cfg : Config) (p : JS.number) :
  intent_action (checkPriceConditions cfg p) = decision cfg p.
Proof.
  unfold decision, fires, buyBelow, sellAbove, checkPriceConditions.
  destruct (conditions cfg) as [conds |]; [ | reflexivity].
  destruct (buyWhen conds) as [bw |].
  - destruct (priceBelow bw) as [b |].
    + destruct (JS.truthy b && JS.le p b); [reflexivity | ].
      destruct (sellWhen conds) as [sw |]; [ | reflexivity].
      destruct (priceAbove sw) as [a |]; [ | reflexivity].
      destruct (JS.truthy a && JS.ge p a); reflexivity.
    + destruct (sellWhen conds) as [sw |]; [ | reflexivity].
      destruct (priceAbove sw) as [a |]; [ | reflexivity].
      destruct (JS.truthy a && JS.ge p a); reflexivity.
  - destruct (sellWhen conds) as [sw |]; [ | reflexivity].
    destruct (priceAbove sw) as [a |]; [ | reflexivity].
    destruct (JS.truthy a && JS.ge p a); reflexivity.
Qed.

(** X8: the percentage triggers are inert.  The intent the evaluator
    returns depends on the configuration only through
    [buyWhen.priceBelow] and [sellWhen.priceAbove]: two configurations
    that agree on these two thresholds get the same decision at every
    price, whatever their [priceIncrease] and [priceDecrease]. *)
Theorem X8_percentage_triggers_inert (cfg cfg' : Config) (p : JS.number) :
  buyBelow cfg = buyBelow cfg' ->
  sellAbove cfg = sellAbove cfg' ->
  intent_action (checkPriceConditions cfg p)
  = intent_action (checkPriceConditions cfg' p).
Proof.
  intros Hb Ha. rewrite !checkPriceConditions_decision.
  unfold decision. rewrite Hb, Ha. reflexivity.
Qed.

(** X9: a price that is not a number never triggers a trade: at NaN
    (what [parseFloat] gives for a missing or unreadable price) no
    intent is returned, whatever the rules. *)
Theorem X9_nan_price_no_intent (cfg : Config) :
  intent_action (checkPriceConditions cfg S754_nan) = None
  /\ (conditions cfg <> None ->
      checkPriceConditions cfg S754_nan = Ok None).
Proof.
  assert (Hle : forall x, JS.le S754_nan x = false) by reflexivity.
  assert (Hge : forall x, JS.ge S754_nan x = false)
    by (intros x; destruct x; reflexivity).
  split.
  - rewrite checkPriceConditions_decision. unfold decision, fires.
    destruct (buyBelow cfg) as [b |]; destruct (sellAbove cfg) as [a |];
      rewrite ?Hle, ?Hge, ?andb_false_r; reflexivity.
  - intros Hc. unfold checkPriceConditions.
    destruct (conditions cfg) as [conds |]; [ | contradiction].
    destruct (buyWhen conds) as [bw |];
      [destruct (priceBelow bw) as [b |] | ];
      rewrite ?Hle, ?andb_false_r;
      (destruct (sellWhen conds) as [sw |]; [ | reflexivity]);
      (destruct (priceAbove sw) as [a |]; [ | reflexivity]);
      rewrite Hge, andb_false_r; reflexivity.
Qed.

(** X10: the evaluator throws exactly when the configuration has no
    [conditions]: then it throws the TypeError of reading [buyWhen] of
    [undefined] at every price; with [conditions] present it returns
    at every price, even with both rule groups missing. *)
Theorem X10_evaluator_throws_iff_no_conditions
        (cfg : Config) (p : JS.number) :
  (conditions cfg = None ->
   checkPriceConditions cfg p = Throw (TypeError "buyWhen"))
  /\ (conditions cfg <> None ->
      exists intent, checkPriceConditions cfg p = Ok intent).
Proof.
  unfold checkPriceConditions. split.
  - intros ->. reflexivity.
  - intros Hc. destruct (conditions cfg) as [conds |]; [ | contradiction].
    destruct (buyWhen conds) as [bw |];
      [destruct (priceBelow bw) as [b |];
       [destruct (JS.truthy b && JS.le p b); [eexists; reflexivity | ] | ]
      | ];
      (destruct (sellWhen conds) as [sw |]; [ | eexists; reflexivity]);
      (destruct (priceAbove sw) as [a |]; [ | eexists; reflexivity]);
      destruct (JS.truthy a && JS.ge p a); eexists; reflexivity.
Qed.

(** X11: the rules are monotone in the price.  If the evaluator
    returns Buy at a price it returns Buy at every lower price, and if
    it returns Sell at a price it returns Sell at every higher
    price. *)
Theorem X11_rules_monotone (cfg : Config) (p p' : JS.number) :
  (intent_action (checkPriceConditions cfg p) = Some buy ->
   JS.le p' p = true ->
   intent_action (checkPriceConditions cfg p') = Some buy)
  /\ (intent_action (checkPriceConditions cfg p) = Some sell ->
      JS.ge p' p = true ->
      intent_action (checkPriceConditions cfg p') = Some sell).
Proof.
  rewrite !checkPriceConditions_decision. unfold decision, fires.
  split.
  - destruct (buyBelow cfg) as [b |].
    + destruct (JS.truthy b); simpl.
      * destruct (JS.le p b) eqn:Hpb.
        -- intros _ Hle. now rewrite (le_trans p' p b Hle Hpb).
        -- destruct (sellAbove cfg) as [a |]; [ | discriminate].
           destruct (JS.truthy a && JS.ge p a); discriminate.
      * destruct (sellAbove cfg) as [a |]; [ | discriminate].
        destruct (JS.truthy a && JS.ge p a); discriminate.
    + destruct (sellAbove cfg) as [a |]; [ | discriminate].
      destruct (JS.truthy a && JS.ge p a); discriminate.
  - intros Hsell Hge.
    assert (Hnobuy : match buyBelow cfg with
                     | Some x => JS.truthy x && JS.le p' x
                     | None => false
                     end = false).
    { destruct (buyBelow cfg) as [b |]; [ | reflexivity].
      destruct (JS.truthy b); [ | reflexivity]. simpl in *.
      destruct (JS.le p' b) eqn:Hp'b; [ | reflexivity].
      unfold JS.ge in Hge.
      rewrite (le_trans p p' b Hge Hp'b) in Hsell. discriminate. }
    rewrite Hnobuy.
    destruct (match buyBelow cfg with
              | Some x => JS.truthy x && JS.le p x
              | None => false
              end); [discriminate | ].
    destruct (sellAbove cfg) as [a |]; [ | discriminate].
    destruct (JS.truthy a); simpl in *; [ | discriminate].
    destruct (JS.ge p a) eqn:Hpa; [ | discriminate].
    pose proof (le_trans a p p' Hpa Hge) as Hap'.
    change (JS.le a p') with (JS.ge p' a) in Hap'.
    rewrite Hap'. reflexivity.
Qed.

End EvaluatorBehaviour.

(* ===================================================================== *)
(** ** Further properties: the turns of the loop *)
(* ===================================================================== *)

Section TurnBehaviour.

Context {rt : Runtime}.

(** A sleep after a lone first event. *)
Lemma sleep_after_first (first : Event) (ms : JS.number)
      (m0 m : Machine) :
  trace_starts_with first is_sink m0 m ->
  snd (sleep ms m) = Ok tt
  /\ only_then_sleep first ms m0 (fst (sleep ms m)).
Proof.
  intros [sinks1 [Ht1 Hs1]]. split; [reflexivity | ].
  destruct (await_starts is_sink sink_is_sink (fun _ : nat => tt)
                         (fun _ : unit => Sleep ms) m)
    as [sinks2 [Ht2 Hs2]].
  exists sinks1, sinks2. repeat split; try assumption.
  unfold sleep. rewrite Ht2, Ht1, <- app_assoc. reflexivity.
Qed.

(** X12: a turn in which the price is unavailable.  When the price
    request fails (rejected call, status code other than "0", missing
    payload) the turn reads no balance and makes no quote or swap
    request.  Once the entry for the failure is written the turn does
    not throw: after the price request come only log-sink events and
    the sleep of [checkInterval || 30000].  When that write fails the
    turn throws the error of the write, after the price request and
    log-sink events only. *)
Theorem X12_turn_without_price (m : Machine) (cause : string) :
  http_payload "Failed to fetch token price" (axiosGetTokens (tick m))
  = Throw cause ->
  (writeFileSync (tick (priced (tokenAddress (bot m)) m)) = Ok tt ->
   snd (iteration m) = Ok tt
   /\ only_then_sleep (price_request m)
                      (checkInterval_or_default (config (bot m)))
                      m (fst (iteration m)))
  /\ (forall e,
         writeFileSync (tick (priced (tokenAddress (bot m)) m)) = Throw e ->
         snd (iteration m) = Throw e
         /\ trace_starts_with (price_request m) is_sink
                              m (fst (iteration m))).
Proof.
  intros Hfail.
  pose proof (await_starts is_sink sink_is_sink axiosGetTokens
                (AxiosGetTokens (chainId (bot m)) (tokenAddress (bot m)))
                m) as Hstart.
  fold (priced (tokenAddress (bot m)) m) in Hstart.
  assert (Hlogged :
            trace_starts_with (price_request m) is_sink m
              (fst (log ("Error fetching token price: " ++ cause)
                        (priced (tokenAddress (bot m)) m)))).
  { eapply trace_starts_then_extends; [exact Hstart | ].
    apply (log_extends_trace is_sink sink_is_sink). }
  split.
  - intros Hw.
    assert (Hrun : iteration m =
                   sleep (checkInterval_or_default (config (bot m)))
                         (fst (log ("Error fetching token price: " ++ cause)
                                   (priced (tokenAddress (bot m)) m)))).
    { unfold iteration, bind at 1, this. unfold bind at 1.
      rewrite getTokenPrice_run. cbv zeta. rewrite Hfail.
      fold (priced (tokenAddress (bot m)) m).
      rewrite (after_write_ok _ _ Hw). reflexivity. }
    rewrite Hrun. apply sleep_after_first. exact Hlogged.
  - intros e Hw.
    assert (Hrun : iteration m =
                   (fst (log ("Error fetching token price: " ++ cause)
                             (priced (tokenAddress (bot m)) m)),
                    Throw e)).
    { unfold iteration, bind at 1, this. unfold bind at 1.
      rewrite getTokenPrice_run. cbv zeta. rewrite Hfail.
      fold (priced (tokenAddress (bot m)) m).
      rewrite (after_write_throws _ _ _ Hw). reflexivity. }
    rewrite Hrun. cbn [fst snd]. split; [reflexivity | exact Hlogged].
Qed.

(** X13: a turn in which no rule fires.  When the price is read and
    the evaluator returns no intent, the turn reads no balance and
    makes no swap request.  Once the entry for the price is written
    the turn does not throw: after the price request come only
    log-sink events and the sleep of [checkInterval || 30000].  When
    that write fails the turn throws the error of the write, after
    the price request and log-sink events only. *)
Theorem X13_turn_without_intent (m : Machine) (td : TokenData) :
  http_payload "Failed to fetch token price" (axiosGetTokens (tick m))
  = Ok td ->
  checkPriceConditions (config (bot m)) (price td) = Ok None ->
  (writeFileSync (tick (priced (tokenAddress (bot m)) m)) = Ok tt ->
   snd (iteration m) = Ok tt
   /\ only_then_sleep (price_request m)
                      (checkInterval_or_default (config (bot m)))
                      m (fst (iteration m)))
  /\ (forall e,
         writeFileSync (tick (priced (tokenAddress (bot m)) m)) = Throw e ->
         snd (iteration m) = Throw e
         /\ trace_starts_with (price_request m) is_sink
                              m (fst (iteration m))).
Proof.
  intros Hprice Hnone.
  pose proof (await_starts is_sink sink_is_sink axiosGetTokens
                (AxiosGetTokens (chainId (bot m)) (tokenAddress (bot m)))
                m) as Hstart.
  fold (priced (tokenAddress (bot m)) m) in Hstart.
  assert (Hlogged :
            trace_starts_with (price_request m) is_sink m
              (fst (log ("Current token price: $"
                           ++ numberToString (price td))
                        (priced (tokenAddress (bot m)) m)))).
  { eapply trace_starts_then_extends; [exact Hstart | ].
    apply (log_extends_trace is_sink sink_is_sink). }
  split.
  - intros Hw.
    assert (Hrun : iteration m =
                   sleep (checkInterval_or_default (config (bot m)))
                         (fst (log ("Current token price: $"
                                      ++ numberToString (price td))
                                   (priced (tokenAddress (bot m)) m)))).
    { unfold iteration, bind at 1, this. unfold bind at 1.
      rewrite getTokenPrice_run. cbv zeta. rewrite Hprice.
      fold (priced (tokenAddress (bot m)) m).
      rewrite (log_bind _ _ _ Hw). unfold bind at 1, lift. rewrite Hnone.
      reflexivity. }
    rewrite Hrun. apply sleep_after_first. exact Hlogged.
  - intros e Hw.
    assert (Hrun : iteration m =
                   (fst (log ("Current token price: $"
                                ++ numberToString (price td))
                             (priced (tokenAddress (bot m)) m)),
                    Throw e)).
    { unfold iteration, bind at 1, this. unfold bind at 1.
      rewrite getTokenPrice_run. cbv zeta. rewrite Hprice.
      fold (priced (tokenAddress (bot m)) m).
      rewrite (log_throws _ _ _ e Hw). reflexivity. }
    rewrite Hrun. cbn [fst snd]. split; [reflexivity | exact Hlogged].
Qed.

Lemma sleep_returns_asleep (ms : JS.number) : returns_asleep ms (sleep ms).
Proof.
  intros m. cbn [snd sleep await].
  destruct (await_starts is_sink sink_is_sink (fun _ : nat => tt)
                         (fun _ : unit => Sleep ms) m)
    as [sinks [Ht Hs]].
  exists [], sinks. split; [exact Ht | exact Hs].
Qed.

Lemma bind_returns_asleep {A B : Type} (ms : JS.number) (c : M A)
      (k : A -> M B) :
  preserves (trace_extends_by any_event) c ->
  (forall a, returns_asleep ms (k a)) ->
  returns_asleep ms (bind c k).
Proof.
  intros Hc Hk m. unfold bind.
  destruct (Hc m) as [e1 [Ht1 _]].
  destruct (c m) as [m1 [a | e]]; cbn [fst snd] in *; [ | exact I].
  specialize (Hk a m1).
  destruct (snd (k a m1)); [ | exact I].
  destruct Hk as [evs [sinks [Ht Hs]]].
  exists (e1 ++ evs)%list, sinks. split; [ | exact Hs].
  rewrite Ht, Ht1, <- !app_assoc. reflexivity.
Qed.

Ltac any_side :=
  first [ exact (trace_extends_by_refl any_event)
        | exact (trace_extends_by_trans any_event)
        | exact (log_extends_trace any_event sink_any)
        | exact (await_extends_trace any_event sink_any)
        | intros; exact I ].

(** The body of a turn, when it returns, has ended with the sleep of
    the check interval. *)
Lemma iteration_returns_asleep (m : Machine) :
  match snd (iteration m) with
  | Ok _ => ends_asleep (checkInterval_or_default (config (bot m)))
                        m (fst (iteration m))
  | Throw _ => True
  end.
Proof.
  set (ms := checkInterval_or_default (config (bot m))).
  assert (H : returns_asleep ms
                (tokenData <- getTokenPrice (tokenAddress (bot m)) ;;
                 match tokenData with
                 | None => sleep ms
                 | Some td =>
                     let currentPrice := price td in
                     log ("Current token price: $"
                            ++ numberToString currentPrice) ;;
                     condition <- lift (checkPriceConditions
                                          (config (bot m)) currentPrice) ;;
                     match condition with
                     | Some c =>
                         log ("Condition met: " ++ reason c
                                ++ " - Action: " ++ action_name (action c)) ;;
                         ethBalance <- getWalletBalance "ETH" ;;
                         tokenBalance <- getWalletBalance
                                           (tokenAddress (bot m)) ;;
                         log ("ETH Balance: " ++ ethBalance
                                ++ ", Token Balance: " ++ tokenBalance) ;;
                         match action c with
                         | buy => buyBranch ;; ret tt
                         | sell => sellBranch tokenBalance ;; ret tt
                         end
                     | None => ret tt
                     end ;;
                     sleep ms
                 end)).
  { apply bind_returns_asleep.
    - apply (preserves_getTokenPrice (trace_extends_by any_event)
                                     any_event); any_side.
    - intros [td |]; [ | apply sleep_returns_asleep].
      cbv zeta.
      apply bind_returns_asleep;
        [apply (log_extends_trace any_event sink_any) | intros _].
      apply bind_returns_asleep;
        [apply (preserves_lift _ (trace_extends_by_refl any_event))
        | intros condition].
      apply bind_returns_asleep; [ | intros _; apply sleep_returns_asleep].
      repeat first
             [ preserves_step (trace_extends_by_refl any_event)
                              (trace_extends_by_trans any_event)
             | apply (log_extends_trace any_event sink_any)
             | apply (preserves_getWalletBalance
                        (trace_extends_by any_event) any_event); any_side
             | apply (preserves_buyBranch
                        (trace_extends_by any_event) any_event); any_side
             | apply (preserves_sellBranch
                        (trace_extends_by any_event) any_event); any_side ]. }
  exact (H m).
Qed.

(** X14: a turn of the loop that completes has slept, so the loop
    never spins: when the body returns, the turn has slept
    [checkInterval || 30000] last; when the body throws and the entry
    for the error is written, the turn has slept 5000 ms last; after
    the sleep come only log-sink events.  A turn fails to complete
    only when its body throws and the write of the entry for that
    error fails: it then throws the error of the write, without
    sleeping. *)
Theorem X14_every_turn_ends_asleep (m : Machine) :
  match snd (try_catch iteration recover m) with
  | Ok _ =>
      (exists u, snd (iteration m) = Ok u
                 /\ ends_asleep (checkInterval_or_default (config (bot m)))
                                m (fst (try_catch iteration recover m)))
      \/ (exists e, snd (iteration m) = Throw e
                    /\ writeFileSync (tick (fst (iteration m))) = Ok tt
                    /\ ends_asleep (JS.of_Z 5000)
                                   m (fst (try_catch iteration recover m)))
  | Throw e' =>
      exists e, snd (iteration m) = Throw e
                /\ writeFileSync (tick (fst (iteration m))) = Throw e'
                /\ try_catch iteration recover m
                   = (fst (log ("Error in monitoring loop: " ++ e)
                               (fst (iteration m))),
                      Throw e')
  end.
Proof.
  pose proof (iteration_returns_asleep m) as Hbody.
  assert (Hext : trace_extends_by any_event m (fst (iteration m))).
  { apply (preserves_iteration (trace_extends_by any_event) any_event);
      any_side. }
  unfold try_catch.
  destruct (iteration m) as [m1 [u | e]]; cbn [fst snd] in *.
  - left. exists u. split; [reflexivity | exact Hbody].
  - rewrite recover_run.
    destruct (writeFileSync (tick m1)) as [[] | e'] eqn:Hw.
    + cbn [snd sleep await]. right. exists e.
      split; [reflexivity | ]. split; [reflexivity | ].
      destruct Hext as [e1 [Ht1 _]].
      destruct (recover_trace e m1 Hw) as [sinks [Ht Hs]].
      rewrite recover_run, Hw in Ht.
      eexists (e1 ++ [_; _])%list, sinks. split; [ | exact Hs].
      rewrite Ht, Ht1, <- !app_assoc. reflexivity.
    + cbn [fst snd]. exists e. repeat split; reflexivity.
Qed.

End TurnBehaviour.

(* ===================================================================== *)
(** ** Further properties: sizing and routing of the swap requests *)
(* ===================================================================== *)

Section RequestBehaviour.

Context {rt : Runtime}.

Lemma sink_no_request (ev : Event) :
  log_sink_event ev = true -> no_request ev.
Proof. destruct ev; simpl; intros H; try discriminate; exact I. Qed.

Lemma sink_routed (src dst amt : string) (ev : Event) :
  log_sink_event ev = true -> routed src dst amt ev.
Proof. destruct ev; simpl; intros H; try discriminate; exact I. Qed.

Lemma no_request_routed (src dst amt : string) (ev : Event) :
  no_request ev -> routed src dst amt ev.
Proof. destruct ev; simpl; intros H; try contradiction; exact I. Qed.

Lemma extends_weaken (P Q : Event -> Prop) (m m' : Machine) :
  (forall ev, P ev -> Q ev) ->
  trace_extends_by P m m' -> trace_extends_by Q m m'.
Proof.
  intros HPQ [evs [Ht Hf]]. exists evs. split; [exact Ht | ].
  eapply Forall_impl; [exact HPQ | exact Hf].
Qed.

(** [executeSwap] makes one swap-build request, for its argument, and
    no other quote or swap-build request. *)
Lemma executeSwap_one_request (swapData : SwapData) (m : Machine) :
  trace_starts_with
    (AxiosPostSwap (route_request (bot m) (fromToken swapData)
                                  (toToken swapData) (amount swapData))
                   1 0 (axiosPostSwap (tick m)))
    no_request m (fst (executeSwap swapData m)).
Proof.
  pose proof (await_starts no_request sink_no_request axiosPostSwap
                (AxiosPostSwap
                   (route_request (bot m) (fromToken swapData)
                                  (toToken swapData) (amount swapData))
                   1 0) m) as Hstart.
  destruct (build_payload (axiosPostSwap (tick m)))
    as [txData | cause] eqn:Hb.
  - rewrite (executeSwap_build_success swapData m txData Hb).
    eapply trace_starts_then_extends; [exact Hstart | ].
    apply (preserves_try_catch _ (trace_extends_by_trans no_request)).
    + unfold submit, await_res. cbv zeta.
      repeat (first [ preserves_step (trace_extends_by_refl no_request)
                                     (trace_extends_by_trans no_request)
                    | apply (log_extends_trace no_request sink_no_request)
                    | apply (await_extends_trace no_request
                                                 sink_no_request);
                      intros; exact I ]).
    + intros e. unfold swap_failed.
      repeat (first [ preserves_step (trace_extends_by_refl no_request)
                                     (trace_extends_by_trans no_request)
                    | apply (log_extends_trace no_request
                                               sink_no_request) ]).
  - rewrite (executeSwap_build_failure swapData m cause Hb). cbn [fst].
    eapply trace_starts_then_extends; [exact Hstart | ].
    apply (log_extends_trace no_request sink_no_request).
Qed.

(** A swap attempt asks its quote for the tokens and amount it is
    given, and every quote or swap-build request it makes is for
    them. *)
Lemma quote_then_execute_routed (src dst amt done : string) (m : Machine) :
  trace_starts_with
    (AxiosGetQuote (route_request (bot m) src dst amt)
                   (axiosGetQuote (tick m)))
    (routed src dst amt) m (fst (quote_then_execute src dst amt done m)).
Proof.
  set (P := routed src dst amt).
  assert (Psink : forall ev, log_sink_event ev = true -> P ev)
    by apply sink_routed.
  pose proof (await_starts P Psink axiosGetQuote
                (AxiosGetQuote (route_request (bot m) src dst amt)) m)
    as Hstart.
  rewrite quote_then_execute_run. cbv zeta.
  destruct (http_payload "Failed to get swap quote"
                         (axiosGetQuote (tick m))) as [q | cause].
  - eapply trace_starts_then_extends; [exact Hstart | ].
    apply (preserves_bind _ (trace_extends_by_trans P)).
    + intros m2.
      destruct (executeSwap_one_request
                  {| fromToken := src; toToken := dst; amount := amt |} m2)
        as [evs [Ht Hf]].
      eexists. split; [exact Ht | ].
      constructor.
      * simpl. repeat split.
      * eapply Forall_impl; [apply no_request_routed | exact Hf].
    + intros result.
      apply (preserves_bind _ (trace_extends_by_trans P)).
      * destruct (success result).
        -- apply (log_extends_trace P Psink).
        -- apply (preserves_ret _ (trace_extends_by_refl P)).
      * intros _. apply (preserves_ret _ (trace_extends_by_refl P)).
  - cbn [fst]. eapply trace_starts_then_extends; [exact Hstart | ].
    apply (log_extends_trace P Psink).
Qed.

(** X15: the requests of the buy and the sell block.  The buy amount
    is [parseEther(swapAmount.toString())] whatever the balances and
    the price; the sell amount is the sizing of
    [parseUnits(tokenBalance, 18)].  Each block asks its quote first,
    the buy block from the native asset to the tracked token, the sell
    block from the tracked token to the native asset, and every quote
    or swap-build request of the block has that route and that amount.
    When the amount cannot be computed ([swapAmount] missing or not a
    decimal text, a balance text that does not parse at 18 decimals, a
    sizing that throws) the block throws before any request. *)
Theorem X15_swap_block_requests (tokenBalance : string) (m : Machine) :
  match buy_amount (config (bot m)) with
  | Ok a =>
      trace_starts_with
        (AxiosGetQuote
           (route_request (bot m) AddressZero (tokenAddress (bot m))
                          (BigNumber.toString a))
           (axiosGetQuote (tick m)))
        (routed AddressZero (tokenAddress (bot m)) (BigNumber.toString a))
        m (fst (buyBranch m))
  | Throw e => buyBranch m = (m, Throw e)
  end
  /\ match sell_amount (config (bot m)) tokenBalance with
     | Ok a =>
         trace_starts_with
           (AxiosGetQuote
              (route_request (bot m) (tokenAddress (bot m)) AddressZero
                             (BigNumber.toString a))
              (axiosGetQuote (tick m)))
           (routed (tokenAddress (bot m)) AddressZero (BigNumber.toString a))
           m (fst (sellBranch tokenBalance m))
     | Throw e => sellBranch tokenBalance m = (m, Throw e)
     end.
Proof.
  split.
  - rewrite buyBranch_run.
    destruct (buy_amount (config (bot m))) as [a | e]; [ | reflexivity].
    apply quote_then_execute_routed.
  - rewrite sellBranch_run.
    destruct (sell_amount (config (bot m)) tokenBalance) as [a | e];
      [ | reflexivity].
    apply quote_then_execute_routed.
Qed.

(** X16: bounds of the sell sizing, for a balance [B >= 0] and an
    integer percentage [z >= 1].  Below 2^53 - 1 the sizing returns an
    amount: it lies between 0 and [B] when [z <= 100], it is [B] at
    100, and the sizing does not clamp: for [z > 100] and a balance of
    at least 100 the amount exceeds the balance.  From 2^53 - 1 on
    BigNumber does not take the percentage and the sizing throws
    ("overflow"). *)
Theorem X16_sell_amount_bounds (cfg : Config) (B : Z) (s : JS.number)
        (z : Z) :
  sellPercentage cfg = Some s ->
  JS.to_integer s = Some z ->
  (0 <= B)%Z ->
  (0 < z)%Z ->
  ((z < BigNumber.MAX_SAFE)%Z ->
   exists X,
     sellAmount cfg B = Ok X
     /\ ((z <= 100)%Z -> (0 <= X <= B)%Z)
     /\ (z = 100%Z -> X = B)
     /\ ((100 < z)%Z -> (100 <= B)%Z -> (B < X)%Z))
  /\ ((BigNumber.MAX_SAFE <= z)%Z -> sellAmount cfg B = Throw "overflow").
Proof.
  intros Hs Hz HB Hpos.
  assert (Htruthy : JS.truthy s = true)
    by (apply (to_integer_positive_truthy s z Hz); lia).
  split.
  - intros Hrange.
    exists (Z.quot (B * z) 100). split.
    + apply (sellAmount_percent cfg B s z Hs Htruthy Hz).
      unfold BigNumber.MAX_SAFE in *. lia.
    + rewrite Z.quot_div_nonneg by nia.
      repeat split.
      * apply Z.div_pos; nia.
      * apply Z.div_le_upper_bound; nia.
      * intros ->. apply Z.div_mul. lia.
      * intros Hz' HB'.
        assert (B + 1 <= B * z / 100)%Z; [ | lia].
        apply Z.div_le_lower_bound; nia.
  - intros Hbig.
    unfold sellAmount, BigNumber.mul, JS.or_default.
    rewrite Hs, Htruthy. unfold BigNumber.from_number.
    rewrite Hz.
    apply Z.leb_le in Hbig. rewrite Hbig. cbn [orb].
    destruct s; try reflexivity; discriminate Hz.
Qed.

(** X17: a fractional sell percentage.  BigNumber takes no fraction:
    with a percentage such as 50.5 the sizing throws for every balance,
    so the sell block throws before any request is made. *)
Theorem X17_fractional_percentage_throws
        (tokenBalance : string) (m : Machine) (B : Z) (s : JS.number) :
  parseUnits tokenBalance 18 = Ok B ->
  sellPercentage (config (bot m)) = Some s ->
  fractional s ->
  exists e,
    sellAmount (config (bot m)) B = Throw e
    /\ sellBranch tokenBalance m = (m, Throw e).
Proof.
  intros Hparse Hs Hfrac.
  assert (Hsize : sellAmount (config (bot m)) B = Throw "underflow").
  { unfold sellAmount, BigNumber.mul, JS.or_default. rewrite Hs.
    destruct s as [sg | sg | | sg mant ex]; unfold fractional in Hfrac;
      try contradiction.
    cbn [JS.truthy]. unfold BigNumber.from_number. rewrite Hfrac.
    reflexivity. }
  exists "underflow". split; [exact Hsize | ].
  rewrite sellBranch_run. unfold sell_amount.
  rewrite Hparse, Hsize. reflexivity.
Qed.

End RequestBehaviour.

(* ===================================================================== *)
(** ** Further properties: what the operations leave alone *)
(* ===================================================================== *)

(** Relations that [log], clearing the run flag and recording an event
    maintain are maintained by every operation but [start]; by [start]
    too when setting the run flag maintains them. *)
Section OperationsPreserve.

Context {rt : Runtime}.

Variable R : Machine -> Machine -> Prop.

Hypothesis R_refl : forall m, R m m.
Hypothesis R_trans : forall m1 m2 m3, R m1 m2 -> R m2 m3 -> R m1 m3.
Hypothesis R_log : forall message, preserves R (log message).
Hypothesis R_clear : preserves R (update (with_bot (set_isRunning false))).
Hypothesis R_emit : forall ev m, R m (emit ev (next_tick m)).

Lemma stop_preserves : preserves R stop.
Proof.
  unfold stop.
  repeat (first [ preserves_step R_refl R_trans
                | apply R_log
                | apply R_clear ]).
Qed.

Lemma await_preserves (A : Type) (answer : nat -> A) (ev : A -> Event) :
  (forall r, any_event (ev r)) -> preserves R (await answer ev).
Proof.
  intros _ m. unfold await. cbv zeta.
  destruct (stopRequested (tick m)); cbn [fst].
  - eapply R_trans; [apply R_emit | apply stop_preserves].
  - apply R_emit.
Qed.

Ltac side :=
  first [ exact R_refl | exact R_trans | exact R_log
        | exact await_preserves | intros; exact I ].

Lemma start_preserves (fuel : nat) :
  preserves R (update (with_bot (set_isRunning true))) ->
  preserves R (start fuel).
Proof.
  intros R_set. unfold start.
  repeat (first [ preserves_step R_refl R_trans
                | apply R_log
                | apply R_set ]).
  apply (preserves_monitorAndSwap R any_event); side.
Qed.

Lemma run_op_preserves (op : Op) (m : Machine) :
  not_start op = true -> R m (run_op op m).
Proof.
  destruct op; unfold run_op; intros Hop; try discriminate Hop.
  - apply stop_preserves.
  - apply (preserves_getStatus R); side.
  - apply (preserves_monitorLoop R any_event); side.
  - apply (preserves_monitorAndSwap R any_event); side.
  - apply (preserves_getTokenPrice R any_event); side.
  - apply (preserves_getSwapQuote R any_event); side.
  - apply (preserves_executeSwap R any_event); side.
  - apply (preserves_getWalletBalance R any_event); side.
  - apply R_log.
  - apply (preserves_sleep R any_event); side.
Qed.

Lemma run_ops_preserve (ops : list Op) (m : Machine) :
  forallb not_start ops = true -> R m (run_ops ops m).
Proof.
  revert m. induction ops as [| op rest IH]; intros m Hops; simpl.
  - apply R_refl.
  - simpl in Hops. apply andb_prop in Hops. destruct Hops as [Hop Hrest].
    eapply R_trans; [apply (run_op_preserves op m Hop) | apply IH, Hrest].
Qed.

Lemma run_ops_preserve_all (ops : list Op) (m : Machine) :
  preserves R (update (with_bot (set_isRunning true))) ->
  R m (run_ops ops m).
Proof.
  intros R_set. revert m.
  induction ops as [| op rest IH]; intros m; simpl.
  - apply R_refl.
  - eapply R_trans; [ | apply IH].
    destruct (not_start op) eqn:Hop.
    + apply (run_op_preserves op m Hop).
    + destruct op; try discriminate Hop. apply start_preserves, R_set.
Qed.

(** A turn of the loop goes through the machine its price request
    leaves. *)
Lemma turn_after_fetch (m : Machine) :
  R (fst (await axiosGetTokens
                (AxiosGetTokens (chainId (bot m)) (tokenAddress (bot m))) m))
    (fst (try_catch iteration recover m)).
Proof.
  assert (Hrecover : forall e, preserves R (recover e)).
  { intros e. apply (preserves_recover R any_event); side. }
  assert (Hsleep : forall ms, preserves R (sleep ms)).
  { intros ms. apply (preserves_sleep R any_event); side. }
  unfold try_catch, iteration, bind at 1, this. unfold bind at 1.
  rewrite getTokenPrice_run. cbv zeta.
  destruct (http_payload "Failed to fetch token price"
                         (axiosGetTokens (tick m))) as [td | cause];
    cbv beta iota.
  - match goal with
    | |- R ?m2 (fst (let (_, _) := ?c ?m2 in _)) =>
        apply (preserves_try_catch R R_trans c recover); [ | exact Hrecover]
    end.
    repeat first
           [ preserves_step R_refl R_trans
           | apply R_log
           | apply Hsleep
           | apply (preserves_getWalletBalance R any_event); side
           | apply (preserves_buyBranch R any_event); side
           | apply (preserves_sellBranch R any_event); side ].
  - unfold after_write.
    match goal with
    | |- context [writeFileSync ?t] =>
        destruct (writeFileSync t) as [[] | e']
    end; cbv beta iota.
    + match goal with
      | |- R _ (fst (let (_, _) := ?c ?m3 in _)) =>
          apply (R_trans _ m3);
            [ apply R_log
            | apply (preserves_try_catch R R_trans c recover);
              [apply Hsleep | exact Hrecover] ]
      end.
    + eapply R_trans; [apply R_log | apply Hrecover].
Qed.

End OperationsPreserve.

Section ObjectInvariants.

Context {rt : Runtime}.

Lemma same_settings_refl m : same_settings m m.
Proof. repeat split. Qed.

Lemma same_settings_trans m1 m2 m3 :
  same_settings m1 m2 -> same_settings m2 m3 -> same_settings m1 m3.
Proof.
  unfold same_settings.
  intros [H1 [H2 [H3 [H4 H5]]]] [K1 [K2 [K3 [K4 K5]]]].
  repeat split; congruence.
Qed.

Lemma run_ops_same_settings (ops : list Op) (m : Machine) :
  same_settings m (run_ops ops m).
Proof.
  apply (run_ops_preserve_all same_settings).
  - exact same_settings_refl.
  - exact same_settings_trans.
  - intros message m0. rewrite log_run. repeat split.
  - intros m0. repeat split.
  - intros ev m0. repeat split.
  - intros m0. repeat split.
Qed.

Lemma constructor_bot (cfg : Config) (address : string) :
  config (bot (constructor cfg address)) = cfg
  /\ walletAddress (bot (constructor cfg address)) = address
  /\ tokenAddress (bot (constructor cfg address)) = trackedToken
  /\ chainId (bot (constructor cfg address)) = 42161%Z
  /\ isRunning (bot (constructor cfg address)) = false.
Proof. unfold constructor. rewrite log_run. repeat split. Qed.

(** X18: the settings of a bot never change.  No sequence of
    operations (start, stop, getStatus, loop turns, the external call
    wrappers) modifies the configuration, the wallet address, the
    token address, the chain id or the base URL.  In particular a bot
    made by the constructor tracks the hard-coded token on chain 42161
    whatever its configuration says, and [getStatus] reports these
    values at every later point. *)
Theorem X18_settings_never_change :
  (forall (ops : list Op) (m : Machine), same_settings m (run_ops ops m))
  /\ (forall (cfg : Config) (address : string) (ops : list Op),
         exists st,
           snd (getStatus (run_ops ops (constructor cfg address))) = Ok st
           /\ st_walletAddress st = address
           /\ st_tokenAddress st = trackedToken
           /\ st_chainId st = 42161%Z
           /\ config (bot (run_ops ops (constructor cfg address))) = cfg).
Proof.
  split; [exact run_ops_same_settings | ].
  intros cfg address ops.
  destruct (run_ops_same_settings ops (constructor cfg address))
    as [H1 [H2 [H3 [H4 H5]]]].
  destruct (constructor_bot cfg address) as [K1 [K2 [K3 [K4 K5]]]].
  eexists. split; [reflexivity | ]. cbn [st_walletAddress st_tokenAddress
                                          st_chainId].
  repeat split; congruence.
Qed.

Lemma stays_stopped_refl m : stays_stopped m m.
Proof. intros H. exact H. Qed.

Lemma stays_stopped_trans m1 m2 m3 :
  stays_stopped m1 m2 -> stays_stopped m2 m3 -> stays_stopped m1 m3.
Proof. unfold stays_stopped. auto. Qed.

Lemma log_stays_stopped (message : string) :
  preserves stays_stopped (log message).
Proof. intros m. rewrite log_run. intros H. exact H. Qed.

Lemma clear_stays_stopped :
  preserves stays_stopped (update (with_bot (set_isRunning false))).
Proof. intros m _. reflexivity. Qed.

Lemma emit_stays_stopped (ev : Event) (m : Machine) :
  stays_stopped m (emit ev (next_tick m)).
Proof. intros H. exact H. Qed.

(** X19: only [start] sets the run flag.  Over any sequence of
    operations that contains no [start] (stop, getStatus, loop turns
    of a loop launched earlier, the external call wrappers, with
    [stop()] requests arriving at any await), a bot whose run flag is
    cleared keeps it cleared, and [getStatus] reports it so. *)
Theorem X19_only_start_sets_the_run_flag (ops : list Op) (m : Machine) :
  forallb not_start ops = true ->
  isRunning (bot m) = false ->
  isRunning (bot (run_ops ops m)) = false
  /\ exists st, snd (getStatus (run_ops ops m)) = Ok st
                /\ st_isRunning st = false.
Proof.
  intros Hops Hrun.
  assert (H : isRunning (bot (run_ops ops m)) = false).
  { apply (run_ops_preserve stays_stopped stays_stopped_refl
             stays_stopped_trans log_stays_stopped clear_stays_stopped
             emit_stays_stopped ops m Hops Hrun). }
  split; [exact H | ].
  eexists. split; [reflexivity | exact H].
Qed.

(** The log sink mirrors the buffer. *)

Lemma keeps_refl (Inv : Machine -> Prop) m : keeps Inv m m.
Proof. intros H. exact H. Qed.

Lemma keeps_trans (Inv : Machine -> Prop) m1 m2 m3 :
  keeps Inv m1 m2 -> keeps Inv m2 m3 -> keeps Inv m1 m3.
Proof. unfold keeps. auto. Qed.

Lemma file_after_app (before : option string) (evs1 evs2 : list Event) :
  file_after before (evs1 ++ evs2)%list
  = file_after (file_after before evs1) evs2.
Proof. unfold file_after. apply fold_left_app. Qed.

Lemma console_lines_app (evs1 evs2 : list Event) :
  console_lines (evs1 ++ evs2)%list
  = (console_lines evs1 ++ console_lines evs2)%list.
Proof. unfold console_lines. apply flat_map_app. Qed.

Lemma log_mirrored (message : string) :
  preserves (keeps mirrored) (log message).
Proof.
  intros m [Hc Hf]. rewrite log_run. cbn [fst].
  unfold mirrored, console_mirrors_buffer, file_mirrors_buffer in *.
  cbn [trace bot logs push_log]. split.
  - rewrite console_lines_app, Hc. reflexivity.
  - rewrite file_after_app. reflexivity.
Qed.

Lemma flag_mirrored (v : bool) :
  preserves (keeps mirrored) (update (with_bot (set_isRunning v))).
Proof. intros m H. exact H. Qed.

Lemma stop_mirrored : preserves (keeps mirrored) stop.
Proof.
  unfold stop.
  repeat (first [ preserves_step (keeps_refl mirrored) (keeps_trans mirrored)
                | apply log_mirrored
                | apply flag_mirrored ]).
Qed.

Lemma await_mirrored (A : Type) (answer : nat -> A) (ev : A -> Event) :
  (forall r, request_event (ev r)) ->
  preserves (keeps mirrored) (await answer ev).
Proof.
  intros Hev m. unfold await. cbv zeta.
  assert (Hemit : keeps mirrored m
                        (emit (ev (answer (tick m))) (next_tick m))).
  { intros [Hc Hf]. specialize (Hev (answer (tick m))).
    unfold mirrored, console_mirrors_buffer, file_mirrors_buffer in *.
    cbn [trace bot emit next_tick]. split.
    - rewrite console_lines_app, Hc.
      destruct (ev (answer (tick m))); try discriminate Hev;
        apply app_nil_r.
    - rewrite file_after_app, Hf.
      destruct (ev (answer (tick m))); try discriminate Hev;
        reflexivity. }
  destruct (stopRequested (tick m)); cbn [fst].
  - eapply keeps_trans; [exact Hemit | apply stop_mirrored].
  - exact Hemit.
Qed.

Ltac mirror_side :=
  first [ exact (keeps_refl mirrored) | exact (keeps_trans mirrored)
        | exact log_mirrored | exact await_mirrored
        | intros; reflexivity ].

Ltac mirror_peel :=
  repeat (first [ preserves_step (keeps_refl mirrored) (keeps_trans mirrored)
                | apply log_mirrored
                | apply (preserves_sleep (keeps mirrored) request_event);
                  mirror_side
                | apply (preserves_getTokenPrice (keeps mirrored)
                                                 request_event); mirror_side
                | apply (preserves_getSwapQuote (keeps mirrored)
                                                request_event); mirror_side
                | apply (preserves_executeSwap (keeps mirrored)
                                               request_event); mirror_side
                | apply (preserves_getWalletBalance (keeps mirrored)
                                                    request_event);
                  mirror_side ]).

Lemma buyBranch_mirrored : preserves (keeps mirrored) buyBranch.
Proof. unfold buyBranch. mirror_peel. Qed.

Lemma sellBranch_mirrored (tokenBalance : string) :
  preserves (keeps mirrored) (sellBranch tokenBalance).
Proof. unfold sellBranch. mirror_peel. Qed.

Lemma iteration_mirrored : preserves (keeps mirrored) iteration.
Proof.
  unfold iteration. mirror_peel.
  - apply buyBranch_mirrored.
  - apply sellBranch_mirrored.
Qed.

Lemma recover_mirrored (message : string) :
  preserves (keeps mirrored) (recover message).
Proof. unfold recover. mirror_peel. Qed.

Lemma monitorLoop_mirrored (fuel : nat) :
  preserves (keeps mirrored) (monitorLoop fuel).
Proof.
  induction fuel as [| n IH]; simpl; mirror_peel;
    first [ exact IH | apply iteration_mirrored | apply recover_mirrored ].
Qed.

Lemma monitorAndSwap_mirrored (fuel : nat) :
  preserves (keeps mirrored) (monitorAndSwap fuel).
Proof. unfold monitorAndSwap. mirror_peel. apply monitorLoop_mirrored. Qed.

Lemma start_mirrored (fuel : nat) : preserves (keeps mirrored) (start fuel).
Proof.
  unfold start.
  repeat (first [ preserves_step (keeps_refl mirrored) (keeps_trans mirrored)
                | apply log_mirrored
                | apply flag_mirrored
                | apply monitorAndSwap_mirrored ]).
Qed.

Lemma run_op_mirrored (op : Op) (m : Machine) :
  keeps mirrored m (run_op op m).
Proof.
  destruct op; unfold run_op.
  - apply start_mirrored.
  - apply stop_mirrored.
  - intros H. exact H.
  - apply monitorLoop_mirrored.
  - apply monitorAndSwap_mirrored.
  - apply (preserves_getTokenPrice (keeps mirrored) request_event);
      mirror_side.
  - apply (preserves_getSwapQuote (keeps mirrored) request_event);
      mirror_side.
  - apply (preserves_executeSwap (keeps mirrored) request_event);
      mirror_side.
  - apply (preserves_getWalletBalance (keeps mirrored) request_event);
      mirror_side.
  - apply log_mirrored.
  - apply (preserves_sleep (keeps mirrored) request_event); mirror_side.
Qed.

Lemma run_ops_mirrored (ops : list Op) (m : Machine) :
  keeps mirrored m (run_ops ops m).
Proof.
  revert m. induction ops as [| op rest IH]; intros m; simpl.
  - apply keeps_refl.
  - eapply keeps_trans; [apply run_op_mirrored | apply IH].
Qed.

(** X20: the log sink mirrors the log buffer.  At every point of the
    life of a bot (after the constructor and any sequence of
    operations) the lines the bot has printed on the console are
    exactly the entries of [this.logs], in order, and the content
    last handed to the log file is exactly those entries joined by
    newlines: no entry is lost or reordered, and the operations print
    nothing else. *)
Theorem X20_log_sink_mirrors_buffer
        (cfg : Config) (address : string) (ops : list Op) :
  console_lines (trace (run_ops ops (constructor cfg address)))
  = logs (bot (run_ops ops (constructor cfg address)))
  /\ file_after None (trace (run_ops ops (constructor cfg address)))
     = Some (String.concat
               newline (logs (bot (run_ops ops (constructor cfg address))))).
Proof.
  apply (run_ops_mirrored ops (constructor cfg address)).
  unfold constructor. rewrite log_run. split; reflexivity.
Qed.

End ObjectInvariants.

(* ===================================================================== *)
(** ** Further properties: starting and stopping *)
(* ===================================================================== *)

Section StartAndStop.

Context {rt : Runtime}.

Lemma stop_running_run (m : Machine) :
  isRunning (bot m) = true ->
  stop m = log "Stopping OKX Auto Swap Bot..."
               (with_bot (set_isRunning false) m).
Proof. intros Hrun. unfold stop, bind, this. rewrite Hrun. reflexivity. Qed.

(** X21: [stop] on a running bot.  The run flag is cleared, one entry
    "Stopping OKX Auto Swap Bot..." is appended to the buffer, the
    settings are untouched, and the call ends as the write of that
    entry does: it returns when the write succeeds.  Nothing is
    interrupted by the call itself: a launched loop returns when it
    next tests the flag, without a further request, and a second
    [stop] then only logs "Bot is not running". *)
Theorem X21_stop_while_running (m : Machine) :
  isRunning (bot m) = true ->
  snd (stop m) = writeFileSync (tick m)
  /\ isRunning (bot (fst (stop m))) = false
  /\ logs (bot (fst (stop m)))
     = (logs (bot m)
          ++ [entry_at (tick m) "Stopping OKX Auto Swap Bot..."])%list
  /\ same_settings m (fst (stop m))
  /\ (forall fuel,
         monitorLoop fuel (fst (stop m)) = (fst (stop m), Ok Returned))
  /\ logs (bot (fst (stop (fst (stop m)))))
     = (logs (bot m)
          ++ [entry_at (tick m) "Stopping OKX Auto Swap Bot...";
              entry_at (S (tick m)) "Bot is not running"])%list.
Proof.
  intros Hrun.
  assert (Hflag : isRunning (bot (fst (stop m))) = false).
  { rewrite (stop_running_run m Hrun), log_run. reflexivity. }
  assert (Hlogs : logs (bot (fst (stop m)))
                  = (logs (bot m)
                       ++ [entry_at (tick m)
                                    "Stopping OKX Auto Swap Bot..."])%list).
  { rewrite (stop_running_run m Hrun), log_run. reflexivity. }
  assert (Htick : tick (fst (stop m)) = S (tick m)).
  { rewrite (stop_running_run m Hrun), log_run. reflexivity. }
  split; [ | split; [exact Hflag | split; [exact Hlogs | split; [ | split]]]].
  - rewrite (stop_running_run m Hrun), log_run. reflexivity.
  - rewrite (stop_running_run m Hrun), log_run. repeat split.
  - intros fuel. apply monitorLoop_stopped. exact Hflag.
  - assert (Hagain : stop (fst (stop m))
                     = log "Bot is not running" (fst (stop m))).
    { unfold stop at 1, bind, this. rewrite Hflag. reflexivity. }
    rewrite Hagain, log_last_entry, Hlogs, Htick, <- app_assoc.
    reflexivity.
Qed.

Lemma monitorAndSwap_run (fuel : nat) (m : Machine) :
  monitorAndSwap fuel m =
    match writeFileSync (tick m) with
    | Ok _ => monitorLoop fuel (fst (log "Starting price monitoring..." m))
    | Throw e => (fst (log "Starting price monitoring..." m), Throw e)
    end.
Proof.
  unfold monitorAndSwap, bind. rewrite log_run.
  destruct (writeFileSync (tick m)) as [[] | e]; reflexivity.
Qed.

(** [start] on an idle bot: the launch is reached when the first entry
    is written, and its promise is dropped. *)
Lemma start_idle_run (fuel : nat) (m : Machine) :
  isRunning (bot m) = false ->
  start fuel m =
    match writeFileSync (tick m) with
    | Ok _ =>
        (fst (monitorAndSwap fuel
                (fst (log "Starting OKX Auto Swap Bot..."
                          (with_bot (set_isRunning true) m)))),
         Ok tt)
    | Throw e =>
        (fst (log "Starting OKX Auto Swap Bot..."
                  (with_bot (set_isRunning true) m)),
         Throw e)
    end.
Proof.
  intros Hrun. unfold start, bind at 1, this. rewrite Hrun.
  unfold update, bind at 1. unfold bind, detach. rewrite log_run.
  cbn [tick with_bot].
  destruct (writeFileSync (tick m)) as [[] | e]; reflexivity.
Qed.

(** As long as no [stop()] arrives the launched loop leaves the run
    flag as it is. *)
Lemma monitorAndSwap_same_flag (fuel : nat) :
  (forall t, stopRequested t = false) ->
  preserves same_flag (monitorAndSwap fuel).
Proof.
  intros no_stop.
  apply (preserves_monitorAndSwap same_flag any_event);
    first [ exact same_flag_refl | exact same_flag_trans
          | exact log_same_flag | exact (await_same_flag no_stop)
          | intros; exact I ].
Qed.

(** X22: [start] on an idle bot.  The call sets the run flag and
    appends "Starting OKX Auto Swap Bot..." to the buffer before
    anything else.  It ends as the write of that entry does: when the
    write fails the call throws its error, with the flag set and no
    loop launched; when the write succeeds the call returns, whatever
    becomes of the loop it launched.  In that case "Starting price
    monitoring..." is the next entry of the buffer and, when that
    entry is written and the loop takes a turn, the first request made
    is the price request for the tracked token.  As long as no
    [stop()] arrives the run flag stays set. *)
Theorem X22_start_when_idle (fuel : nat) (m : Machine) :
  isRunning (bot m) = false ->
  snd (start fuel m) = writeFileSync (tick m)
  /\ (forall e,
         writeFileSync (tick m) = Throw e ->
         start fuel m
         = (fst (log "Starting OKX Auto Swap Bot..."
                     (with_bot (set_isRunning true) m)),
            Throw e))
  /\ (exists suffix,
         logs (bot (fst (start fuel m)))
         = (logs (bot m)
              ++ [entry_at (tick m) "Starting OKX Auto Swap Bot..."]
              ++ suffix)%list)
  /\ (writeFileSync (tick m) = Ok tt ->
      exists suffix,
        logs (bot (fst (start fuel m)))
        = (logs (bot m)
             ++ [entry_at (tick m) "Starting OKX Auto Swap Bot...";
                 entry_at (S (tick m)) "Starting price monitoring..."]
             ++ suffix)%list)
  /\ (writeFileSync (tick m) = Ok tt ->
      writeFileSync (S (tick m)) = Ok tt ->
      forall n, fuel = S n ->
        exists line1 file1 line2 file2 rest,
          trace (fst (start fuel m))
          = (trace m
               ++ [ConsoleLog line1; WriteLogFile file1;
                   ConsoleLog line2; WriteLogFile file2;
                   AxiosGetTokens (chainId (bot m)) (tokenAddress (bot m))
                                  (axiosGetTokens (S (S (tick m))))]
               ++ rest)%list)
  /\ ((forall t, stopRequested t = false) ->
      isRunning (bot (fst (start fuel m))) = true).
Proof.
  intros Hrun.
  set (m1 := fst (log "Starting OKX Auto Swap Bot..."
                      (with_bot (set_isRunning true) m))).
  set (m2 := fst (log "Starting price monitoring..." m1)).
  assert (Hm1 : isRunning (bot m1) = true
                /\ logs (bot m1)
                   = (logs (bot m)
                        ++ [entry_at (tick m)
                                     "Starting OKX Auto Swap Bot..."])%list
                /\ tick m1 = S (tick m)).
  { unfold m1. rewrite log_run. repeat split. }
  destruct Hm1 as [Hrun1 [Hlogs1 Htick1]].
  assert (Hm2 : isRunning (bot m2) = true
                /\ logs (bot m2)
                   = (logs (bot m)
                        ++ [entry_at (tick m) "Starting OKX Auto Swap Bot...";
                            entry_at (S (tick m))
                                     "Starting price monitoring..."])%list
                /\ tick m2 = S (S (tick m))
                /\ chainId (bot m2) = chainId (bot m)
                /\ tokenAddress (bot m2) = tokenAddress (bot m)
                /\ exists line1 file1 line2 file2,
                    trace m2 = (trace m ++ [ConsoleLog line1;
                                            WriteLogFile file1;
                                            ConsoleLog line2;
                                            WriteLogFile file2])%list).
  { unfold m2, m1. rewrite !log_run. cbn [fst bot trace tick logs push_log
                                              isRunning with_bot
                                              set_isRunning chainId
                                              tokenAddress].
    rewrite <- !app_assoc.
    repeat split. do 4 eexists. reflexivity. }
  destruct Hm2 as [Hrun2 [Hlogs2 [Htick2 [Hchain [Htoken Htrace2]]]]].
  assert (Hloop : forall fuel0, logs_extend m2 (fst (monitorLoop fuel0 m2))).
  { intros fuel0.
    apply (preserves_monitorLoop logs_extend (fun _ => True)
             logs_extend_refl logs_extend_trans log_extends_logs
             await_extends_logs (fun _ => I) fuel0 m2). }
  rewrite (start_idle_run fuel m Hrun). fold m1.
  split; [ | split; [ | split; [ | split; [ | split]]]].
  - destruct (writeFileSync (tick m)) as [[] | e]; reflexivity.
  - intros e ->. reflexivity.
  - destruct (writeFileSync (tick m)) as [[] | e]; cbn [fst].
    + rewrite monitorAndSwap_run. fold m2.
      destruct (writeFileSync (tick m1)) as [[] | e]; cbn [fst].
      * destruct (Hloop fuel) as [suffix Hs].
        exists (entry_at (S (tick m)) "Starting price monitoring..."
                         :: suffix).
        rewrite Hs, Hlogs2, <- app_assoc. reflexivity.
      * exists [entry_at (S (tick m)) "Starting price monitoring..."].
        rewrite Hlogs2. reflexivity.
    + exists []. rewrite Hlogs1. reflexivity.
  - intros ->. cbn [fst]. rewrite monitorAndSwap_run. fold m2.
    destruct (writeFileSync (tick m1)) as [[] | e]; cbn [fst].
    + destruct (Hloop fuel) as [suffix Hs].
      exists suffix. rewrite Hs, Hlogs2, <- app_assoc. reflexivity.
    + exists []. rewrite Hlogs2, app_nil_r. reflexivity.
  - intros -> Hw2 n ->. cbn [fst]. rewrite monitorAndSwap_run. fold m2.
    rewrite Htick1, Hw2.
    destruct (monitorLoop_starts n m2 Hrun2) as [rest [Ht _]].
    destruct Htrace2 as [line1 [file1 [line2 [file2 Htrace2]]]].
    exists line1, file1, line2, file2, rest.
    rewrite Ht, Htrace2, Htick2, Hchain, Htoken, <- app_assoc.
    reflexivity.
  - intros no_stop.
    destruct (writeFileSync (tick m)) as [[] | e]; cbn [fst];
      [ | exact Hrun1].
    rewrite (monitorAndSwap_same_flag fuel no_stop m1). exact Hrun1.
Qed.

Lemma await_stop_requested {A : Type} (answer : nat -> A)
      (ev : A -> Event) (m : Machine) :
  isRunning (bot m) = true ->
  stopRequested (tick m) = true ->
  isRunning (bot (fst (await answer ev m))) = false
  /\ logs (bot (fst (await answer ev m)))
     = (logs (bot m)
          ++ [entry_at (S (tick m)) "Stopping OKX Auto Swap Bot..."])%list.
Proof.
  intros Hrun Hstop. unfold await. cbv zeta. rewrite Hstop. cbn [fst].
  rewrite stop_running_run by exact Hrun.
  rewrite log_run. split; reflexivity.
Qed.

(** X23: a [stop()] that arrives while the price request of a turn is
    pending.  The run flag is cleared and "Stopping OKX Auto Swap
    Bot..." is logged at once, but the turn in progress is not
    interrupted: the loop completes it and ends there, without
    starting another turn.  It returns, having found the flag cleared
    at its next test, when the turn completes, as every turn does
    with writes that succeed; it throws the error of the turn
    otherwise. *)
Theorem X23_stop_request_ends_the_loop (n : nat) (m : Machine) :
  isRunning (bot m) = true ->
  stopRequested (tick m) = true ->
  monitorLoop (S n) m
  = (fst (try_catch iteration recover m),
     match snd (try_catch iteration recover m) with
     | Ok _ => Ok Returned
     | Throw e => Throw e
     end)
  /\ (writes_succeed ->
      monitorLoop (S n) m
      = (fst (try_catch iteration recover m), Ok Returned))
  /\ isRunning (bot (fst (monitorLoop (S n) m))) = false
  /\ exists suffix,
      logs (bot (fst (monitorLoop (S n) m)))
      = (logs (bot m)
           ++ entry_at (S (tick m)) "Stopping OKX Auto Swap Bot..."
           :: suffix)%list.
Proof.
  intros Hrun Hstop.
  destruct (await_stop_requested
              axiosGetTokens
              (AxiosGetTokens (chainId (bot m)) (tokenAddress (bot m)))
              m Hrun Hstop) as [Hflag Hlogs].
  pose proof (turn_after_fetch stays_stopped stays_stopped_refl
                stays_stopped_trans log_stays_stopped clear_stays_stopped
                emit_stays_stopped m Hflag) as Hoff.
  destruct (turn_after_fetch logs_extend logs_extend_refl logs_extend_trans
              log_extends_logs (set_isRunning_extends_logs false)
              (fun ev m0 => logs_extend_refl (emit ev (next_tick m0))) m)
    as [suffix Hsuffix].
  assert (Heq : monitorLoop (S n) m
                = (fst (try_catch iteration recover m),
                   match snd (try_catch iteration recover m) with
                   | Ok _ => Ok Returned
                   | Throw e => Throw e
                   end)).
  { rewrite (monitorLoop_turn n m Hrun).
    destruct (snd (try_catch iteration recover m)); [ | reflexivity].
    apply monitorLoop_stopped. exact Hoff. }
  split; [exact Heq | ]. split.
  - intros Hw. rewrite Heq.
    destruct (guarded_iteration_returns Hw m) as [[] ->]. reflexivity.
  - rewrite Heq. cbn [fst]. split; [exact Hoff | ].
    exists suffix. rewrite Hsuffix, Hlogs, <- app_assoc. reflexivity.
Qed.

End StartAndStop.

(* ===================================================================== *)
(** ** Further properties: balance reads *)
(* ===================================================================== *)

Section BalanceReads.

Context {rt : Runtime}.

Lemma sink_sink_or_decimals (token : string) (ev : Event) :
  log_sink_event ev = true -> sink_or_decimals token ev.
Proof. destruct ev; simpl; intros H; try discriminate; exact I. Qed.

Lemma is_sink_or_decimals (token : string) (ev : Event) :
  is_sink ev -> sink_or_decimals token ev.
Proof. apply sink_sink_or_decimals. Qed.

(** A read of a native asset starts with the native-balance lookup. *)
Lemma getWalletBalance_native_starts (P : Event -> Prop)
      (Psink : forall ev, log_sink_event ev = true -> P ev)
      (token : string) (m : Machine) :
  native token = true ->
  trace_starts_with (WalletGetBalance (walletGetBalance (tick m)))
                    P m (fst (getWalletBalance token m)).
Proof.
  intros Hnative.
  rewrite getWalletBalance_run. unfold queried. rewrite Hnative.
  pose proof (await_starts P Psink walletGetBalance WalletGetBalance m)
    as Hstart.
  destruct (reading token m) as [text | e]; cbn [fst];
    [exact Hstart | ].
  eapply trace_starts_then_extends; [exact Hstart | ].
  apply (log_extends_trace P Psink).
Qed.

(** X24: what a balance read asks and returns.  It returns the
    ledger's reading as text; when a query or the formatting fails it
    logs the cause and returns "0" once that entry is written (it
    throws the error of the write when that fails).  For "ETH" and the
    zero address it makes the native-balance
    lookup and no other query.  For any other token it asks the
    balance of the bot's wallet first and then the decimals of the
    same token, nothing else; when the balance-of call fails the
    decimals are not asked. *)
Theorem X24_balance_read_queries (token : string) (m : Machine) :
  snd (getWalletBalance token m)
  = match reading token m with
    | Ok text => Ok text
    | Throw _ => after_write (tick (queried token m)) "0"
    end
  /\ if native token
     then trace_starts_with
            (WalletGetBalance (walletGetBalance (tick m)))
            is_sink m (fst (getWalletBalance token m))
     else trace_starts_with
            (ContractBalanceOf token (walletAddress (bot m))
                               (contractBalanceOf (tick m)))
            (sink_or_decimals token) m (fst (getWalletBalance token m))
          /\ forall e,
              contractBalanceOf (tick m) = Throw e ->
              trace_starts_with
                (ContractBalanceOf token (walletAddress (bot m))
                                   (contractBalanceOf (tick m)))
                is_sink m (fst (getWalletBalance token m)).
Proof.
  rewrite getWalletBalance_run.
  split; [destruct (reading token m); reflexivity | ].
  unfold queried.
  destruct (native token) eqn:Hnative.
  - pose proof (await_starts is_sink sink_is_sink walletGetBalance
                             WalletGetBalance m) as Hstart.
    destruct (reading token m) as [text | e]; cbn [fst snd].
    + exact Hstart.
    + eapply trace_starts_then_extends; [exact Hstart | ].
      apply (log_extends_trace is_sink sink_is_sink).
  - set (P := sink_or_decimals token).
    assert (Psink : forall ev, log_sink_event ev = true -> P ev)
      by apply sink_sink_or_decimals.
    pose proof (await_starts P Psink contractBalanceOf
                  (ContractBalanceOf token (walletAddress (bot m))) m)
      as Hstart.
    pose proof (await_starts is_sink sink_is_sink contractBalanceOf
                  (ContractBalanceOf token (walletAddress (bot m))) m)
      as Hquiet.
    fold (asked token m) in Hstart, Hquiet.
    assert (Hdecimals : trace_extends_by
                          P (asked token m)
                          (fst (await contractDecimals
                                      (ContractDecimals token)
                                      (asked token m)))).
    { apply (await_extends_trace P Psink). intros r. reflexivity. }
    split.
    + destruct (contractBalanceOf (tick m)) as [balance | e0];
        destruct (reading token m) as [text | e1]; cbn [fst];
        repeat first
               [ exact Hstart
               | eapply trace_starts_then_extends;
                 [ | apply (log_extends_trace P Psink) ]
               | eapply trace_starts_then_extends;
                 [exact Hstart | exact Hdecimals] ].
    + intros e He. rewrite He in Hquiet |- *.
      destruct (reading token m) as [text | e1]; cbn [fst].
      * exact Hquiet.
      * eapply trace_starts_then_extends; [exact Hquiet | ].
        apply (log_extends_trace is_sink sink_is_sink).
Qed.

End BalanceReads.

(* ===================================================================== *)
(** ** Further properties: a turn that trades *)
(* ===================================================================== *)

Section TradingTurn.

Context {rt : Runtime}.

Lemma bind_assoc {A B C : Type} (c : M A) (k : A -> M B) (k' : B -> M C)
      (m : Machine) :
  bind (bind c k) k' m = bind c (fun a => bind (k a) k') m.
Proof.
  unfold bind. destruct (c m) as [m1 [a | e]]; reflexivity.
Qed.

(** With writes that succeed a balance read returns its text. *)
Lemma getWalletBalance_text (token : string) (m : Machine) :
  writes_succeed ->
  snd (getWalletBalance token m) = Ok (balance_text token m).
Proof.
  intros Hw. unfold balance_text. rewrite getWalletBalance_run.
  destruct (reading token m); [reflexivity | ].
  cbn [snd]. apply after_write_ok, Hw.
Qed.

Lemma getWalletBalance_bind {A : Type} (token : string)
      (k : string -> M A) (m : Machine) :
  writes_succeed ->
  bind (getWalletBalance token) k m
  = k (balance_text token m) (fst (getWalletBalance token m)).
Proof.
  intros Hw. pose proof (getWalletBalance_text token m Hw) as Htext.
  unfold bind.
  destruct (getWalletBalance token m) as [m1 r]; cbn [fst snd] in *.
  rewrite Htext. reflexivity.
Qed.

Lemma bind_starts_by {A B : Type} (P : Event -> Prop) (first : Event)
      (c : M A) (k : A -> M B) (m : Machine) :
  trace_starts_with first P m (fst (c m)) ->
  (forall a, preserves (trace_extends_by P) (k a)) ->
  trace_starts_with first P m (fst (bind c k m)).
Proof.
  intros Hc Hk. unfold bind.
  destruct (c m) as [m1 [a | e]]; cbn [fst] in *.
  - eapply trace_starts_then_extends; [exact Hc | apply Hk].
  - exact Hc.
Qed.

Lemma balances_same_settings (token : string) :
  preserves same_settings (getWalletBalance token).
Proof.
  apply (preserves_getWalletBalance same_settings any_event).
  - exact same_settings_refl.
  - exact same_settings_trans.
  - intros message m0. rewrite log_run. repeat split.
  - intros A answer ev _.
    apply (await_preserves same_settings same_settings_refl
                           same_settings_trans).
    + intros message m0. rewrite log_run. repeat split.
    + intros m0. repeat split.
    + intros ev0 m0. repeat split.
    + intros r. exact I.
  - intros; exact I.
  - intros; exact I.
  - intros; exact I.
Qed.

Ltac quiet_side :=
  first [ exact (trace_extends_by_refl no_request)
        | exact (trace_extends_by_trans no_request)
        | exact (log_extends_trace no_request sink_no_request)
        | exact (await_extends_trace no_request sink_no_request)
        | intros; exact I ].

(** The machine a turn with an intent has reached when it enters the
    buy or the sell block: the price is fetched and logged, the intent
    is logged, both balances are read and logged. *)
Lemma turn_reaches_block (m : Machine) (td : TokenData) (c : TradeIntent) :
  writes_succeed ->
  http_payload "Failed to fetch token price" (axiosGetTokens (tick m))
  = Ok td ->
  checkPriceConditions (config (bot m)) (price td) = Ok (Some c) ->
  exists m6,
    reads_balances m (native_read td c m)
    /\ reads_balances m m6
    /\ same_settings m m6
    /\ iteration m
       = bind (match action c with
               | buy => buyBranch ;; ret tt
               | sell =>
                   sellBranch (balance_text (tokenAddress (bot m))
                                            (native_read td c m)) ;;
                   ret tt
               end)
              (fun _ => sleep (checkInterval_or_default (config (bot m))))
              m6.
Proof.
  intros Hw Hprice Hcond.
  unfold native_read, priced.
  set (m1 := fst (await axiosGetTokens
                        (AxiosGetTokens (chainId (bot m))
                                        (tokenAddress (bot m))) m)).
  set (m2 := fst (log ("Current token price: $"
                         ++ numberToString (price td)) m1)).
  set (m3 := fst (log ("Condition met: " ++ reason c ++ " - Action: "
                         ++ action_name (action c)) m2)).
  set (m4 := fst (getWalletBalance "ETH" m3)).
  set (m5 := fst (getWalletBalance (tokenAddress (bot m)) m4)).
  set (m6 := fst (log ("ETH Balance: " ++ balance_text "ETH" m3
                         ++ ", Token Balance: "
                         ++ balance_text (tokenAddress (bot m)) m4) m5)).
  assert (H1 : trace_extends_by no_request m m1).
  { apply (await_extends_trace no_request sink_no_request).
    intros r. exact I. }
  assert (H2 : trace_extends_by no_request m1 m2)
    by apply (log_extends_trace no_request sink_no_request).
  assert (H3 : trace_extends_by no_request m2 m3)
    by apply (log_extends_trace no_request sink_no_request).
  assert (H4 : trace_starts_with
                 (WalletGetBalance (walletGetBalance (tick m3)))
                 no_request m3 m4).
  { apply (getWalletBalance_native_starts no_request sink_no_request).
    reflexivity. }
  assert (H5 : trace_extends_by no_request m4 m5).
  { apply (preserves_getWalletBalance (trace_extends_by no_request)
                                      no_request); quiet_side. }
  assert (H6 : trace_extends_by no_request m5 m6)
    by apply (log_extends_trace no_request sink_no_request).
  assert (Hm3 : trace_extends_by no_request m m3).
  { eapply trace_extends_by_trans; [exact H1 | ].
    eapply trace_extends_by_trans; [exact H2 | exact H3]. }
  assert (Hm4 : reads_balances m m4).
  { destruct Hm3 as [e3 [T3 F3]]. destruct H4 as [s4 [T4 F4]].
    exists (e3 ++ WalletGetBalance (walletGetBalance (tick m3)) :: s4)%list.
    split; [ | split].
    - rewrite T4, T3, <- app_assoc. reflexivity.
    - apply Forall_app. split; [exact F3 | ].
      constructor; [exact I | exact F4].
    - exists (walletGetBalance (tick m3)).
      apply in_or_app. right. left. reflexivity. }
  assert (Hm6 : reads_balances m m6).
  { destruct Hm4 as [before [T4 [F4 [answer Hin]]]].
    destruct (trace_extends_by_trans no_request m4 m5 m6 H5 H6)
      as [e6 [T6 F6]].
    exists (before ++ e6)%list. split; [ | split].
    - rewrite T6, T4, <- app_assoc. reflexivity.
    - apply Forall_app. split; assumption.
    - exists answer. apply in_or_app. left. exact Hin. }
  assert (S1 : same_settings m m1).
  { apply (await_preserves same_settings same_settings_refl
                           same_settings_trans).
    - intros message m0. rewrite log_run. repeat split.
    - intros m0. repeat split.
    - intros ev0 m0. repeat split.
    - intros r. exact I. }
  assert (Slog : forall message m0, same_settings m0 (fst (log message m0))).
  { intros message m0. rewrite log_run. repeat split. }
  assert (S6 : same_settings m m6).
  { eapply same_settings_trans; [exact S1 | ].
    eapply same_settings_trans; [apply Slog | ].
    eapply same_settings_trans; [apply Slog | ].
    eapply same_settings_trans; [apply balances_same_settings | ].
    eapply same_settings_trans; [apply balances_same_settings | ].
    apply Slog. }
  exists m6.
  split; [exact Hm4 | split; [exact Hm6 | split; [exact S6 | ]]].
  unfold iteration, bind at 1, this. unfold bind at 1.
  rewrite getTokenPrice_run. cbv zeta. rewrite Hprice.
  rewrite log_bind by apply Hw. unfold bind at 1, lift. rewrite Hcond.
  rewrite bind_assoc, log_bind by apply Hw.
  rewrite bind_assoc, getWalletBalance_bind by exact Hw.
  rewrite bind_assoc, getWalletBalance_bind by exact Hw.
  rewrite bind_assoc, log_bind by apply Hw.
  reflexivity.
Qed.

Lemma block_then_sleep (src dst amt : string) (block : M unit)
      (ms : JS.number) (m0 m6 : Machine) :
  reads_balances m0 m6 ->
  same_settings m0 m6 ->
  trace_starts_with
    (AxiosGetQuote (route_request (bot m6) src dst amt)
                   (axiosGetQuote (tick m6)))
    (routed src dst amt) m6 (fst (block m6)) ->
  first_request src dst amt m0
                (fst (bind block (fun _ => sleep ms) m6)).
Proof.
  intros [before [Hb [Fb Hread]]] [Hc [Hw [Ht [Hi Hu]]]] Hblock.
  assert (Hall : trace_starts_with
                   (AxiosGetQuote (route_request (bot m6) src dst amt)
                                  (axiosGetQuote (tick m6)))
                   (routed src dst amt) m6
                   (fst (bind block (fun _ => sleep ms) m6))).
  { apply bind_starts_by; [exact Hblock | intros _].
    apply (preserves_sleep (trace_extends_by (routed src dst amt))
                           (routed src dst amt)).
    - exact (await_extends_trace (routed src dst amt)
                                 (sink_routed src dst amt)).
    - exact I. }
  destruct Hall as [after [Ha Fa]].
  exists before, (axiosGetQuote (tick m6)), after.
  split; [ | split; [exact Fb | split; [exact Hread | exact Fa]]].
  rewrite Ha, Hb, <- app_assoc.
  unfold route_request. rewrite Hc, Hw, Hi. reflexivity.
Qed.

(** X25: a turn that trades, with writes of the log file that
    succeed.  When the price is read and a rule fires, the turn makes
    no quote or swap-build request before it has read the balances
    (the native-balance lookup comes first), and it enters the block
    of the intent whatever the balances are.  A buy asks a quote from
    the native asset to the tracked token for the configured amount; a
    sell asks a quote from the tracked token to the native asset for
    the amount sized from the text that the balance read of the
    tracked token returns in this turn, the read made once the native
    balance is read.  Every later quote or swap-build request of the
    turn has the same route and amount. *)
Theorem X25_turn_with_intent (m : Machine) (td : TokenData)
        (c : TradeIntent) :
  writes_succeed ->
  http_payload "Failed to fetch token price" (axiosGetTokens (tick m))
  = Ok td ->
  checkPriceConditions (config (bot m)) (price td) = Ok (Some c) ->
  reads_balances m (native_read td c m)
  /\ match action c with
     | buy =>
         forall a,
           buy_amount (config (bot m)) = Ok a ->
           first_request AddressZero (tokenAddress (bot m))
                         (BigNumber.toString a) m (fst (iteration m))
     | sell =>
         forall tokenBalance a,
           snd (getWalletBalance (tokenAddress (bot m))
                                 (native_read td c m))
           = Ok tokenBalance ->
           sell_amount (config (bot m)) tokenBalance = Ok a ->
           first_request (tokenAddress (bot m)) AddressZero
                         (BigNumber.toString a) m (fst (iteration m))
     end.
Proof.
  intros Hw Hprice Hcond.
  destruct (turn_reaches_block m td c Hw Hprice Hcond)
    as [m6 [H4 [H6 [S6 Hrun]]]].
  pose proof S6 as [Hcfg [_ [Htoken _]]].
  split; [exact H4 | ].
  rewrite Hrun.
  destruct (action c).
  - intros a Ha.
    apply (block_then_sleep _ _ _ _ _ m m6 H6 S6).
    apply bind_starts_by.
    + rewrite buyBranch_run, Hcfg, Ha, Htoken.
      apply quote_then_execute_routed.
    + intros r. apply (preserves_ret _ (trace_extends_by_refl _)).
  - intros tokenBalance a Hread Ha.
    rewrite (getWalletBalance_text _ _ Hw) in Hread.
    injection Hread as Hread. rewrite Hread.
    apply (block_then_sleep _ _ _ _ _ m m6 H6 S6).
    apply bind_starts_by.
    + rewrite sellBranch_run, Hcfg, Ha, Htoken.
      apply quote_then_execute_routed.
    + intros r. apply (preserves_ret _ (trace_extends_by_refl _)).
Qed.

End TradingTurn.

(* ===================================================================== *)
(** ** Further properties: how many transactions are submitted *)
(* ===================================================================== *)

Section SubmissionBudget.

Context {rt : Runtime}.

Lemma submissions_app (evs1 evs2 : list Event) :
  submissions (evs1 ++ evs2)%list = submissions evs1 + submissions evs2.
Proof. unfold submissions. now rewrite filter_app, length_app. Qed.

Lemma submissions_none (evs : list Event) :
  Forall not_submission evs -> submissions evs = 0.
Proof.
  induction 1 as [| ev rest Hev _ IH]; [reflexivity | ].
  unfold submissions in *. simpl.
  destruct ev; simpl in *; try contradiction; exact IH.
Qed.

Lemma submits_weaken (j k : nat) (m m' : Machine) :
  j <= k -> submits_at_most j m m' -> submits_at_most k m m'.
Proof. intros Hjk [evs [Ht Hn]]. exists evs. split; [exact Ht | lia]. Qed.

Lemma submits_compose (j k : nat) (m1 m2 m3 : Machine) :
  submits_at_most j m1 m2 -> submits_at_most k m2 m3 ->
  submits_at_most (j + k) m1 m3.
Proof.
  intros [e1 [H1 N1]] [e2 [H2 N2]]. exists (e1 ++ e2)%list. split.
  - now rewrite H2, H1, app_assoc.
  - rewrite submissions_app. lia.
Qed.

Lemma free_budget {A : Type} (k : nat) (c : M A) :
  preserves (trace_extends_by not_submission) c ->
  preserves (submits_at_most k) c.
Proof.
  intros Hc m. destruct (Hc m) as [evs [Ht Hf]].
  exists evs. split; [exact Ht | ].
  rewrite (submissions_none evs Hf). lia.
Qed.

Lemma bind_submits {A B : Type} (j k : nat) (c : M A) (f : A -> M B) :
  preserves (submits_at_most j) c ->
  (forall a, preserves (submits_at_most k) (f a)) ->
  preserves (submits_at_most (j + k)) (bind c f).
Proof.
  intros Hc Hf m. unfold bind. specialize (Hc m).
  destruct (c m) as [m1 [a | e]]; cbn [fst] in *.
  - eapply submits_compose; [exact Hc | apply Hf].
  - eapply submits_weaken; [ | exact Hc]. lia.
Qed.

Lemma try_catch_submits {A : Type} (j k : nat) (c : M A)
      (h : string -> M A) :
  preserves (submits_at_most j) c ->
  (forall e, preserves (submits_at_most k) (h e)) ->
  preserves (submits_at_most (j + k)) (try_catch c h).
Proof.
  intros Hc Hh m. unfold try_catch. specialize (Hc m).
  destruct (c m) as [m1 [a | e]]; cbn [fst] in *.
  - eapply submits_weaken; [ | exact Hc]. lia.
  - eapply submits_compose; [exact Hc | apply Hh].
Qed.

(** An await records one event; a [stop()] that runs meanwhile only
    logs. *)
Lemma await_budget {A : Type} (answer : nat -> A) (ev : A -> Event) :
  preserves (submits_at_most 1) (await answer ev).
Proof.
  intros m.
  destruct (await_starts not_submission sink_not_submission answer ev m)
    as [sinks [Ht Hf]].
  exists (ev (answer (tick m)) :: sinks). split; [exact Ht | ].
  change (ev (answer (tick m)) :: sinks)
    with ([ev (answer (tick m))] ++ sinks)%list.
  rewrite submissions_app, (submissions_none sinks Hf).
  unfold submissions. simpl. destruct (is_submission _); simpl; lia.
Qed.

Ltac free_side :=
  first [ exact (trace_extends_by_refl not_submission)
        | exact (trace_extends_by_trans not_submission)
        | exact (log_extends_trace not_submission sink_not_submission)
        | exact (await_extends_trace not_submission sink_not_submission)
        | intros; exact I ].

Ltac free :=
  repeat (first
            [ preserves_step (trace_extends_by_refl not_submission)
                             (trace_extends_by_trans not_submission)
            | apply (log_extends_trace not_submission sink_not_submission)
            | apply (preserves_sleep (trace_extends_by not_submission)
                                     not_submission); free_side
            | apply (preserves_getTokenPrice
                       (trace_extends_by not_submission) not_submission);
              free_side
            | apply (preserves_getSwapQuote
                       (trace_extends_by not_submission) not_submission);
              free_side
            | apply (preserves_getWalletBalance
                       (trace_extends_by not_submission) not_submission);
              free_side
            | apply (await_extends_trace not_submission
                                         sink_not_submission);
              intros; exact I ]).

(** One step of a proof that a computation submits at most one
    transaction: the budget goes to one side of a sequence, the other
    side submits nothing. *)
Ltac budget_step known :=
  match goal with
  | |- preserves (submits_at_most 1) (bind _ _) =>
      first [ apply (bind_submits 0 1);
              [apply free_budget; solve [free] | intros ?]
            | apply (bind_submits 1 0);
              [ | intros ?; apply free_budget; solve [free]] ]
  | |- preserves (submits_at_most 1) (try_catch _ _) =>
      apply (try_catch_submits 1 0);
        [ | intros ?; apply free_budget; solve [free]]
  | |- preserves (submits_at_most 1) (match ?x with _ => _ end) =>
      destruct x
  | |- preserves (submits_at_most 1) _ =>
      first [ apply free_budget; solve [free]
            | apply await_budget
            | known ]
  end.

(** [executeSwap] hands at most one transaction to the signer. *)
Lemma executeSwap_budget (swapData : SwapData) :
  preserves (submits_at_most 1) (executeSwap swapData).
Proof.
  unfold executeSwap, axios, await_res. cbv zeta.
  repeat budget_step fail.
Qed.

Lemma buyBranch_budget : preserves (submits_at_most 1) buyBranch.
Proof.
  unfold buyBranch. repeat budget_step ltac:(apply executeSwap_budget).
Qed.

Lemma sellBranch_budget (tokenBalance : string) :
  preserves (submits_at_most 1) (sellBranch tokenBalance).
Proof.
  unfold sellBranch. repeat budget_step ltac:(apply executeSwap_budget).
Qed.

Lemma turn_budget :
  preserves (submits_at_most 1) (try_catch iteration recover).
Proof.
  unfold iteration, recover. cbv zeta.
  repeat budget_step ltac:(first [ apply buyBranch_budget
                                 | apply sellBranch_budget ]).
Qed.

Lemma monitorLoop_budget (fuel : nat) :
  preserves (submits_at_most fuel) (monitorLoop fuel).
Proof.
  induction fuel as [| n IH]; simpl.
  - apply free_budget. free.
  - apply (bind_submits 0 (S n)); [apply free_budget; free | intros b].
    destruct (isRunning b); [ | apply free_budget; free].
    apply (bind_submits 1 n); [apply turn_budget | intros _; exact IH].
Qed.

(** X26: at most one transaction per turn.  A call of [executeSwap]
    hands at most one transaction to the signer (a rejected
    submission is not retried), a turn of the loop submits at most
    one transaction, whether its body returns or throws, and so a loop
    that has taken [n] turns has submitted at most [n] transactions. *)
Theorem X26_one_submission_per_turn :
  (forall (swapData : SwapData) (m : Machine),
      submits_at_most 1 m (fst (executeSwap swapData m)))
  /\ (forall m : Machine,
         submits_at_most 1 m (fst (try_catch iteration recover m)))
  /\ (forall (fuel : nat) (m : Machine),
         submits_at_most fuel m (fst (monitorLoop fuel m))).
Proof.
  split; [ | split].
  - exact executeSwap_budget.
  - exact turn_budget.
  - exact monitorLoop_budget.
Qed.

End SubmissionBudget.

(* ===================================================================== *)
(** ** Further properties: the configuration loader and the entry
       point *)
(* ===================================================================== *)

Section EntryPointBehaviour.

Context {rt : Runtime} {g : Globals}.

Lemma number_setting_truthy (parse : string -> JS.number)
      (v : option string) (d : JS.number) :
  JS.truthy d = true -> JS.truthy (number_setting parse v d) = true.
Proof.
  intros Hd. unfold number_setting, JS.or_default.
  destruct (JS.truthy (match v with
                       | Some text => parse text
                       | None => S754_nan
                       end)) eqn:Hv; [exact Hv | exact Hd].
Qed.

Lemma number_setting_default (parse : string -> JS.number)
      (v : option string) (d : JS.number) :
  falsy_variable parse v -> number_setting parse v d = d.
Proof.
  unfold falsy_variable, number_setting, JS.or_default.
  destruct v as [text |]; [intros -> | intros _]; reflexivity.
Qed.

(** What config.js exports when it exports. *)
Lemma load_config_exports (env : Env) (exports : Exports) :
  load_config env = Exported exports ->
  privateKey (settings exports) <> ""
  /\ env "PRIVATE_KEY" = Some (privateKey (settings exports))
  /\ buyBelow (settings exports)
     = Some (number_setting parseFloat (env "BUY_PRICE_BELOW") thousandth)
  /\ sellAbove (settings exports)
     = Some (number_setting parseFloat (env "SELL_PRICE_ABOVE") hundredth)
  /\ swapAmount (settings exports)
     = Some (number_setting parseFloat (env "SWAP_AMOUNT_ETH") hundredth)
  /\ sellPercentage (settings exports)
     = Some (number_setting parseInt (env "SELL_PERCENTAGE") (JS.of_Z 100))
  /\ slippage (settings exports)
     = Some (number_setting parseFloat (env "SLIPPAGE")
                            (binary_normalize 53 1024 1 (-1) false))
  /\ checkInterval (settings exports)
     = Some (number_setting parseInt (env "CHECK_INTERVAL")
                            (JS.of_Z 30000))
  /\ tokenAddressSetting exports
     = text_setting (env "TOKEN_ADDRESS") trackedToken.
Proof.
  unfold load_config. cbv zeta. cbn [settings privateKey].
  unfold text_setting at 1 2, JS.or_default.
  destruct (env "PRIVATE_KEY") as [[| c key] |]; cbn [JS.truthy_string negb];
    try discriminate.
  intros [= <-]. cbn [settings privateKey tokenAddressSetting].
  repeat split. discriminate.
Qed.

(** X27: config.js refuses to export without a key.  When
    [PRIVATE_KEY] is unset or empty, loading the configuration prints
    "ERROR: PRIVATE_KEY environment variable is required!" and ends
    the process with exit code 1; otherwise the configuration is
    exported with that key, whatever the other variables hold. *)
Theorem X27_config_requires_private_key (env : Env) :
  match env "PRIVATE_KEY" with
  | Some (String c key) =>
      exists exports,
        load_config env = Exported exports
        /\ privateKey (settings exports) = String c key
  | _ =>
      load_config env
      = Exit 1 "ERROR: PRIVATE_KEY environment variable is required!"
  end.
Proof.
  unfold load_config. cbv zeta. cbn [settings privateKey].
  unfold text_setting at 1 2, JS.or_default.
  destruct (env "PRIVATE_KEY") as [[| c key] |]; cbn [JS.truthy_string negb].
  - reflexivity.
  - eexists. split; reflexivity.
  - reflexivity.
Qed.

(** X28: an exported configuration is complete.  Both thresholds, the
    buy amount, the sell percentage, the slippage and the check
    interval are present and truthy, so the bot's own fallbacks
    ([slippage || 0.5], [checkInterval || 30000],
    [sellPercentage || 100]) never apply, and [checkPriceConditions]
    never throws on it. *)
Theorem X28_exported_settings_are_truthy (env : Env) (exports : Exports) :
  load_config env = Exported exports ->
  set_and_truthy (buyBelow (settings exports))
  /\ set_and_truthy (sellAbove (settings exports))
  /\ set_and_truthy (swapAmount (settings exports))
  /\ set_and_truthy (sellPercentage (settings exports))
  /\ slippage (settings exports)
     = Some (slippage_or_default (settings exports))
  /\ checkInterval (settings exports)
     = Some (checkInterval_or_default (settings exports))
  /\ forall p, exists r, checkPriceConditions (settings exports) p = Ok r.
Proof.
  intros Hload.
  destruct (load_config_exports env exports Hload)
    as [_ [_ [Hb [Ha [Hamount [Hpct [Hslip Hint]]]]]]].
  destruct Hint as [Hint _].
  assert (Hhalf : JS.truthy (binary_normalize 53 1024 1 (-1) false) = true)
    by reflexivity.
  split; [ | split; [ | split; [ | split; [ | split; [ | split]]]]].
  - eexists. split; [exact Hb | ]. now apply number_setting_truthy.
  - eexists. split; [exact Ha | ]. now apply number_setting_truthy.
  - eexists. split; [exact Hamount | ]. now apply number_setting_truthy.
  - eexists. split; [exact Hpct | ]. now apply number_setting_truthy.
  - unfold slippage_or_default. rewrite Hslip. unfold JS.or_default at 1.
    rewrite (number_setting_truthy _ _ _ Hhalf). reflexivity.
  - unfold checkInterval_or_default. rewrite Hint. unfold JS.or_default at 1.
    rewrite number_setting_truthy by reflexivity. reflexivity.
  - intros p. unfold checkPriceConditions.
    unfold buyBelow, sellAbove in Hb, Ha.
    destruct (conditions (settings exports)) as [conds |];
      [ | discriminate Hb].
    destruct (buyWhen conds) as [bw |]; [ | discriminate Hb].
    destruct (sellWhen conds) as [sw |]; [ | discriminate Ha].
    rewrite Hb, Ha.
    destruct (JS.truthy _ && JS.le p _); [eexists; reflexivity | ].
    destruct (JS.truthy _ && JS.ge p _); eexists; reflexivity.
Qed.

(** X29: the environment cannot switch a rule off.  A threshold
    variable that is unset, or that parses to 0 or NaN, is replaced by
    the default (0.001 for buying, 0.01 for selling), so the rule
    stays active: with such a [BUY_PRICE_BELOW] the evaluator returns
    a buy intent at every price at or below 0.001, and with such a
    [SELL_PRICE_ABOVE] it returns an intent at every price at or above
    0.01. *)
Theorem X29_environment_cannot_switch_a_rule_off
        (env : Env) (exports : Exports) (p : JS.number) :
  load_config env = Exported exports ->
  (falsy_variable parseFloat (env "BUY_PRICE_BELOW") ->
   JS.le p thousandth = true ->
   intent_action (checkPriceConditions (settings exports) p) = Some buy)
  /\ (falsy_variable parseFloat (env "SELL_PRICE_ABOVE") ->
      JS.ge p hundredth = true ->
      intent_action (checkPriceConditions (settings exports) p) <> None).
Proof.
  intros Hload.
  destruct (load_config_exports env exports Hload)
    as [_ [_ [Hb [Ha _]]]].
  rewrite checkPriceConditions_decision. unfold decision, fires.
  rewrite Hb, Ha. split.
  - intros Hfalsy Hle.
    rewrite (number_setting_default _ _ _ Hfalsy), Hle. reflexivity.
  - intros Hfalsy Hge.
    rewrite (number_setting_default _ _ _ Hfalsy), Hge.
    destruct (JS.truthy _ && JS.le p _); discriminate.
Qed.

End EntryPointBehaviour.

(* ===================================================================== *)
(** ** Concrete runs *)
(* ===================================================================== *)

Section ConcreteRuns.

Import Sample.

(** C1 at thresholds 1 and 2 and price 0.5. *)
Lemma C1_witness :
  buyBelow cfgOneTwo = Some one
  /\ sellAbove cfgOneTwo = Some two
  /\ JS.truthy one = true
  /\ JS.truthy two = true
  /\ @evaluation_rule calm cfgOneTwo one two half.
Proof.
  split; [reflexivity | ].
  split; [reflexivity | ].
  split; [reflexivity | ].
  split; [reflexivity | ].
  apply (@C1_evaluation_with_truthy_thresholds calm cfgOneTwo one two half);
    reflexivity.
Defined.

(** C1 as stated fails for a buy threshold of 0: with [b = 0 < 1 = a]
    and price 0, [p <= b] holds and no Buy intent is returned. *)
Lemma C1_counterexample_zero_threshold :
  buyBelow cfgZero = Some zero
  /\ sellAbove cfgZero = Some one
  /\ ~ @evaluation_rule calm cfgZero zero one zero.
Proof.
  split; [reflexivity | ].
  split; [reflexivity | ].
  intros [Hordered _].
  destruct (Hordered eq_refl) as [[_ Hbuy] _].
  specialize (Hbuy eq_refl).
  vm_compute in Hbuy. discriminate.
Qed.

(** C2 at a balance of 1000 tokens (10^21 smallest units) and 50
    percent: the amount is 500 tokens. *)
Lemma C2_witness :
  @parseUnits calm "1000.0" 18 = Ok (1000 * 10 ^ 18)%Z
  /\ (0 <= 1000 * 10 ^ 18)%Z
  /\ sellPercentage (config (bot (fresh calm cfgOneTwo))) = Some fifty
  /\ JS.to_integer fifty = Some 50%Z
  /\ (0 < 50 < BigNumber.MAX_SAFE)%Z
  /\ @sized_by_percentage calm (fresh calm cfgOneTwo) "1000.0"
                          (1000 * 10 ^ 18) 50.
Proof.
  split; [reflexivity | ].
  split; [lia | ].
  split; [reflexivity | ].
  split; [reflexivity | ].
  split; [unfold BigNumber.MAX_SAFE; lia | ].
  apply (@C2_sell_sizing_positive_percentage
           calm (fresh calm cfgOneTwo) "1000.0" (1000 * 10 ^ 18) fifty 50).
  - reflexivity.
  - lia.
  - reflexivity.
  - reflexivity.
  - unfold BigNumber.MAX_SAFE. lia.
Defined.

(** C2 as stated fails for a sell percentage of 0: at a balance of
    1000 tokens the amount is the whole balance, not
    [floor(B * 0 / 100) = 0]. *)
Lemma C2_counterexample_zero_percentage :
  @parseUnits calm "1000.0" 18 = Ok (1000 * 10 ^ 18)%Z
  /\ sellPercentage (config (bot (fresh calm cfgZero))) = Some zero
  /\ JS.to_integer zero = Some 0%Z
  /\ @sellAmount (config (bot (fresh calm cfgZero))) (1000 * 10 ^ 18)
     = Ok (1000 * 10 ^ 18)%Z
  /\ ~ @sized_by_percentage calm (fresh calm cfgZero) "1000.0"
                            (1000 * 10 ^ 18) 0.
Proof.
  split; [reflexivity | ].
  split; [reflexivity | ].
  split; [reflexivity | ].
  split; [reflexivity | ].
  intros [Hsize _]. vm_compute in Hsize. discriminate.
Qed.



(** C4 on a started bot, following a launched loop for 3 turns. *)
Lemma C4_witness :
  isRunning (bot (started calm cfgOneTwo)) = true
  /\ @start calm 3 (started calm cfgOneTwo)
     = @log calm "Bot is already running" (started calm cfgOneTwo).
Proof.
  split; [reflexivity | ].
  apply (@C4_start_while_running calm 3 (started calm cfgOneTwo)).
  reflexivity.
Defined.

(** C5 on a fresh bot. *)
Lemma C5_witness :
  isRunning (bot (fresh calm cfgOneTwo)) = false
  /\ isRunning (bot (fst (@stop calm (fresh calm cfgOneTwo)))) = false.
Proof.
  split; [reflexivity | ].
  apply (@C5_stop_while_not_running calm (fresh calm cfgOneTwo)).
  reflexivity.
Defined.

(** C5 as stated fails on a fresh bot: [stop] changes its log
    buffer. *)
Lemma C5_counterexample_log_entry :
  isRunning (bot (fresh calm cfgOneTwo)) = false
  /\ ~ @stop_changes_nothing calm (fresh calm cfgOneTwo).
Proof.
  split; [reflexivity | ].
  unfold stop_changes_nothing. intros H.
  apply (f_equal logs) in H. vm_compute in H. discriminate.
Qed.



(** C7 on a bot without rules: the evaluation throws in every turn,
    and the entry for the error is written. *)
Lemma C7_witness :
  isRunning (bot (started calm cfgNoRules)) = true
  /\ snd (@iteration calm (started calm cfgNoRules))
     = Throw (TypeError "buyWhen")
  /\ @writeFileSync calm
       (tick (fst (@iteration calm (started calm cfgNoRules))))
     = Ok tt
  /\ @monitorLoop calm 1 (started calm cfgNoRules)
     = @monitorLoop calm 0
         (fst (@recover calm (TypeError "buyWhen")
                        (fst (@iteration calm (started calm cfgNoRules))))).
Proof.
  split; [reflexivity | ].
  split; [vm_compute; reflexivity | ].
  split; [reflexivity | ].
  apply (proj1 (proj2 (proj2 (@C7_loop_survives_errors calm)))
               0 (started calm cfgNoRules)
               (fst (@iteration calm (started calm cfgNoRules)))
               (TypeError "buyWhen")).
  - reflexivity.
  - vm_compute. reflexivity.
  - reflexivity.
Defined.

(** C7 as stated fails on a bot without rules once the disk is full:
    the evaluation throws in the body of the turn, the [catch] block
    of the loop logs the error, the write of the log file throws, and
    the loop ends on that error with the run flag set. *)
Lemma C7_counterexample_failed_write :
  isRunning (bot (started (withDisk calm (fullFrom 3)) cfgNoRules)) = true
  /\ snd (@iteration (withDisk calm (fullFrom 3))
                     (started (withDisk calm (fullFrom 3)) cfgNoRules))
     = Throw (TypeError "buyWhen")
  /\ snd (@monitorLoop (withDisk calm (fullFrom 3)) 1
                       (started (withDisk calm (fullFrom 3)) cfgNoRules))
     = Throw "ENOSPC: no space left on device, write"
  /\ isRunning
       (bot (fst (@monitorLoop
                    (withDisk calm (fullFrom 3)) 1
                    (started (withDisk calm (fullFrom 3)) cfgNoRules))))
     = true
  /\ ~ @survives (withDisk calm (fullFrom 3)) 1
                 (started (withDisk calm (fullFrom 3)) cfgNoRules).
Proof.
  split; [reflexivity | ].
  split; [vm_compute; reflexivity | ].
  split; [vm_compute; reflexivity | ].
  split; [vm_compute; reflexivity | ].
  intros [status Hres]. vm_compute in Hres. discriminate.
Qed.

(** C8 at a buy threshold of 0 and price 0. *)
Lemma C8_witness :
  threshold_off (rule_threshold buy cfgZero) = true
  /\ intent_action (@checkPriceConditions calm cfgZero zero) <> Some buy.
Proof.
  split; [reflexivity | ].
  apply (@C8_rule_with_threshold_off_never_fires calm cfgZero buy zero).
  reflexivity.
Defined.

(** C9 at a balance of 1000 tokens and a sell percentage of 0. *)
Lemma C9_witness :
  @parseUnits calm "1000.0" 18 = Ok (1000 * 10 ^ 18)%Z
  /\ falsy_percentage (sellPercentage (config (bot (fresh calm cfgZero))))
     = true
  /\ @sellAmount (config (bot (fresh calm cfgZero))) (1000 * 10 ^ 18)
     = Ok (1000 * 10 ^ 18)%Z.
Proof.
  split; [reflexivity | ].
  split; [reflexivity | ].
  apply (@C9_falsy_percentage_sells_full_balance
           calm (fresh calm cfgZero) "1000.0" (1000 * 10 ^ 18)); reflexivity.
Defined.

(** One turn at price 2 with 1000 tokens held and 50 percent to sell:
    the quote and the swap-build request are for 500 tokens. *)
Example turn_sells_half :
  amounts (trace (fst (@monitorLoop calm 1 (started calm cfgOneTwo))))
  = ["500000000000000000000"; "500000000000000000000"].
Proof. vm_compute. reflexivity. Qed.

(** One turn at a price between the thresholds: no request is made. *)
Example turn_between_thresholds :
  amounts (trace (fst (@monitorLoop inBetween 1
                                    (started inBetween cfgOneTwo))))
  = [].
Proof. vm_compute. reflexivity. Qed.

(** A [stop()] during the first price fetch: the turn in flight runs
    to its end, then the loop returns. *)
Example stop_during_fetch :
  snd (@monitorLoop stoppedEarly 3 (started stoppedEarly cfgOneTwo))
  = Ok Returned
  /\ fetches (trace (fst (@monitorLoop stoppedEarly 3
                                       (started stoppedEarly cfgOneTwo))))
     = 1.
Proof. vm_compute. split; reflexivity. Qed.

End ConcreteRuns.

(* ===================================================================== *)
(** ** Concrete runs of the further properties *)
(* ===================================================================== *)

Section FurtherRuns.

Import Sample.

(** X3 in the calm world, where every write succeeds. *)
Lemma X3_witness :
  @writes_succeed calm
  /\ exists o,
      snd (@executeSwap calm swapData (fresh calm cfgOneTwo)) = Ok o
      /\ well_formed_outcome o.
Proof.
  assert (Hw : @writes_succeed calm) by (intros t; reflexivity).
  split; [exact Hw | ].
  exact (proj2 (@X3_executeSwap_always_reports
                  calm swapData (fresh calm cfgOneTwo)) Hw).
Defined.

(** X4 in the calm world: the swap is built, accepted and confirmed. *)
Lemma X4_witness :
  build_payload (@axiosPostSwap calm (tick (fresh calm cfgOneTwo)))
  = Ok txData
  /\ snd (@executeSwap calm swapData (fresh calm cfgOneTwo))
     = Ok {| success := true;
             txHash := Some "0xhash";
             receipt := Some {| blockNumber := 12 |};
             error := None |}.
Proof.
  split; [reflexivity | ].
  exact (proj1 (@X4_executeSwap_success_path
                  calm swapData txData (fresh calm cfgOneTwo)
                  {| hash := "0xhash" |} {| blockNumber := 12 |}
                  eq_refl eq_refl eq_refl eq_refl eq_refl)).
Defined.

(** X5 in the calm world, from the outcome [executeSwap] returns. *)
Lemma X5_witness :
  exists txData transaction rcpt,
    build_payload (@axiosPostSwap calm (tick (fresh calm cfgOneTwo)))
    = Ok txData
    /\ @walletSendTransaction
         calm (tick (@built calm swapData (fresh calm cfgOneTwo)))
       = Ok transaction
    /\ @transactionWait
         calm (tick (@announced calm swapData txData transaction
                                (fresh calm cfgOneTwo)))
       = Ok rcpt
    /\ Some "0xhash" = Some (hash transaction)
    /\ Some {| blockNumber := 12 |} = Some rcpt.
Proof.
  apply (@X5_executeSwap_success_means_confirmed
           calm swapData (fresh calm cfgOneTwo)
           {| success := true;
              txHash := Some "0xhash";
              receipt := Some {| blockNumber := 12 |};
              error := None |}).
  - vm_compute. reflexivity.
  - reflexivity.
Defined.

(** X6 with a signer that rejects. *)
Lemma X6_witness :
  @walletSendTransaction
    rejecting (tick (@built rejecting swapData (fresh rejecting cfgOneTwo)))
  = Throw "insufficient funds"
  /\ snd (@executeSwap rejecting swapData (fresh rejecting cfgOneTwo))
     = Ok (failed "insufficient funds").
Proof.
  split; [reflexivity | ].
  exact (proj1 (@X6_executeSwap_submission_rejected
                  rejecting swapData txData (fresh rejecting cfgOneTwo)
                  "insufficient funds" eq_refl eq_refl)).
Defined.

(** X7 with a confirmation that never arrives. *)
Lemma X7_witness :
  @transactionWait
    unconfirmed
    (tick (@announced unconfirmed swapData txData {| hash := "0xhash" |}
                      (fresh unconfirmed cfgOneTwo)))
  = Throw "timeout"
  /\ snd (@executeSwap unconfirmed swapData (fresh unconfirmed cfgOneTwo))
     = Ok (failed "timeout").
Proof.
  split; [reflexivity | ].
  exact (proj1 (@X7_executeSwap_wait_rejected
                  unconfirmed swapData txData (fresh unconfirmed cfgOneTwo)
                  {| hash := "0xhash" |} "timeout"
                  eq_refl eq_refl eq_refl eq_refl)).
Defined.

(** X8 for two configurations that differ in the percentage triggers,
    at price 0.5. *)
Lemma X8_witness :
  buyBelow cfgOneTwo = buyBelow cfgTriggers
  /\ sellAbove cfgOneTwo = sellAbove cfgTriggers
  /\ intent_action (@checkPriceConditions calm cfgOneTwo half)
     = intent_action (@checkPriceConditions calm cfgTriggers half).
Proof.
  split; [reflexivity | ].
  split; [reflexivity | ].
  apply (@X8_percentage_triggers_inert calm cfgOneTwo cfgTriggers half);
    reflexivity.
Defined.

(** X9 for the thresholds 1 and 2. *)
Lemma X9_witness :
  conditions cfgOneTwo <> None
  /\ @checkPriceConditions calm cfgOneTwo S754_nan = Ok None.
Proof.
  assert (H : conditions cfgOneTwo <> None) by discriminate.
  split; [exact H | ].
  exact (proj2 (@X9_nan_price_no_intent calm cfgOneTwo) H).
Defined.

(** X10 for a configuration without [conditions]. *)
Lemma X10_witness :
  conditions cfgNoRules = None
  /\ @checkPriceConditions calm cfgNoRules one = Throw (TypeError "buyWhen").
Proof.
  split; [reflexivity | ].
  exact (proj1 (@X10_evaluator_throws_iff_no_conditions calm cfgNoRules one)
               eq_refl).
Defined.

(** X11 at the prices 1 and 0.5: buying at 1 implies buying at 0.5. *)
Lemma X11_witness :
  intent_action (@checkPriceConditions calm cfgOneTwo one) = Some buy
  /\ JS.le half one = true
  /\ intent_action (@checkPriceConditions calm cfgOneTwo half) = Some buy.
Proof.
  split; [reflexivity | ].
  split; [reflexivity | ].
  exact (proj1 (@X11_rules_monotone calm cfgOneTwo one half)
               eq_refl eq_refl).
Defined.

(** X12 with a price service that is down. *)
Lemma X12_witness :
  http_payload "Failed to fetch token price"
               (@axiosGetTokens noPrice (tick (started noPrice cfgOneTwo)))
  = Throw "network down"
  /\ snd (@iteration noPrice (started noPrice cfgOneTwo)) = Ok tt.
Proof.
  split; [reflexivity | ].
  exact (proj1 (proj1 (@X12_turn_without_price
                         noPrice (started noPrice cfgOneTwo) "network down"
                         eq_refl)
                      eq_refl)).
Defined.

(** X13 at a price of 1.5, between the thresholds 1 and 2. *)
Lemma X13_witness :
  @checkPriceConditions
    inBetween (config (bot (started inBetween cfgOneTwo)))
    (binary_normalize 53 1024 3 (-1) false)
  = Ok None
  /\ snd (@iteration inBetween (started inBetween cfgOneTwo)) = Ok tt.
Proof.
  split; [reflexivity | ].
  exact (proj1 (proj1 (@X13_turn_without_intent
                         inBetween (started inBetween cfgOneTwo)
                         {| price := binary_normalize 53 1024 3 (-1) false |}
                         eq_refl eq_refl)
                      eq_refl)).
Defined.

(** X16 at a balance of 1000 and 50 percent. *)
Lemma X16_witness :
  sellPercentage cfgOneTwo = Some fifty
  /\ JS.to_integer fifty = Some 50%Z
  /\ exists X, sellAmount cfgOneTwo 1000 = Ok X
               /\ ((50 <= 100)%Z -> (0 <= X <= 1000)%Z).
Proof.
  split; [reflexivity | ].
  split; [reflexivity | ].
  assert (Hsafe : (50 < BigNumber.MAX_SAFE)%Z) by reflexivity.
  assert (HB : (0 <= 1000)%Z) by discriminate.
  assert (Hz : (0 < 50)%Z) by reflexivity.
  destruct (proj1 (X16_sell_amount_bounds cfgOneTwo 1000 fifty 50
                                          eq_refl eq_refl HB Hz) Hsafe)
    as [X [Hsize [Hbound _]]].
  exists X. split; [exact Hsize | exact Hbound].
Defined.

(** X17 at a balance of 1000 tokens and a sell percentage of 0.5. *)
Lemma X17_witness :
  @parseUnits calm "1000.0" 18 = Ok (1000 * 10 ^ 18)%Z
  /\ sellPercentage (config (bot (fresh calm cfgFraction))) = Some half
  /\ fractional half
  /\ exists e,
      sellAmount (config (bot (fresh calm cfgFraction))) (1000 * 10 ^ 18)
      = Throw e
      /\ @sellBranch calm "1000.0" (fresh calm cfgFraction)
         = (fresh calm cfgFraction, Throw e).
Proof.
  assert (Hfrac : fractional half) by (vm_compute; reflexivity).
  split; [reflexivity | ].
  split; [reflexivity | ].
  split; [exact Hfrac | ].
  exact (@X17_fractional_percentage_throws
           calm "1000.0" (fresh calm cfgFraction) (1000 * 10 ^ 18) half
           eq_refl eq_refl Hfrac).
Defined.

(** X19 on a fresh bot: a stop, two turns of a loop and a status
    read. *)
Lemma X19_witness :
  forallb not_start [OpStop; OpLoop 2; OpGetStatus] = true
  /\ isRunning (bot (fresh calm cfgOneTwo)) = false
  /\ isRunning (bot (@run_ops calm [OpStop; OpLoop 2; OpGetStatus]
                              (fresh calm cfgOneTwo))) = false.
Proof.
  split; [reflexivity | ].
  split; [reflexivity | ].
  exact (proj1 (@X19_only_start_sets_the_run_flag
                  calm [OpStop; OpLoop 2; OpGetStatus]
                  (fresh calm cfgOneTwo) eq_refl eq_refl)).
Defined.

(** X21 on a started bot. *)
Lemma X21_witness :
  isRunning (bot (started calm cfgOneTwo)) = true
  /\ isRunning (bot (fst (@stop calm (started calm cfgOneTwo)))) = false.
Proof.
  split; [reflexivity | ].
  exact (proj1 (proj2 (@X21_stop_while_running
                         calm (started calm cfgOneTwo) eq_refl))).
Defined.

(** X22 on a fresh bot, following the loop for one turn. *)
Lemma X22_witness :
  isRunning (bot (fresh calm cfgOneTwo)) = false
  /\ snd (@start calm 1 (fresh calm cfgOneTwo)) = Ok tt
  /\ isRunning (bot (fst (@start calm 1 (fresh calm cfgOneTwo)))) = true.
Proof.
  split; [reflexivity | ].
  pose proof (@X22_start_when_idle calm 1 (fresh calm cfgOneTwo) eq_refl)
    as [Hret [_ [_ [_ [_ Hflag]]]]].
  split; [exact Hret | ].
  apply Hflag. intros t. reflexivity.
Defined.

(** X23 with a [stop()] that arrives during the first price request. *)
Lemma X23_witness :
  isRunning (bot (started stoppedEarly cfgOneTwo)) = true
  /\ @stopRequested stoppedEarly (tick (started stoppedEarly cfgOneTwo))
     = true
  /\ isRunning (bot (fst (@monitorLoop stoppedEarly 3
                                       (started stoppedEarly cfgOneTwo))))
     = false.
Proof.
  split; [reflexivity | ].
  split; [reflexivity | ].
  exact (proj1 (proj2 (proj2 (@X23_stop_request_ends_the_loop
                                stoppedEarly 2
                                (started stoppedEarly cfgOneTwo)
                                eq_refl eq_refl)))).
Defined.

(** X24 for a token whose contract rejects the balance-of call: the
    decimals are not asked. *)
Lemma X24_witness :
  @contractBalanceOf brokenLedger (tick (fresh brokenLedger cfgOneTwo))
  = Throw "call revert exception"
  /\ trace_starts_with
       (ContractBalanceOf
          "0xtoken" (walletAddress (bot (fresh brokenLedger cfgOneTwo)))
          (@contractBalanceOf brokenLedger
                              (tick (fresh brokenLedger cfgOneTwo))))
       is_sink (fresh brokenLedger cfgOneTwo)
       (fst (@getWalletBalance brokenLedger "0xtoken"
                               (fresh brokenLedger cfgOneTwo))).
Proof.
  split; [reflexivity | ].
  pose proof (proj2 (@X24_balance_read_queries
                       brokenLedger "0xtoken"
                       (fresh brokenLedger cfgOneTwo))) as H.
  hnf in H. destruct H as [_ H].
  exact (H "call revert exception" eq_refl).
Defined.

(** X25 at price 2 with the thresholds 1 and 2, 1000 tokens held and
    50 percent to sell: the turn asks a quote for 500 tokens. *)
Lemma X25_witness :
  @writes_succeed calm
  /\ http_payload "Failed to fetch token price"
                  (@axiosGetTokens calm (tick (started calm cfgOneTwo)))
     = Ok {| price := two |}
  /\ exists c,
      @checkPriceConditions calm (config (bot (started calm cfgOneTwo))) two
      = Ok (Some c)
      /\ action c = sell
      /\ snd (@getWalletBalance
                calm (tokenAddress (bot (started calm cfgOneTwo)))
                (@native_read calm {| price := two |} c
                              (started calm cfgOneTwo)))
         = Ok "1000.0"
      /\ @sell_amount calm (config (bot (started calm cfgOneTwo))) "1000.0"
         = Ok (500 * 10 ^ 18)%Z
      /\ first_request
           (tokenAddress (bot (started calm cfgOneTwo))) AddressZero
           (BigNumber.toString (500 * 10 ^ 18))
           (started calm cfgOneTwo)
           (fst (@iteration calm (started calm cfgOneTwo))).
Proof.
  assert (Hw : @writes_succeed calm) by (intros t; reflexivity).
  split; [exact Hw | ].
  split; [reflexivity | ].
  eexists. split; [reflexivity | ]. split; [reflexivity | ].
  split; [vm_compute; reflexivity | ].
  split; [vm_compute; reflexivity | ].
  refine (proj2 (@X25_turn_with_intent
                   calm (started calm cfgOneTwo) {| price := two |} _
                   Hw eq_refl eq_refl)
                "1000.0" (500 * 10 ^ 18)%Z _ _).
  - vm_compute. reflexivity.
  - vm_compute. reflexivity.
Defined.

(** X28 for an environment that sets the key and two thresholds. *)
Lemma X28_witness :
  exists exports,
    @load_config globals env = Exported exports
    /\ set_and_truthy (buyBelow (settings exports))
    /\ set_and_truthy (sellPercentage (settings exports)).
Proof.
  eexists. split; [reflexivity | ].
  pose proof (@X28_exported_settings_are_truthy calm globals env _ eq_refl)
    as [Hb [_ [_ [Hpct _]]]].
  split; [exact Hb | exact Hpct].
Defined.

(** X29 for a [BUY_PRICE_BELOW] of 0, at price 0. *)
Lemma X29_witness :
  falsy_variable (@parseFloat globals) (env "BUY_PRICE_BELOW")
  /\ JS.le zero thousandth = true
  /\ exists exports,
      @load_config globals env = Exported exports
      /\ intent_action (@checkPriceConditions calm (settings exports) zero)
         = Some buy.
Proof.
  assert (Hfalsy : falsy_variable (@parseFloat globals)
                                  (env "BUY_PRICE_BELOW"))
    by reflexivity.
  split; [exact Hfalsy | ].
  split; [reflexivity | ].
  eexists. split; [reflexivity | ].
  exact (proj1 (@X29_environment_cannot_switch_a_rule_off
                  calm globals env _ zero eq_refl)
               Hfalsy eq_refl).
Defined.

End FurtherRuns.
